(** * The UUID analysis pipeline of [main.py]

    A shallow embedding of the four component functions ([fetch_uuids],
    [analyze_with_ai], [store_results], [send_notification]), of the
    orchestrator [run_pipeline] and of the [POST /pipeline] endpoint,
    followed by the properties the specification states about them.

    Python values are JSON-shaped values, Python functions are
    computations in a state-and-exception monad over the observable
    state of the process (the result file, the standard output, the
    number of calls made to each outside service).  What the outside
    services answer is not decided by the program: it is an environment
    [Env] every definition is parametric in, and so are the libraries
    [Lib] ([json.loads], [json.dumps], [repr]).

    A [str] is a sequence of code points, lone surrogates included:
    [json.loads] returns one for the escape [\ud800], and [print]
    raises [UnicodeEncodeError] on it, the standard output being taken
    to be UTF-8 with the strict error handler, which is Python's
    default.

    The file has the program first, then a model [PyJson] of the
    libraries, the vocabulary of the statements and the concrete
    scenarios; the properties follow: the model of [json] reads back
    what it writes, then one section per stage of the pipeline, the
    orchestrator and the endpoint, and last the statements evaluated
    on the scenarios. *)

From Stdlib Require Import String Ascii List Arith NArith ZArith Lia Bool.
From Stdlib Require Import DecimalString.
From Stdlib Require DecimalFacts DecimalPos DecimalZ.
Import ListNotations.
Local Open Scope string_scope.
Local Open Scope list_scope.
Set Warnings "-register-all".

(** ** Strings *)

Module Str.

Definition nl : string := String "010"%char EmptyString.
Definition dq : string := String "034"%char EmptyString.

(** [str(n)] for a non-negative integer. *)
Definition of_nat (n : nat) : string :=
  NilEmpty.string_of_uint (Nat.to_uint n).

(** [str(z)] for an integer. *)
Definition of_Z (z : Z) : string :=
  NilEmpty.string_of_int (Z.to_int z).

Fixpoint rev_acc (s acc : string) : string :=
  match s with
  | EmptyString => acc
  | String c s' => rev_acc s' (String c acc)
  end.

Definition rev (s : string) : string := rev_acc s EmptyString.

(** The characters [str.isspace] accepts below 256. *)
Definition isspace (c : ascii) : bool :=
  let n := nat_of_ascii c in
  ((9 <=? n)%nat && (n <=? 13)%nat) || ((28 <=? n)%nat && (n <=? 32)%nat)
  || (n =? 133)%nat || (n =? 160)%nat.

Fixpoint lstrip (s : string) : string :=
  match s with
  | EmptyString => EmptyString
  | String c s' => if isspace c then lstrip s' else s
  end.

(** [s.strip()] *)
Definition strip (s : string) : string := rev (lstrip (rev (lstrip s))).

(** [s.startswith(p)] *)
Fixpoint startswith (p s : string) {struct p} : bool :=
  match p, s with
  | EmptyString, _ => true
  | String a p', String b s' => Ascii.eqb a b && startswith p' s'
  | String _ _, EmptyString => false
  end.

Fixpoint firstn (n : nat) (s : string) : string :=
  match n, s with
  | S n', String c s' => String c (firstn n' s')
  | _, _ => EmptyString
  end.

Definition hex_digit (n : nat) : ascii :=
  if (n <? 10)%nat then ascii_of_nat (48 + n) else ascii_of_nat (87 + n).

(** The four hexadecimal digits of a number below 65536, in lower
    case. *)
Definition hex4 (v : N) : string :=
  String (hex_digit (N.to_nat (v / 16 / 16 / 16)))
    (String (hex_digit (N.to_nat ((v / 16 / 16) mod 16)))
       (String (hex_digit (N.to_nat ((v / 16) mod 16)))
          (String (hex_digit (N.to_nat (v mod 16))) EmptyString))).

End Str.

(** ** Text

    A [str] is a sequence of code points.  It is held the way CPython
    holds it: in one byte per code point, a [string], when every code
    point is below 256, and as the list of its code points otherwise.
    What the outside hands to the program as text (a response body,
    the content of a completion, the message of a library's exception,
    the fields of a request, the reading of the clock) is taken to be
    of the first kind; a [str] of the second kind comes out of a
    literal of the source or of an escape of a JSON document. *)

Inductive pystr : Type :=
| Narrow (s : string)
| Wide (cps : list N).

Coercion Narrow : string >-> pystr.
Bind Scope string_scope with pystr.

Module PyStr.

Local Open Scope N_scope.

Fixpoint of_string (s : string) : list N :=
  match s with
  | EmptyString => []
  | String c s' => N_of_ascii c :: of_string s'
  end.

Definition code_points (t : pystr) : list N :=
  match t with
  | Narrow s => of_string s
  | Wide cps => cps
  end.

Fixpoint to_string (cps : list N) : string :=
  match cps with
  | [] => EmptyString
  | c :: l => String (ascii_of_N c) (to_string l)
  end.

Definition narrow (cps : list N) : bool := forallb (fun c => c <? 256) cps.

(** The [str] of the given code points. *)
Definition of_code_points (cps : list N) : pystr :=
  if narrow cps then Narrow (to_string cps) else Wide cps.

(** [a + b], which is also how an f-string puts its parts together. *)
Definition cat (a b : pystr) : pystr :=
  match a, b with
  | Narrow x, Narrow y => Narrow (x ++ y)%string
  | _, _ => Wide (code_points a ++ code_points b)%list
  end.

Fixpoint starts (p l : list N) : bool :=
  match p, l with
  | [], _ => true
  | a :: p', b :: l' => (a =? b) && starts p' l'
  | _ :: _, [] => false
  end.

(** [t.startswith(p)] *)
Definition startswith (p : string) (t : pystr) : bool :=
  match t with
  | Narrow s => Str.startswith p s
  | Wide cps => starts (of_string p) cps
  end.

(** The code points a UTF-8 text encodes, byte by byte; a byte that
    starts no sequence stands for itself. *)
Fixpoint utf8_decode (s : string) : list N :=
  match s with
  | EmptyString => []
  | String a s1 =>
      let x := N_of_ascii a in
      if x <? 0x80 then x :: utf8_decode s1
      else
        match s1 with
        | EmptyString => [x]
        | String b s2 =>
            let y := N_of_ascii b - 0x80 in
            if x <? 0xE0 then ((x - 0xC0) * 64 + y) :: utf8_decode s2
            else
              match s2 with
              | EmptyString => [x]
              | String c s3 =>
                  let z := N_of_ascii c - 0x80 in
                  if x <? 0xF0
                  then ((x - 0xE0) * 4096 + y * 64 + z) :: utf8_decode s3
                  else
                    match s3 with
                    | EmptyString => [x]
                    | String d s4 =>
                        ((x - 0xF0) * 262144 + y * 4096 + z * 64
                         + (N_of_ascii d - 0x80)) :: utf8_decode s4
                    end
              end
        end
  end.

(** The [str] a string literal of the source denotes: the file is
    UTF-8, and so are the literals of this file. *)
Definition utf8 (s : string) : pystr := of_code_points (utf8_decode s).

Definition is_high (c : N) : bool := (0xD800 <=? c) && (c <=? 0xDBFF).
Definition is_low (c : N) : bool := (0xDC00 <=? c) && (c <=? 0xDFFF).
Definition is_surrogate (c : N) : bool := (0xD800 <=? c) && (c <=? 0xDFFF).

(** The text can be encoded in UTF-8: it holds no surrogate. *)
Definition encodable (t : pystr) : bool :=
  match t with
  | Narrow _ => true
  | Wide cps => forallb (fun c => negb (is_surrogate c)) cps
  end.

(** The number of surrogates [l] starts with. *)
Fixpoint surrogate_run (l : list N) : nat :=
  match l with
  | c :: l' => if is_surrogate c then S (surrogate_run l') else O
  | [] => O
  end.

(** The first surrogate of [l], its position counted from [pos] and
    the length of the run of surrogates it starts. *)
Fixpoint first_surrogate (pos : nat) (l : list N) : option (nat * N * nat) :=
  match l with
  | [] => None
  | c :: l' =>
      if is_surrogate c then Some (pos, c, S (surrogate_run l'))
      else first_surrogate (S pos) l'
  end.

(** [str(e)] for the [UnicodeEncodeError] the encoding of [t] raises. *)
Definition encode_error (t : pystr) : string :=
  match first_surrogate 0 (code_points t) with
  | Some (pos, c, 1%nat) =>
      "'utf-8' codec can't encode character '\u" ++ Str.hex4 c
      ++ "' in position " ++ Str.of_nat pos ++ ": surrogates not allowed"
  | Some (pos, _, n) =>
      "'utf-8' codec can't encode characters in position " ++ Str.of_nat pos
      ++ "-" ++ Str.of_nat (pos + n - 1) ++ ": surrogates not allowed"
  | None => EmptyString
  end%string.

End PyStr.

Arguments PyStr.utf8 : simpl never.

Notation "a +++ b" := (PyStr.cat a b) (at level 60, right associativity).

(** ** Python values

    The values the program handles all come out of [json.loads] or are
    built from string and boolean literals, so a value is a JSON value.
    A [dict] keeps its keys in insertion order, which is the order
    [json.dump] writes them in: it is an association list, read with
    [dict_get] and written with [dict_set].  Numbers are the integers;
    floating-point numbers are not modelled.  The keys of a [dict] are
    the keys the program uses and reads, all below U+0100. *)

Inductive json : Type :=
| JNull
| JBool (b : bool)
| JInt (z : Z)
| JStr (s : pystr)
| JList (l : list json)
| JObject (d : list (string * json)).

Definition pydict : Type := list (string * json).

(** Induction on a value together with its items and members. *)
Fixpoint json_nested_ind (P : json -> Prop)
    (Hnull : P JNull) (Hbool : forall b, P (JBool b))
    (Hint : forall z, P (JInt z)) (Hstr : forall s, P (JStr s))
    (Hlist : forall l, Forall P l -> P (JList l))
    (Hobject : forall d, Forall (fun kv => P (snd kv)) d -> P (JObject d))
    (v : json) : P v :=
  match v with
  | JNull => Hnull
  | JBool b => Hbool b
  | JInt z => Hint z
  | JStr s => Hstr s
  | JList l =>
      Hlist l
        ((fix all (l : list json) : Forall P l :=
            match l with
            | [] => Forall_nil P
            | x :: l' =>
                Forall_cons x
                  (json_nested_ind P Hnull Hbool Hint Hstr Hlist Hobject x)
                  (all l')
            end) l)
  | JObject d =>
      Hobject d
        ((fix all (d : list (string * json))
            : Forall (fun kv => P (snd kv)) d :=
            match d with
            | [] => Forall_nil _
            | kv :: d' =>
                Forall_cons kv
                  (json_nested_ind P Hnull Hbool Hint Hstr Hlist Hobject
                     (snd kv))
                  (all d')
            end) d)
  end.

(** [d[k]] as a lookup: [None] stands for [KeyError]. *)
Fixpoint dict_get (k : string) (d : pydict) : option json :=
  match d with
  | [] => None
  | (k', v) :: d' => if String.eqb k k' then Some v else dict_get k d'
  end.

(** [d[k] = v]: an existing key keeps its place, a new key goes last. *)
Fixpoint dict_set (k : string) (v : json) (d : pydict) : pydict :=
  match d with
  | [] => [(k, v)]
  | (k', v') :: d' =>
      if String.eqb k k' then (k', v) :: d' else (k', v') :: dict_set k v d'
  end.

(** [k in d] *)
Definition dict_has (k : string) (d : pydict) : bool :=
  match dict_get k d with Some _ => true | None => false end.

(** ** Exceptions

    Every exception the program can meet is an instance of [Exception]:
    the class name and the text [str(e)] gives.  [HTTPException] is
    FastAPI's, with its status code and detail.  What is not an
    [Exception] and stops the interpreter ([KeyboardInterrupt],
    [SystemExit]) is outside the model. *)

Inductive exn : Type :=
| PyExc (cls : string) (msg : string)
| HTTPException (status_code : nat) (detail : string).

(** [str(e)] *)
Definition str_exn (e : exn) : string :=
  match e with
  | PyExc _ msg => msg
  | HTTPException code detail => Str.of_nat code ++ ": " ++ detail
  end.

Inductive result (A : Type) : Type :=
| Ok (a : A)
| Raise (e : exn).
Arguments Ok {A} a.
Arguments Raise {A} e.

(** [v[k]] for a string key [k], on any value. *)
Definition getitem (v : json) (k : string) : result json :=
  match v with
  | JObject d =>
      match dict_get k d with
      | Some x => Ok x
      | None => Raise (PyExc "KeyError" ("'" ++ k ++ "'"))
      end
  | JList _ =>
      Raise (PyExc "TypeError" "list indices must be integers or slices, not str")
  | JStr _ =>
      Raise (PyExc "TypeError" "string indices must be integers, not 'str'")
  | JInt _ => Raise (PyExc "TypeError" "'int' object is not subscriptable")
  | JBool _ => Raise (PyExc "TypeError" "'bool' object is not subscriptable")
  | JNull => Raise (PyExc "TypeError" "'NoneType' object is not subscriptable")
  end.

(** ** The libraries

    [json.loads] and [json.dumps(_, indent=2)] are library code, and so
    is [repr]: the program is parametric in them.  A concrete model of
    the three, [PyJson.lib], is given below and used wherever a
    statement is evaluated on a concrete input. *)

Record Lib : Type := {
  json_loads : string -> result json;
  json_dumps : json -> string;
  py_repr : json -> pystr
}.

(** [str(v)], which is also what an f-string field [{v}] formats to. *)
Definition py_str (L : Lib) (v : json) : pystr :=
  match v with
  | JStr s => s
  | _ => py_repr L v
  end.

(** ** The outside world

    What the process cannot decide: the value of the environment
    variable, what HTTPBin and the completion API answer to the n-th
    call, what the clock reads, and whether a file operation fails. *)

Inductive http_outcome : Type :=
| HttpFails (e : exn)                          (* httpx.get raises *)
| HttpResponse (status : nat) (body : string).

(** The completion API raises, or answers with the [content] of each
    choice's message ([None] when a message has no text). *)
Inductive chat_outcome : Type :=
| ChatFails (e : exn)
| ChatChoices (contents : list (option string)).

(** A failed write: [open(filename, 'w')] raises and the file is as it
    was, or the file was truncated and only the first [written]
    characters reached it. *)
Inductive write_fault : Type :=
| OpenFails (e : exn)
| WriteFails (e : exn) (written : nat).

Record Env : Type := {
  getenv_OPENAI_API_KEY : option string;
  http_get : nat -> http_outcome;
  chat_create : nat -> pystr -> chat_outcome;
  utcnow_isoformat : nat -> string;
  read_fault : nat -> option exn;
  write_fault_at : nat -> option write_fault
}.

(** What the process does that can be observed from outside. *)
Inductive event : Type :=
| EvPrint (text : pystr)
| EvHttpGet (url : string)
| EvChat (model : string) (prompt : pystr)
| EvExists (filename : string)
| EvRead (filename : string)
| EvWrite (filename : string).

(** The state the program reads and writes.  [file] is the content of
    [pipeline_results.json] ([None]: there is no such file), [trace]
    the events so far, the most recent first, and the counters tell how
    many times each outside service was asked. *)
Record State : Type := {
  http_calls : nat;
  chat_calls : nat;
  clock_reads : nat;
  file_ops : nat;
  file : option string;
  trace : list event
}.

(** ** Computations: state and exceptions

    A Python function is a function from the state to a result and the
    state afterwards.  An exception keeps the state it was raised in,
    which is what [try]/[except] sees. *)

Definition M (A : Type) : Type := State -> result A * State.

Definition ret {A} (a : A) : M A := fun st => (Ok a, st).

Definition raise {A} (e : exn) : M A := fun st => (Raise e, st).

Definition bind {A B} (c : M A) (k : A -> M B) : M B :=
  fun st =>
    match c st with
    | (Ok a, st') => k a st'
    | (Raise e, st') => (Raise e, st')
    end.

(** [try: body  except Exception as e: handler] *)
Definition try_except {A} (body : M A) (handler : exn -> M A) : M A :=
  fun st =>
    match body st with
    | (Ok a, st') => (Ok a, st')
    | (Raise e, st') => handler e st'
    end.

(** A part of the body of a [try], with how it ended: its result, or
    the exception the [except] clause is entered with. *)
Definition caught {A} (body : M A) : M (result A) :=
  fun st => let '(r, st') := body st in (Ok r, st').

Definition lift {A} (r : result A) : M A := fun st => (r, st).

Declare Scope py_scope.
Delimit Scope py_scope with py.
Notation "x <- c ;; k" := (bind c (fun x => k))
  (at level 100, c at next level, right associativity) : py_scope.
Notation "' p <- c ;; k" := (bind c (fun x => match x with p => k end))
  (at level 100, p pattern, c at next level, right associativity) : py_scope.
Notation "c ;; k" := (bind c (fun _ => k))
  (at level 100, right associativity) : py_scope.
Local Open Scope py_scope.

(** A [for] loop that updates its local variables [acc]. *)
Fixpoint for_each {A B} (body : B -> A -> M B) (l : list A) (acc : B) : M B :=
  match l with
  | [] => ret acc
  | x :: l' => (acc' <- body acc x ;; for_each body l' acc')
  end.

(** [enumerate(l, start)] *)
Fixpoint enumerate {A} (l : list A) (start : nat) : list (nat * A) :=
  match l with
  | [] => []
  | x :: l' => (start, x) :: enumerate l' (S start)
  end.

Definition emit (ev : event) : M unit :=
  fun st =>
    (Ok tt, {| http_calls := http_calls st; chat_calls := chat_calls st;
               clock_reads := clock_reads st; file_ops := file_ops st;
               file := file st; trace := ev :: trace st |}).

(** [print(text)] writes a line to the standard output, which encodes
    it in UTF-8: a text that holds a surrogate raises
    [UnicodeEncodeError] and nothing of it is written.  The stream
    itself is taken never to fail. *)
Definition print (text : pystr) : M unit :=
  if PyStr.encodable text then emit (EvPrint text)
  else raise (PyExc "UnicodeEncodeError" (PyStr.encode_error text)).

Definition set_trace (st : State) (t : list event) : State :=
  {| http_calls := http_calls st; chat_calls := chat_calls st;
     clock_reads := clock_reads st; file_ops := file_ops st;
     file := file st; trace := t |}.

Definition set_file (st : State) (f : option string) : State :=
  {| http_calls := http_calls st; chat_calls := chat_calls st;
     clock_reads := clock_reads st; file_ops := file_ops st;
     file := f; trace := trace st |}.

Definition tick_http (st : State) : State :=
  {| http_calls := S (http_calls st); chat_calls := chat_calls st;
     clock_reads := clock_reads st; file_ops := file_ops st;
     file := file st; trace := trace st |}.

Definition tick_chat (st : State) : State :=
  {| http_calls := http_calls st; chat_calls := S (chat_calls st);
     clock_reads := clock_reads st; file_ops := file_ops st;
     file := file st; trace := trace st |}.

Definition tick_clock (st : State) : State :=
  {| http_calls := http_calls st; chat_calls := chat_calls st;
     clock_reads := S (clock_reads st); file_ops := file_ops st;
     file := file st; trace := trace st |}.

Definition tick_file (st : State) : State :=
  {| http_calls := http_calls st; chat_calls := chat_calls st;
     clock_reads := clock_reads st; file_ops := S (file_ops st);
     file := file st; trace := trace st |}.

(** ** The calls the program makes to its libraries *)

(** [response.is_success]: the status is 2xx. *)
Definition is_success (code : nat) : bool :=
  (200 <=? code)%nat && (code <? 300)%nat.
Arguments is_success : simpl never.

Section Primitives.

Variable L : Lib.
Variable env : Env.

Record Response : Type := { status_code_of : nat; text_of : string }.

(** [httpx.get(url, timeout=10.0)]: a timeout is one of the ways the
    call raises. *)
Definition httpx_get (url : string) : M Response :=
  fun st =>
    let st' := tick_http (set_trace st (EvHttpGet url :: trace st)) in
    match http_get env (http_calls st) with
    | HttpFails e => (Raise e, st')
    | HttpResponse code body =>
        (Ok {| status_code_of := code; text_of := body |}, st')
    end.

(** [response.raise_for_status()]: raises unless the status is 2xx. *)
Definition raise_for_status (r : Response) : M unit :=
  if is_success (status_code_of r)
  then ret tt
  else raise (PyExc "HTTPStatusError"
                ("HTTP status " ++ Str.of_nat (status_code_of r))).

(** [response.json()] *)
Definition response_json (r : Response) : M json :=
  lift (json_loads L (text_of r)).

(** [OpenAI(api_key=os.getenv("OPENAI_API_KEY"))]: the constructor
    raises when there is no key. *)
Definition OpenAI : M string :=
  match getenv_OPENAI_API_KEY env with
  | Some key => ret key
  | None =>
      raise (PyExc "OpenAIError"
               "The api_key client option must be set either by passing api_key to the client or by setting the OPENAI_API_KEY environment variable")
  end.

(** [client.chat.completions.create(model=..., messages=[{"role":
    "user", "content": prompt}], temperature=0.7)], returning the
    contents of [response.choices]. *)
Definition chat_completions_create (client : string) (model : string)
    (prompt : pystr) : M (list (option string)) :=
  fun st =>
    let st' := tick_chat (set_trace st (EvChat model prompt :: trace st)) in
    match chat_create env (chat_calls st) prompt with
    | ChatFails e => (Raise e, st')
    | ChatChoices cs => (Ok cs, st')
    end.

(** [response.choices[0].message.content] *)
Definition first_choice_content (choices : list (option string))
  : M (option string) :=
  match choices with
  | c :: _ => ret c
  | [] => raise (PyExc "IndexError" "list index out of range")
  end.

(** [content.strip()], where [content] may be [None]. *)
Definition strip (content : option string) : M string :=
  match content with
  | Some s => ret (Str.strip s)
  | None =>
      raise (PyExc "AttributeError"
               "'NoneType' object has no attribute 'strip'")
  end.

(** [datetime.utcnow().isoformat()] *)
Definition utcnow_iso : M string :=
  fun st => (Ok (utcnow_isoformat env (clock_reads st)), tick_clock st).

(** [os.path.exists(filename)] *)
Definition os_path_exists (filename : string) : M bool :=
  fun st =>
    (Ok (match file st with Some _ => true | None => false end),
     set_trace st (EvExists filename :: trace st)).

(** [with open(filename, 'r') as f: json.load(f)] *)
Definition json_load_file (filename : string) : M json :=
  fun st =>
    let st' := tick_file (set_trace st (EvRead filename :: trace st)) in
    match read_fault env (file_ops st), file st with
    | Some e, _ => (Raise e, st')
    | None, None =>
        (Raise (PyExc "FileNotFoundError"
                  ("[Errno 2] No such file or directory: '" ++ filename ++ "'")),
         st')
    | None, Some text => (json_loads L text, st')
    end.

(** [with open(filename, 'w') as f: json.dump(data, f, indent=2)] *)
Definition json_dump_file (data : json) (filename : string) : M unit :=
  fun st =>
    let st' := tick_file (set_trace st (EvWrite filename :: trace st)) in
    match write_fault_at env (file_ops st) with
    | Some (OpenFails e) => (Raise e, st')
    | Some (WriteFails e n) =>
        (Raise e, set_file st' (Some (Str.firstn n (json_dumps L data))))
    | None => (Ok tt, set_file st' (Some (json_dumps L data)))
    end.

(** [existing_data.extend(results)]: only a list has the method. *)
Definition extend (existing_data : json) (results : list json) : M json :=
  match existing_data with
  | JList l => ret (JList (l ++ results))
  | JObject _ =>
      raise (PyExc "AttributeError" "'dict' object has no attribute 'extend'")
  | JStr _ =>
      raise (PyExc "AttributeError" "'str' object has no attribute 'extend'")
  | JInt _ =>
      raise (PyExc "AttributeError" "'int' object has no attribute 'extend'")
  | JBool _ =>
      raise (PyExc "AttributeError" "'bool' object has no attribute 'extend'")
  | JNull =>
      raise (PyExc "AttributeError"
               "'NoneType' object has no attribute 'extend'")
  end.

End Primitives.

(** ** The component functions *)

Section Pipeline.

Variable L : Lib.
Variable env : Env.

(** One turn of the loop of [fetch_uuids]. *)
Definition fetch_step (uuids : list json) (i : nat) : M (list json) :=
  try_except
    (response <- httpx_get env "https://httpbin.org/uuid" ;;
     raise_for_status response ;;
     data <- response_json L response ;;
     uuid <- lift (getitem data "uuid") ;;
     ret (uuids ++ [uuid]))
    (fun e =>
       print ("Error fetching UUID " ++ Str.of_nat (i + 1) ++ ": "
                ++ str_exn e) ;;
       ret uuids).

(** [fetch_uuids(count=3)] *)
Definition fetch_uuids (count : nat) : M (list json) :=
  for_each fetch_step (seq 0 count) [].

Definition prompt_of (text : json) : pystr :=
  ("Analyze this UUID and respond with ONLY a JSON object:" ++ Str.nl
   ++ "        " ++ Str.nl
   ++ "UUID: ")
  +++ py_str L text
  +++ (Str.nl
       ++ Str.nl
       ++ "Format:" ++ Str.nl
       ++ "{" ++ Str.dq ++ "analysis" ++ Str.dq ++ ": "
       ++ Str.dq ++ "2-3 sentence analysis" ++ Str.dq ++ ", "
       ++ Str.dq ++ "sentiment" ++ Str.dq ++ ": "
       ++ Str.dq ++ "optimistic/pessimistic/balanced" ++ Str.dq ++ "}").

(** The body of the [try] of [analyze_with_ai]. *)
Definition analyze_body (text : json) : M (json * json) :=
  client <- OpenAI env ;;
  let prompt := prompt_of text in
  choices <- chat_completions_create env client "gpt-3.5-turbo" prompt ;;
  content <- first_choice_content choices ;;
  result <- strip content ;;
  parsed <- lift (json_loads L result) ;;
  analysis <- lift (getitem parsed "analysis") ;;
  sentiment <- lift (getitem parsed "sentiment") ;;
  ret (analysis, sentiment).

(** [analyze_with_ai(text)] *)
Definition analyze_with_ai (text : json) : M (json * json) :=
  try_except
    (analyze_body text)
    (fun e => ret (JStr ("Analysis unavailable: " ++ str_exn e),
                   JStr "neutral")).

Definition store_body (results : list pydict) : M bool :=
  let filename := "pipeline_results.json" in
  present <- os_path_exists filename ;;
  existing_data <- (if present : bool then json_load_file L env filename
                    else ret (JList [])) ;;
  existing_data <- extend existing_data (map JObject results) ;;
  json_dump_file L env existing_data filename ;;
  ret true.

(** [store_results(results)] *)
Definition store_results (results : list pydict) : M bool :=
  try_except
    (store_body results)
    (fun e => print ("Storage error: " ++ str_exn e) ;; ret false).

Definition notification (email : string) (success_count error_count : nat)
  : pystr :=
  PyStr.utf8 (Str.nl ++ "        ✉️ NOTIFICATION SENT TO: ")
  +++ email
  +++ (Str.nl
       ++ "        -----------------------------------" ++ Str.nl
       ++ "        Pipeline Processing Complete" ++ Str.nl
       ++ "        Successfully processed: " ++ Str.of_nat success_count
       ++ " items" ++ Str.nl
       ++ "        Errors encountered: " ++ Str.of_nat error_count ++ Str.nl
       ++ "        ").

(** [send_notification(email, success_count, error_count)] *)
Definition send_notification (email : string)
    (success_count error_count : nat) : M bool :=
  try_except
    (let message := notification email success_count error_count in
     print message ;;
     ret true)
    (fun e => print ("Notification error: " ++ str_exn e) ;; ret false).

(** ** The orchestrator *)

(** The record a result is created as, [stored] being [False]. *)
Definition new_result (uuid analysis sentiment : json) (timestamp : string)
  : pydict :=
  [ ("original", uuid);
    ("analysis", analysis);
    ("sentiment", sentiment);
    ("stored", JBool false);
    ("timestamp", JStr (timestamp ++ "Z")) ].

Definition abort_response (errors : list pystr) : pydict :=
  [ ("items", JList []);
    ("notificationSent", JBool false);
    ("errors", JList (map JStr errors)) ].

Definition response (results : list pydict) (notification_sent : bool)
    (processed_at : string) (errors : list pystr) : pydict :=
  [ ("items", JList (map JObject results));
    ("notificationSent", JBool notification_sent);
    ("processedAt", JStr (processed_at ++ "Z"));
    ("errors", JList (map JStr errors)) ].

Section Orchestrator.

(** The function the name [analyze_with_ai] is bound to when
    [run_pipeline] calls it: it may be any function, also one that
    raises, which is what the [try] of Stage 2 is there for. *)
Variable analyze : json -> M (json * json).

(** The [except] clause of Stage 2 for [uuid], [results] being the
    list as the exception found it. *)
Definition stage2_except (results : list pydict) (errors : list pystr)
    (uuid : json) (e : exn) : M (list pydict * list pystr) :=
  let errors :=
    errors ++ ["Failed to process UUID " +++ py_str L uuid
               +++ (": " ++ str_exn e)] in
  print (PyStr.utf8 "  ❌ Error: " +++ str_exn e) ;;
  ret (results, errors).

(** One turn of the loop of Stage 2.  [results.append(result)] updates
    the list in place, so what the [except] clause finds in it depends
    on where in the [try] the exception was raised: the body is given
    in two parts, up to the creation of the result, and from the
    [append] on. *)
Definition stage2_step (total : nat)
    (acc : list pydict * list pystr) (item : nat * json)
  : M (list pydict * list pystr) :=
  let '(results, errors) := acc in
  let '(idx, uuid) := item in
  created <-
    caught
      (print ("  Analyzing UUID " ++ Str.of_nat idx ++ "/"
                ++ Str.of_nat total ++ "...") ;;
       ' (analysis, sentiment) <- analyze uuid ;;
       now <- utcnow_iso env ;;
       ret (new_result uuid analysis sentiment now, sentiment)) ;;
  match created with
  | Raise e => stage2_except results errors uuid e
  | Ok (result, sentiment) =>
      let results := results ++ [result] in
      printed <-
        caught (print (PyStr.utf8 "  ✓ Sentiment: " +++ py_str L sentiment)) ;;
      match printed with
      | Ok _ => ret (results, errors)
      | Raise e => stage2_except results errors uuid e
      end
  end.

Definition stage2 (uuids : list json) : M (list pydict * list pystr) :=
  for_each (stage2_step (length uuids)) (enumerate uuids 1) ([], []).

(** [result["stored"] = storage_success] for every result. *)
Definition mark_stored (storage_success : bool) (results : list pydict)
  : list pydict :=
  map (dict_set "stored" (JBool storage_success)) results.

Definition run_pipeline_with (email : string) : M pydict :=
  let errors : list pystr := [] in
  print (PyStr.utf8 (Str.nl ++ "🚀 === PIPELINE STARTED ===" ++ Str.nl)) ;;
  print (PyStr.utf8 "📥 Stage 1: Fetching UUIDs from HTTPBin...") ;;
  uuids <- fetch_uuids 3 ;;
  match uuids with
  | [] =>
      let errors := errors ++ [Narrow "Failed to fetch any UUIDs"] in
      ret (abort_response errors)
  | _ :: _ =>
      print (PyStr.utf8 "✓ Fetched "
             +++ (Str.of_nat (length uuids) ++ " UUIDs" ++ Str.nl)) ;;
      print (PyStr.utf8 "🤖 Stage 2: AI Analysis...") ;;
      ' (results, errors) <- stage2 uuids ;;
      print (PyStr.utf8 "✓ Analyzed "
             +++ (Str.of_nat (length results) ++ " items" ++ Str.nl)) ;;
      print (PyStr.utf8 "💾 Stage 3: Storing results...") ;;
      storage_success <- store_results results ;;
      let results := mark_stored storage_success results in
      print (PyStr.utf8 "✓ Storage "
             +++ ((if storage_success then "successful" else "failed")
                  ++ Str.nl)) ;;
      print (PyStr.utf8 "📧 Stage 4: Sending notification...") ;;
      notification_sent <-
        send_notification email (length results) (length errors) ;;
      print (PyStr.utf8 "✓ Notification sent to " +++ email +++ Str.nl) ;;
      print (PyStr.utf8 ("✅ === PIPELINE COMPLETE ===" ++ Str.nl)) ;;
      now <- utcnow_iso env ;;
      ret (response results notification_sent now errors)
  end.

End Orchestrator.

(** [run_pipeline(email)] *)
Definition run_pipeline (email : string) : M pydict :=
  run_pipeline_with analyze_with_ai email.

(** ** The HTTP surface *)

Record PipelineRequest : Type := { email : string; source : string }.

(** [pipeline_endpoint(request)] *)
Definition pipeline_endpoint (request : PipelineRequest) : M pydict :=
  if negb (String.eqb (source request) "HTTPBin UUID")
  then raise (HTTPException 400 "Source must be 'HTTPBin UUID'")
  else
    result <- run_pipeline (email request) ;;
    ret result.

Record HttpReply : Type := { reply_status : nat; reply_body : json }.

(** What FastAPI is given to answer [POST /pipeline] with, for a
    well-formed body: the value returned with status 200, the status
    and detail of an [HTTPException], and 500 for any other exception.
    The rendering of that value as the bytes of the answer is the
    framework's and is not modelled. *)
Definition post_pipeline (request : PipelineRequest) : State -> HttpReply * State :=
  fun st =>
    match pipeline_endpoint request st with
    | (Ok body, st') =>
        ({| reply_status := 200; reply_body := JObject body |}, st')
    | (Raise (HTTPException code detail), st') =>
        ({| reply_status := code;
            reply_body := JObject [("detail", JStr detail)] |}, st')
    | (Raise (PyExc _ _), st') =>
        ({| reply_status := 500; reply_body := JStr "Internal Server Error" |},
         st')
    end.

End Pipeline.

(** ** A model of the [json] module and of [repr]

    The fragment of JSON whose numbers are integers and whose keys
    hold the code points below 256; a document is a text of such code
    points, in which an escape can stand for any other.  [loads] is
    strict as Python's is: no trailing comma, no control character
    inside a string, no leading zero, no integer of more than 4300
    digits, and a key given twice keeps its first place and its last
    value.  The text of a decode error is not modelled.

    On a document outside the fragment, one that holds a float or a
    key with a code point from U+0100 on, [loads] raises here where
    Python's returns a value: the model stands for the library on the
    documents of the fragment only. *)

Module PyJson.

Local Open Scope char_scope.

Inductive token : Type :=
| TLBrace | TRBrace | TLBracket | TRBracket | TColon | TComma
| TStr (s : pystr) | TInt (z : Z) | TTrue | TFalse | TNull.

Definition is_digit (c : ascii) : bool :=
  let n := nat_of_ascii c in ((48 <=? n) && (n <=? 57))%nat.

Definition hex_val (c : ascii) : option nat :=
  let n := nat_of_ascii c in
  if ((48 <=? n) && (n <=? 57))%nat then Some (n - 48)
  else if ((97 <=? n) && (n <=? 102))%nat then Some (n - 87)
  else if ((65 <=? n) && (n <=? 70))%nat then Some (n - 55)
  else None.

(** The number an escape [\uXXXX] gives, below 65536. *)
Definition unhex4 (h1 h2 h3 h4 : ascii) : option N :=
  match hex_val h1, hex_val h2, hex_val h3, hex_val h4 with
  | Some a, Some b, Some c, Some d =>
      Some (4096 * N.of_nat a + 256 * N.of_nat b + 16 * N.of_nat c
            + N.of_nat d)%N
  | _, _, _, _ => None
  end.

Definition more_units (u : N) (rest : option (list N * string))
  : option (list N * string) :=
  match rest with
  | Some (body, r) => Some (u :: body, r)
  | None => None
  end.

(** The rest of a string literal, after its opening quote: one number
    below 65536 for each of its characters and escapes, and what
    follows its closing quote. *)
Fixpoint lex_string (s : string) : option (list N * string) :=
  match s with
  | EmptyString => None
  | String c s' =>
      if Ascii.eqb c "034" then Some ([], s')
      else if Ascii.eqb c "\" then
        match s' with
        | String e s'' =>
            if Ascii.eqb e "034" then more_units 34 (lex_string s'')
            else if Ascii.eqb e "\" then more_units 92 (lex_string s'')
            else if Ascii.eqb e "/" then more_units 47 (lex_string s'')
            else if Ascii.eqb e "b" then more_units 8 (lex_string s'')
            else if Ascii.eqb e "f" then more_units 12 (lex_string s'')
            else if Ascii.eqb e "n" then more_units 10 (lex_string s'')
            else if Ascii.eqb e "r" then more_units 13 (lex_string s'')
            else if Ascii.eqb e "t" then more_units 9 (lex_string s'')
            else if Ascii.eqb e "u" then
              match s'' with
              | String h1 (String h2 (String h3 (String h4 r))) =>
                  match unhex4 h1 h2 h3 h4 with
                  | Some u => more_units u (lex_string r)
                  | None => None
                  end
              | _ => None
              end
            else None
        | EmptyString => None
        end
      else if (nat_of_ascii c <? 32)%nat then None
      else more_units (N_of_ascii c) (lex_string s')
  end.

(** The code point a high and a low surrogate stand for together. *)
Definition combine (hi lo : N) : N :=
  (0x10000 + (hi - 0xD800) * 1024 + (lo - 0xDC00))%N.

(** An escape of a high surrogate followed by one of a low surrogate
    is one code point; a document holds no surrogate but by an
    escape. *)
Fixpoint join_pairs (units : list N) : list N :=
  match units with
  | [] => []
  | a :: l =>
      match l with
      | b :: l' =>
          if PyStr.is_high a && PyStr.is_low b
          then combine a b :: join_pairs l'
          else a :: join_pairs l
      | [] => [a]
      end
  end.

(** A code point from U+10000 on is written as two surrogates. *)
Fixpoint split_pairs (cps : list N) : list N :=
  match cps with
  | [] => []
  | c :: l =>
      if (c <? 0x10000)%N then c :: split_pairs l
      else (0xD800 + (c - 0x10000) / 1024)%N
           :: (0xDC00 + (c - 0x10000) mod 1024)%N :: split_pairs l
  end.

Definition str_of_units (units : list N) : pystr :=
  PyStr.of_code_points (join_pairs units).

Definition units_of_str (s : pystr) : list N :=
  split_pairs (PyStr.code_points s).

(** The digits a string starts with, and what follows them. *)
Fixpoint span_digits (s : string) : string * string :=
  match s with
  | String c s' =>
      if is_digit c
      then let '(digits, r) := span_digits s' in (String c digits, r)
      else (EmptyString, s)
  | EmptyString => (EmptyString, EmptyString)
  end.

(** What follows the digits makes the number a float. *)
Definition follows_number (r : string) : bool :=
  match r with
  | String d _ => Ascii.eqb d "." || Ascii.eqb d "e" || Ascii.eqb d "E"
  | EmptyString => false
  end.

Definition leading_zero (digits : string) : bool :=
  match digits with
  | String c (String _ _) => Ascii.eqb c "0"
  | _ => false
  end.

(** The digits [int] reads from a text at most, and writes at most:
    the default of [sys.get_int_max_str_digits()]. *)
Definition max_str_digits : nat := 4300.

(** The number of decimal digits of [z]. *)
Definition int_digits (z : Z) : nat :=
  Decimal.nb_digits (N.to_uint (Z.abs_N z)).

(** The integer literal at the head of [s], which starts with a digit,
    negated when a minus sign came before it.  [int] raises
    [ValueError] on more digits than [max_str_digits]. *)
Definition lex_int (negative : bool) (s : string) : option (Z * string) :=
  let '(digits, r) := span_digits s in
  if follows_number r || leading_zero digits
     || (max_str_digits <? String.length digits)%nat
  then None
  else
    match NilEmpty.uint_of_string digits with
    | Some d =>
        Some (Z.of_int (if negative then Decimal.Neg d else Decimal.Pos d), r)
    | None => None
    end.

Definition is_ws (c : ascii) : bool :=
  Ascii.eqb c " " || Ascii.eqb c "009" || Ascii.eqb c "010"
  || Ascii.eqb c "013".

Fixpoint drop_prefix (p s : string) {struct p} : option string :=
  match p, s with
  | EmptyString, _ => Some s
  | String a p', String b s' =>
      if Ascii.eqb a b then drop_prefix p' s' else None
  | String _ _, EmptyString => None
  end.

Fixpoint lex (fuel : nat) (s : string) : option (list token) :=
  match fuel with
  | O => None
  | S fuel' =>
      let more (t : token) (r : string) :=
        match lex fuel' r with
        | Some ts => Some (t :: ts)
        | None => None
        end in
      match s with
      | EmptyString => Some []
      | String c s' =>
          if is_digit c then
            match lex_int false s with
            | Some (z, r) => more (TInt z) r
            | None => None
            end
          else if Ascii.eqb c "-" then
            match s' with
            | String d _ =>
                if is_digit d then
                  match lex_int true s' with
                  | Some (z, r) => more (TInt z) r
                  | None => None
                  end
                else None
            | EmptyString => None
            end
          else if is_ws c then lex fuel' s'
          else if Ascii.eqb c "{" then more TLBrace s'
          else if Ascii.eqb c "}" then more TRBrace s'
          else if Ascii.eqb c "[" then more TLBracket s'
          else if Ascii.eqb c "]" then more TRBracket s'
          else if Ascii.eqb c ":" then more TColon s'
          else if Ascii.eqb c "," then more TComma s'
          else if Ascii.eqb c "034" then
            match lex_string s' with
            | Some (body, r) => more (TStr (str_of_units body)) r
            | None => None
            end
          else
            match drop_prefix "true" s, drop_prefix "false" s,
                  drop_prefix "null" s with
            | Some r, _, _ => more TTrue r
            | _, Some r, _ => more TFalse r
            | _, _, Some r => more TNull r
            | _, _, _ => None
            end
      end
  end.

(** A value at the head of the tokens; the elements of a list after
    its first; the members of an object after its first. *)
Fixpoint parse_value (fuel : nat) (ts : list token)
  : option (json * list token) :=
  match fuel with
  | O => None
  | S fuel' =>
      match ts with
      | TNull :: r => Some (JNull, r)
      | TTrue :: r => Some (JBool true, r)
      | TFalse :: r => Some (JBool false, r)
      | TInt z :: r => Some (JInt z, r)
      | TStr s :: r => Some (JStr s, r)
      | TLBracket :: TRBracket :: r => Some (JList [], r)
      | TLBracket :: r =>
          match parse_value fuel' r with
          | Some (v, r') =>
              match parse_elements fuel' r' with
              | Some (vs, r'') => Some (JList (v :: vs), r'')
              | None => None
              end
          | None => None
          end
      | TLBrace :: TRBrace :: r => Some (JObject [], r)
      | TLBrace :: TStr (Narrow k) :: TColon :: r =>
          match parse_value fuel' r with
          | Some (v, r') =>
              match parse_members fuel' [(k, v)] r' with
              | Some (d, r'') => Some (JObject d, r'')
              | None => None
              end
          | None => None
          end
      | _ => None
      end
  end
with parse_elements (fuel : nat) (ts : list token)
  : option (list json * list token) :=
  match fuel with
  | O => None
  | S fuel' =>
      match ts with
      | TRBracket :: r => Some ([], r)
      | TComma :: r =>
          match parse_value fuel' r with
          | Some (v, r') =>
              match parse_elements fuel' r' with
              | Some (vs, r'') => Some (v :: vs, r'')
              | None => None
              end
          | None => None
          end
      | _ => None
      end
  end
with parse_members (fuel : nat) (d : pydict) (ts : list token)
  : option (pydict * list token) :=
  match fuel with
  | O => None
  | S fuel' =>
      match ts with
      | TRBrace :: r => Some (d, r)
      | TComma :: TStr (Narrow k) :: TColon :: r =>
          match parse_value fuel' r with
          | Some (v, r') => parse_members fuel' (dict_set k v d) r'
          | None => None
          end
      | _ => None
      end
  end.

(** [json.loads(s)] *)
Definition loads (s : string) : result json :=
  match lex (S (String.length s)) s with
  | Some ts =>
      match parse_value (S (List.length ts)) ts with
      | Some (v, []) => Ok v
      | _ => Raise (PyExc "JSONDecodeError" "Expecting value")
      end
  | None => Raise (PyExc "JSONDecodeError" "Expecting value")
  end.

(** How [json.dumps] writes a code point below 65536
    ([ensure_ascii=True]). *)
Definition escape_unit (u : N) : string :=
  if (u =? 34)%N then String "\" (String "034" EmptyString)
  else if (u =? 92)%N then String "\" (String "\" EmptyString)
  else if (u =? 10)%N then String "\" (String "n" EmptyString)
  else if (u =? 13)%N then String "\" (String "r" EmptyString)
  else if (u =? 9)%N then String "\" (String "t" EmptyString)
  else if (u =? 8)%N then String "\" (String "b" EmptyString)
  else if (u =? 12)%N then String "\" (String "f" EmptyString)
  else if ((32 <=? u) && (u <=? 126))%N
  then String (ascii_of_N u) EmptyString
  else String "\" (String "u" (Str.hex4 u)).

Fixpoint escape (units : list N) : string :=
  match units with
  | [] => EmptyString
  | u :: l => (escape_unit u ++ escape l)%string
  end.

Definition quote (s : pystr) : string :=
  (Str.dq ++ escape (units_of_str s) ++ Str.dq)%string.

Fixpoint spaces (n : nat) : string :=
  match n with
  | O => EmptyString
  | S n' => String " " (spaces n')
  end.

(** The line break and indentation before an item at depth [level]. *)
Definition newline_indent (level : nat) : string :=
  (Str.nl ++ spaces (2 * level))%string.

Local Open Scope string_scope.

(** The items of a list after the first, each after a comma and
    [sep]; the members of an object likewise. *)
Fixpoint dumps_items (dump : json -> string) (sep : string) (l : list json)
  : string :=
  match l with
  | [] => EmptyString
  | y :: l' => "," ++ sep ++ dump y ++ dumps_items dump sep l'
  end.

Fixpoint dumps_members (dump : json -> string) (sep : string)
    (d : list (string * json)) : string :=
  match d with
  | [] => EmptyString
  | (k, y) :: d' =>
      "," ++ sep ++ quote k ++ ": " ++ dump y ++ dumps_members dump sep d'
  end.

(** [json.dumps(v, indent=2)], [v] being at depth [level]. *)
Fixpoint dumps_at (level : nat) (v : json) : string :=
  match v with
  | JNull => "null"
  | JBool true => "true"
  | JBool false => "false"
  | JInt z => Str.of_Z z
  | JStr s => quote s
  | JList [] => "[]"
  | JList (x :: l) =>
      "[" ++ newline_indent (S level) ++ dumps_at (S level) x
      ++ dumps_items (dumps_at (S level)) (newline_indent (S level)) l
      ++ newline_indent level ++ "]"
  | JObject [] => "{}"
  | JObject ((k, x) :: d) =>
      "{" ++ newline_indent (S level) ++ quote k ++ ": "
      ++ dumps_at (S level) x
      ++ dumps_members (dumps_at (S level)) (newline_indent (S level)) d
      ++ newline_indent level ++ "}"
  end.

Definition dumps (v : json) : string := dumps_at 0 v.

(** [repr(s)] for a string: single quotes unless the string holds one
    and no double quote.  Below 256 the code points that are not
    printable are escaped; above, the surrogates are, and every other
    code point is taken to be printable. *)
Definition repr_cp (q c : N) : list N :=
  (if c =? q then [92; c]
   else if c =? 92 then [92; 92]
   else if c =? 10 then [92; 110]
   else if c =? 13 then [92; 114]
   else if c =? 9 then [92; 116]
   else if (c <? 32) || ((127 <=? c) && (c <=? 160)) || (c =? 173)
   then [92; 120; N_of_ascii (Str.hex_digit (N.to_nat (c / 16)));
         N_of_ascii (Str.hex_digit (N.to_nat (c mod 16)))]
   else if PyStr.is_surrogate c
   then 92 :: 117 :: PyStr.of_string (Str.hex4 c)
   else [c])%N.

Definition repr_str (s : pystr) : pystr :=
  let cps := PyStr.code_points s in
  let q : N :=
    if existsb (N.eqb 39) cps && negb (existsb (N.eqb 34) cps) then 34%N
    else 39%N in
  PyStr.of_code_points (q :: flat_map (repr_cp q) cps ++ [q])%list.

(** [repr(v)] *)
Fixpoint repr (v : json) : pystr :=
  match v with
  | JNull => "None"
  | JBool true => "True"
  | JBool false => "False"
  | JInt z => Str.of_Z z
  | JStr s => repr_str s
  | JList [] => "[]"
  | JList (x :: l) =>
      "[" +++ repr x
      +++ (fix items (l : list json) : pystr :=
             match l with
             | [] => EmptyString
             | y :: l' => ", " +++ repr y +++ items l'
             end) l
      +++ "]"
  | JObject [] => "{}"
  | JObject ((k, x) :: d) =>
      "{" +++ repr_str k +++ ": " +++ repr x
      +++ (fix members (d : list (string * json)) : pystr :=
             match d with
             | [] => EmptyString
             | (k', y) :: d' =>
                 ", " +++ repr_str k' +++ ": " +++ repr y +++ members d'
             end) d
      +++ "}"
  end.

Definition lib : Lib :=
  {| json_loads := loads; json_dumps := dumps; py_repr := repr |}.

(** *** The model reads back what it writes: vocabulary *)

(** No high surrogate is followed by a low one. *)
Fixpoint pair_free (cps : list N) : bool :=
  match cps with
  | [] => true
  | a :: l =>
      match l with
      | b :: _ => negb (PyStr.is_high a && PyStr.is_low b) && pair_free l
      | [] => true
      end
  end.

(** Code points as a [str] holds them when one of them is above
    U+00FF, and as [json.loads] can return them: none is beyond
    U+10FFFF, and no high surrogate is followed by a low one, which
    [json.dumps] would write as the two escapes of one code point. *)
Definition wide_ok (cps : list N) : bool :=
  negb (PyStr.narrow cps)
  && forallb (fun c => (c <=? 0x10FFFF)%N) cps
  && pair_free cps.

(** A value no object of which has a key twice, and no string and no
    integer of which is beyond what [json.loads] returns: what comes
    out of a document. *)
Inductive wf : json -> Prop :=
| wf_null : wf JNull
| wf_bool b : wf (JBool b)
| wf_int z : int_digits z <= max_str_digits -> wf (JInt z)
| wf_str (s : string) : wf (JStr s)
| wf_wide cps : wide_ok cps = true -> wf (JStr (Wide cps))
| wf_list l : Forall wf l -> wf (JList l)
| wf_object d :
    NoDup (map fst d) -> Forall (fun kv => wf (snd kv)) d -> wf (JObject d).

(** The tokens of the text of a value. *)
Fixpoint tokens_items (tok : json -> list token) (l : list json)
  : list token :=
  match l with
  | [] => [TRBracket]
  | y :: l' => TComma :: (tok y ++ tokens_items tok l')%list
  end.

Fixpoint tokens_members (tok : json -> list token) (d : list (string * json))
  : list token :=
  match d with
  | [] => [TRBrace]
  | (k, y) :: d' =>
      TComma :: TStr k :: TColon :: (tok y ++ tokens_members tok d')%list
  end.

Fixpoint tokens (v : json) : list token :=
  match v with
  | JNull => [TNull]
  | JBool true => [TTrue]
  | JBool false => [TFalse]
  | JInt z => [TInt z]
  | JStr s => [TStr s]
  | JList [] => [TLBracket; TRBracket]
  | JList (x :: l) => TLBracket :: (tokens x ++ tokens_items tokens l)%list
  | JObject [] => [TLBrace; TRBrace]
  | JObject ((k, x) :: d) =>
      TLBrace :: TStr k :: TColon
      :: (tokens x ++ tokens_members tokens d)%list
  end.

(** What may follow the text of a value: nothing, or a character that
    cannot continue a number. *)
Definition value_end (r : string) : Prop :=
  match r with
  | EmptyString => True
  | String c _ => is_digit c = false /\ follows_number r = false
  end.

(** The lexer turns [r] into [ts], with any fuel above the length of
    [r]. *)
Definition lexes (r : string) (ts : list token) : Prop :=
  forall fuel, String.length r < fuel -> lex fuel r = Some ts.

Definition lexes_value (v : json) : Prop :=
  wf v ->
  forall level r ts,
    value_end r -> lexes r ts ->
    lexes (dumps_at level v ++ r) (tokens v ++ ts).

Definition parses_value (v : json) : Prop :=
  forall fuel r,
    length (tokens v) < fuel -> parse_value fuel (tokens v ++ r) = Some (v, r).

Definition set_member (acc : pydict) (kv : string * json) : pydict :=
  dict_set (fst kv) (snd kv) acc.

(** A token the lexer can give. *)
Definition token_wf (t : token) : Prop :=
  match t with
  | TStr s => wf (JStr s)
  | TInt z => int_digits z <= max_str_digits
  | _ => True
  end.

End PyJson.

(** * Specification vocabulary *)

(** The values of a list of optional values, in order. *)
Fixpoint somes {A} (l : list (option A)) : list A :=
  match l with
  | [] => []
  | Some a :: l' => a :: somes l'
  | None :: l' => somes l'
  end.

Fixpoint lefts {A B} (l : list (A + B)) : list A :=
  match l with
  | [] => []
  | inl a :: l' => a :: lefts l'
  | inr _ :: l' => lefts l'
  end.

Fixpoint rights {A B} (l : list (A + B)) : list B :=
  match l with
  | [] => []
  | inl _ :: l' => rights l'
  | inr b :: l' => b :: rights l'
  end.

Section Vocabulary.

Variable L : Lib.
Variable env : Env.

(** The identifier one request yields: none when the call raises, the
    status is not 2xx, the body is not JSON or has no ["uuid"]. *)
Definition fetched_uuid (o : http_outcome) : option json :=
  match o with
  | HttpFails _ => None
  | HttpResponse code body =>
      if is_success code then
        match json_loads L body with
        | Ok data =>
            match getitem data "uuid" with
            | Ok uuid => Some uuid
            | Raise _ => None
            end
        | Raise _ => None
        end
      else None
  end.

(** The events [fetch_uuids] gives rise to. *)
Definition fetch_event (ev : event) : Prop :=
  match ev with
  | EvHttpGet _ => True
  | EvPrint text => PyStr.startswith "Error fetching UUID " text = true
  | _ => False
  end.

(** What [fetch_uuids] leaves of the state after [n] requests. *)
Definition fetch_effect (n : nat) (st st' : State) : Prop :=
  http_calls st' = http_calls st + n
  /\ chat_calls st' = chat_calls st
  /\ clock_reads st' = clock_reads st
  /\ file_ops st' = file_ops st
  /\ file st' = file st
  /\ exists new, trace st' = new ++ trace st /\ Forall fetch_event new.

(** The pair [analyze_with_ai] falls back to. *)
Definition degraded (e : exn) : json * json :=
  (JStr ("Analysis unavailable: " ++ str_exn e), JStr "neutral").

(** The ways the call to the classifier or the reading of its answer
    fails for [text] in state [st], with the exception raised. *)
Inductive classifier_failure (text : json) (st : State) : exn -> Prop :=
| missing_api_key :
    getenv_OPENAI_API_KEY env = None ->
    classifier_failure text st
      (PyExc "OpenAIError"
         "The api_key client option must be set either by passing api_key to the client or by setting the OPENAI_API_KEY environment variable")
| api_call_fails key e :
    getenv_OPENAI_API_KEY env = Some key ->
    chat_create env (chat_calls st) (prompt_of L text) = ChatFails e ->
    classifier_failure text st e
| no_choice key :
    getenv_OPENAI_API_KEY env = Some key ->
    chat_create env (chat_calls st) (prompt_of L text) = ChatChoices [] ->
    classifier_failure text st
      (PyExc "IndexError" "list index out of range")
| no_content key cs :
    getenv_OPENAI_API_KEY env = Some key ->
    chat_create env (chat_calls st) (prompt_of L text)
    = ChatChoices (None :: cs) ->
    classifier_failure text st
      (PyExc "AttributeError" "'NoneType' object has no attribute 'strip'")
| malformed_json key content cs e :
    getenv_OPENAI_API_KEY env = Some key ->
    chat_create env (chat_calls st) (prompt_of L text)
    = ChatChoices (Some content :: cs) ->
    json_loads L (Str.strip content) = Raise e ->
    classifier_failure text st e
| missing_analysis key content cs parsed e :
    getenv_OPENAI_API_KEY env = Some key ->
    chat_create env (chat_calls st) (prompt_of L text)
    = ChatChoices (Some content :: cs) ->
    json_loads L (Str.strip content) = Ok parsed ->
    getitem parsed "analysis" = Raise e ->
    classifier_failure text st e
| missing_sentiment key content cs parsed analysis e :
    getenv_OPENAI_API_KEY env = Some key ->
    chat_create env (chat_calls st) (prompt_of L text)
    = ChatChoices (Some content :: cs) ->
    json_loads L (Str.strip content) = Ok parsed ->
    getitem parsed "analysis" = Ok analysis ->
    getitem parsed "sentiment" = Raise e ->
    classifier_failure text st e.

(** The classifier answered [text] in state [st] with a JSON value
    that has both keys. *)
Inductive classifier_answer (text : json) (st : State)
  : json * json -> Prop :=
| answered key content cs parsed analysis sentiment :
    getenv_OPENAI_API_KEY env = Some key ->
    chat_create env (chat_calls st) (prompt_of L text)
    = ChatChoices (Some content :: cs) ->
    json_loads L (Str.strip content) = Ok parsed ->
    getitem parsed "analysis" = Ok analysis ->
    getitem parsed "sentiment" = Ok sentiment ->
    classifier_answer text st (analysis, sentiment).

(** The sequence of records the store file holds: the empty sequence
    when there is no file, nothing when the file is not a JSON list. *)
Definition stored_records (content : option string) : option (list json) :=
  match content with
  | None => Some []
  | Some text =>
      match json_loads L text with
      | Ok (JList records) => Some records
      | _ => None
      end
  end.

(** The state [run_pipeline] calls [fetch_uuids] in. *)
Definition started (st : State) : State :=
  set_trace st
    (EvPrint (PyStr.utf8 "📥 Stage 1: Fetching UUIDs from HTTPBin...")
     :: EvPrint (PyStr.utf8 (Str.nl ++ "🚀 === PIPELINE STARTED ==="
                               ++ Str.nl))
     :: trace st).

(** The state Stage 2 starts in, [st] being the state after Stage 1. *)
Definition stage2_entry (uuids : list json) (st : State) : State :=
  set_trace st
    (EvPrint (PyStr.utf8 "🤖 Stage 2: AI Analysis...")
     :: EvPrint (PyStr.utf8 "✓ Fetched "
                 +++ (Str.of_nat (length uuids) ++ " UUIDs" ++ Str.nl))
     :: trace st).

(** The state [store_results] is called in, [st] being the state
    after Stage 2. *)
Definition stage3_entry (results : list pydict) (st : State) : State :=
  set_trace st
    (EvPrint (PyStr.utf8 "💾 Stage 3: Storing results...")
     :: EvPrint (PyStr.utf8 "✓ Analyzed "
                 +++ (Str.of_nat (length results) ++ " items" ++ Str.nl))
     :: trace st).

(** The state the classifier is called in for the identifier number
    [idx] of [total]. *)
Definition announced (idx total : nat) (st : State) : State :=
  set_trace st
    (EvPrint ("  Analyzing UUID " ++ Str.of_nat idx ++ "/"
                ++ Str.of_nat total ++ "...")
     :: trace st).

(** The run from [st] to [st'] only added events. *)
Definition extends (st st' : State) : Prop :=
  exists new, trace st' = new ++ trace st.

(** An event of [store_results]: the file is looked for, read or
    written. *)
Definition store_event (ev : event) : Prop :=
  match ev with
  | EvExists _ | EvRead _ | EvWrite _ => True
  | _ => False
  end.

(** An event of [send_notification]: its message is printed. *)
Definition notification_event (ev : event) : Prop :=
  exists email success_count error_count,
    ev = EvPrint (notification email success_count error_count).

(** The line Stage 2 prints after it has appended a result. *)
Definition sentiment_line (sentiment : json) : pystr :=
  PyStr.utf8 "  ✓ Sentiment: " +++ py_str L sentiment.

(** The exception [print] raises on a text it cannot encode. *)
Definition unprintable (text : pystr) : exn :=
  PyExc "UnicodeEncodeError" (PyStr.encode_error text).

(** The message Stage 2 records for [uuid] when [e] is raised, and the
    line it prints then. *)
Definition failure_message (uuid : json) (e : exn) : pystr :=
  "Failed to process UUID " +++ py_str L uuid +++ (": " ++ str_exn e).

Definition failure_line (e : exn) : pystr :=
  PyStr.utf8 "  ❌ Error: " +++ str_exn e.

Section Outcomes.

Variable analyze : json -> M (json * json).
Variable total : nat.

(** What Stage 2 does with the identifiers, one after the other,
    from number [idx] on, and what it leaves in its two lists for
    each, results to the left and error messages to the right: a
    result, when the classifier returned and the line of its
    sentiment was printed; a result and an error message, when the
    classifier returned and printing that line raised; an error
    message, when the classifier raised. *)
Inductive stage2_outcomes
  : nat -> list json -> State -> list (pydict + pystr) -> State -> Prop :=
| outcomes_done idx st :
    stage2_outcomes idx [] st [] st
| outcomes_result idx uuid uuids st analysis sentiment st1 os st' :
    analyze uuid (announced idx total st)
    = (Ok (analysis, sentiment), st1) ->
    PyStr.encodable (sentiment_line sentiment) = true ->
    stage2_outcomes (S idx) uuids
      (set_trace (tick_clock st1)
         (EvPrint (sentiment_line sentiment) :: trace st1))
      os st' ->
    stage2_outcomes idx (uuid :: uuids) st
      (inl (new_result uuid analysis sentiment
              (utcnow_isoformat env (clock_reads st1))) :: os) st'
| outcomes_result_and_error idx uuid uuids st analysis sentiment st1 os st' :
    analyze uuid (announced idx total st)
    = (Ok (analysis, sentiment), st1) ->
    PyStr.encodable (sentiment_line sentiment) = false ->
    stage2_outcomes (S idx) uuids
      (set_trace (tick_clock st1)
         (EvPrint (failure_line (unprintable (sentiment_line sentiment)))
          :: trace st1))
      os st' ->
    stage2_outcomes idx (uuid :: uuids) st
      (inl (new_result uuid analysis sentiment
              (utcnow_isoformat env (clock_reads st1)))
       :: inr (failure_message uuid
                 (unprintable (sentiment_line sentiment)))
       :: os) st'
| outcomes_error idx uuid uuids st e st1 os st' :
    analyze uuid (announced idx total st) = (Raise e, st1) ->
    stage2_outcomes (S idx) uuids
      (set_trace st1 (EvPrint (failure_line e) :: trace st1))
      os st' ->
    stage2_outcomes idx (uuid :: uuids) st
      (inr (failure_message uuid e) :: os) st'.

End Outcomes.

(** The four sentiments of the data model. *)
Definition sentiments : list string :=
  ["optimistic"; "pessimistic"; "balanced"; "neutral"].

(** Every item of every response has one of the four sentiments. *)
Definition sentiment_in_vocabulary : Prop :=
  forall email st resp st' items item,
    run_pipeline L env email st = (Ok resp, st') ->
    dict_get "items" resp = Some (JList items) ->
    In (JObject item) items ->
    exists s : string,
      dict_get "sentiment" item = Some (JStr s) /\ In s sentiments.

(** The result is the one of [uuid] and carries what the classifier
    gave for it, [calls] calls having been made to the completion API
    before that one: the two values of its answer under ["analysis"]
    and ["sentiment"], as they are, or, when the call or the reading
    of its answer failed, the text of the failure and ["neutral"]. *)
Definition as_classified (uuid : json) (calls : nat) (result : pydict)
  : Prop :=
  dict_get "original" result = Some uuid
  /\ forall s,
       chat_calls s = calls ->
       (exists analysis sentiment,
          classifier_answer uuid s (analysis, sentiment)
          /\ dict_get "analysis" result = Some analysis
          /\ dict_get "sentiment" result = Some sentiment)
       \/ (exists e,
             classifier_failure uuid s e
             /\ dict_get "analysis" result
                = Some (JStr ("Analysis unavailable: " ++ str_exn e))
             /\ dict_get "sentiment" result = Some (JStr "neutral")).

(** A result of the degraded classification, stored or not. *)
Definition degraded_result (stored : bool) (result : pydict) : Prop :=
  dict_get "sentiment" result = Some (JStr "neutral")
  /\ (exists analysis : string,
        dict_get "analysis" result = Some (JStr analysis)
        /\ Str.startswith "Analysis unavailable: " analysis = true)
  /\ dict_get "stored" result = Some (JBool stored).

End Vocabulary.

(** * Scenarios

    Concrete outside worlds and states, with [PyJson.lib] as the
    libraries, on which the statements below are evaluated. *)

Module Scenario.

Definition st0 : State :=
  {| http_calls := 0; chat_calls := 0; clock_reads := 0; file_ops := 0;
     file := None; trace := [] |}.

Definition uuid_of (n : nat) : string :=
  "6f1c0e2a-3b7d-4c1e-9a55-00000000000" ++ Str.of_nat n.

(** The body HTTPBin answers with: [{"uuid": "<u>"}]. *)
Definition uuid_body (u : string) : string :=
  "{" ++ Str.dq ++ "uuid" ++ Str.dq ++ ": " ++ Str.dq ++ u ++ Str.dq ++ "}".

Definition clock (n : nat) : string :=
  "2024-05-01T12:00:0" ++ Str.of_nat n ++ ".000000".

(** Nothing can be reached and there is no API key. *)
Definition offline : Env :=
  {| getenv_OPENAI_API_KEY := None;
     http_get := fun _ =>
       HttpFails (PyExc "ConnectError" "[Errno 111] Connection refused");
     chat_create := fun _ _ =>
       ChatFails (PyExc "APIConnectionError" "Connection error.");
     utcnow_isoformat := clock;
     read_fault := fun _ => None;
     write_fault_at := fun _ => None |}.

(** HTTPBin answers, and there is no API key: every call to the
    classifier fails. *)
Definition no_key : Env :=
  {| getenv_OPENAI_API_KEY := None;
     http_get := fun n => HttpResponse 200 (uuid_body (uuid_of n));
     chat_create := fun _ _ =>
       ChatFails (PyExc "AuthenticationError" "No API key provided.");
     utcnow_isoformat := clock;
     read_fault := fun _ => None;
     write_fault_at := fun _ => None |}.

(** HTTPBin answers but for its second request, which gets a 503. *)
Definition flaky : Env :=
  {| getenv_OPENAI_API_KEY := None;
     http_get := fun n =>
       if (n =? 1)%nat then HttpResponse 503 "Service Unavailable"
       else HttpResponse 200 (uuid_body (uuid_of n));
     chat_create := fun _ _ =>
       ChatFails (PyExc "AuthenticationError" "No API key provided.");
     utcnow_isoformat := clock;
     read_fault := fun _ => None;
     write_fault_at := fun _ => None |}.

(** The text the classifier answers with in [angry]:
    [{"analysis": "ok", "sentiment": "angry"}]. *)
Definition angry_answer : string :=
  "{" ++ Str.dq ++ "analysis" ++ Str.dq ++ ": " ++ Str.dq ++ "ok" ++ Str.dq
  ++ ", " ++ Str.dq ++ "sentiment" ++ Str.dq ++ ": " ++ Str.dq ++ "angry"
  ++ Str.dq ++ "}".

(** HTTPBin answers, and so does the classifier, with a sentiment of
    its own. *)
Definition angry : Env :=
  {| getenv_OPENAI_API_KEY := Some "sk-test";
     http_get := fun n => HttpResponse 200 (uuid_body (uuid_of n));
     chat_create := fun _ _ => ChatChoices [Some angry_answer];
     utcnow_isoformat := clock;
     read_fault := fun _ => None;
     write_fault_at := fun _ => None |}.

(** A classifier that raises for the second identifier. *)
Definition stub (uuid : json) : M (json * json) :=
  match uuid with
  | JStr (Narrow u) =>
      if String.eqb u (uuid_of 1)
      then raise (PyExc "RuntimeError" "classifier stub")
      else ret (JStr "fine", JStr "balanced")
  | _ => ret (JStr "fine", JStr "balanced")
  end.

(** The text the classifier answers with in [surrogate]:
    [{"analysis": "ok", "sentiment": "\ud800"}], where the escape is
    that of a lone surrogate. *)
Definition surrogate_answer : string :=
  "{" ++ Str.dq ++ "analysis" ++ Str.dq ++ ": " ++ Str.dq ++ "ok" ++ Str.dq
  ++ ", " ++ Str.dq ++ "sentiment" ++ Str.dq ++ ": " ++ Str.dq ++ "\ud800"
  ++ Str.dq ++ "}".

(** HTTPBin answers, and so does the classifier, with a sentiment that
    no stream can encode. *)
Definition surrogate : Env :=
  {| getenv_OPENAI_API_KEY := Some "sk-test";
     http_get := fun n => HttpResponse 200 (uuid_body (uuid_of n));
     chat_create := fun _ _ => ChatChoices [Some surrogate_answer];
     utcnow_isoformat := clock;
     read_fault := fun _ => None;
     write_fault_at := fun _ => None |}.

(** What [print] raises on the line of that sentiment. *)
Definition surrogate_error : string :=
  "'utf-8' codec can't encode character '\ud800' in position 15: "
  ++ "surrogates not allowed".

(** A state whose result file holds one record:
    [[{"original": "old", "stored": false}]]. *)
Definition st_one_record : State :=
  {| http_calls := 0; chat_calls := 0; clock_reads := 0; file_ops := 0;
     file := Some ("[{" ++ Str.dq ++ "original" ++ Str.dq ++ ": "
                     ++ Str.dq ++ "old" ++ Str.dq ++ ", "
                     ++ Str.dq ++ "stored" ++ Str.dq ++ ": false}]")%string;
     trace := [] |}.

(** The first item of the response in [angry]. *)
Definition angry_item : pydict :=
  [ ("original", JStr (uuid_of 0));
    ("analysis", JStr "ok");
    ("sentiment", JStr "angry");
    ("stored", JBool true);
    ("timestamp", JStr (clock 0 ++ "Z")) ].

Definition new_record : pydict :=
  [ ("original", JStr (uuid_of 0));
    ("analysis", JStr "fine");
    ("sentiment", JStr "balanced");
    ("stored", JBool false);
    ("timestamp", JStr "2024-05-01T12:00:00.000000Z") ].

End Scenario.

(** * The health check and further vocabulary *)

(** [health_check()], the handler of [GET /]. *)
Definition health_check : M pydict :=
  ret [ ("status", JStr (PyStr.utf8 "🟢 Pipeline API is running"));
        ("endpoint", JStr "POST /pipeline");
        ("example",
         JObject [ ("email", JStr "your@email.com");
                   ("source", JStr "HTTPBin UUID") ]) ].

(** ** Kinds of events *)

(** A request to HTTPBin's UUID endpoint. *)
Definition is_get (ev : event) : bool :=
  match ev with
  | EvHttpGet url => String.eqb url "https://httpbin.org/uuid"
  | _ => false
  end.

(** A line of [fetch_uuids] about a failed request. *)
Definition is_error_line (ev : event) : bool :=
  match ev with
  | EvPrint text => PyStr.startswith "Error fetching UUID " text
  | _ => false
  end.

(** A printed line. *)
Definition is_print (ev : event) : bool :=
  match ev with
  | EvPrint _ => true
  | _ => false
  end.

(** A call to the completion API, with the model of the program. *)
Definition is_chat (ev : event) : bool :=
  match ev with
  | EvChat model _ => String.eqb model "gpt-3.5-turbo"
  | _ => false
  end.

(** An operation on the result file. *)
Definition is_store (ev : event) : bool :=
  match ev with
  | EvExists f | EvRead f | EvWrite f => String.eqb f "pipeline_results.json"
  | _ => false
  end.

(** ** Outcomes of the storage and of a run *)

Section FurtherVocabulary.

Variable L : Lib.
Variable env : Env.

(** The conditions under which [store_results] succeeds in a state: the
    file, when there is one, is read without fault and holds a JSON
    list, and the write does not fail. *)
Definition store_succeeds (st : State) : Prop :=
  match file st with
  | None => write_fault_at env (file_ops st) = None
  | Some text =>
      read_fault env (file_ops st) = None
      /\ match json_loads L text with
         | Ok (JList _) => True
         | _ => False
         end
      /\ write_fault_at env (S (file_ops st)) = None
  end.

(** The write of [store_results] failed after the file was opened, and
    left the first [n] characters of [text] in it. *)
Definition truncated_write (st : State) (text : string) (st' : State) : Prop :=
  exists e n,
    write_fault_at env
      (match file st with None => file_ops st | Some _ => S (file_ops st) end)
    = Some (WriteFails e n)
    /\ file st' = Some (Str.firstn n text).

(** The state [run_pipeline] returns in, [st] being the state after
    [store_results] returned [b]. *)
Definition finished (email : string) (items : list pydict)
    (errors : list pystr) (b : bool) (st : State) : State :=
  tick_clock
    (set_trace st
       (EvPrint (PyStr.utf8 ("✅ === PIPELINE COMPLETE ===" ++ Str.nl))
        :: EvPrint (PyStr.utf8 "✓ Notification sent to " +++ email
                    +++ Str.nl)
        :: EvPrint (notification email (length items) (length errors))
        :: EvPrint (PyStr.utf8 "📧 Stage 4: Sending notification...")
        :: EvPrint (PyStr.utf8 "✓ Storage "
                    +++ ((if b then "successful" else "failed") ++ Str.nl))
        :: trace st)).

(** The keys of an AnalysisResult, in the order it is created with. *)
Definition item_keys : list string :=
  ["original"; "analysis"; "sentiment"; "stored"; "timestamp"].

(** The calls to the completion API one classification makes. *)
Definition calls_per_uuid : nat :=
  match getenv_OPENAI_API_KEY env with Some _ => 1 | None => 0 end.

(** The error message an item comes with: the one of the
    [UnicodeEncodeError] that printing the line of its sentiment
    raises, and none when the line can be printed. *)
Definition item_error (item : pydict) : option pystr :=
  match dict_get "original" item, dict_get "sentiment" item with
  | Some uuid, Some sentiment =>
      if PyStr.encodable (sentiment_line L sentiment) then None
      else Some (failure_message L uuid
                   (unprintable (sentiment_line L sentiment)))
  | _, _ => None
  end.

(** The item is the result with its [stored] field set to [b]. *)
Definition stored_as (b : bool) (result item : pydict) : Prop :=
  dict_get "stored" item = Some (JBool b)
  /\ forall k, k <> "stored" -> dict_get k item = dict_get k result.

End FurtherVocabulary.

(** ** Further scenarios *)

Module Runs.

(** The identifiers fetched in [Scenario.no_key] and [Scenario.angry],
    from a state that made no request yet. *)
Definition fetched : list json :=
  [JStr (Scenario.uuid_of 0); JStr (Scenario.uuid_of 1);
   JStr (Scenario.uuid_of 2)].

(** Those of the run after it. *)
Definition fetched_next : list json :=
  [JStr (Scenario.uuid_of 3); JStr (Scenario.uuid_of 4);
   JStr (Scenario.uuid_of 5)].

(** [Scenario.no_key] with a disk that takes ten characters of every
    write and then fails. *)
Definition disk_full : Env :=
  {| getenv_OPENAI_API_KEY := None;
     http_get := http_get Scenario.no_key;
     chat_create := chat_create Scenario.no_key;
     utcnow_isoformat := Scenario.clock;
     read_fault := fun _ => None;
     write_fault_at := fun _ =>
       Some (WriteFails (PyExc "OSError"
                           "[Errno 28] No space left on device") 10) |}.

Definition second_record : pydict :=
  [ ("original", JStr (Scenario.uuid_of 1));
    ("analysis", JStr "fine");
    ("sentiment", JStr "balanced");
    ("stored", JBool false);
    ("timestamp", JStr "2024-05-01T12:00:01.000000Z") ].

End Runs.

(** * Properties *)

(** ** Running computations *)

Lemma bind_ok {A B} (c : M A) (k : A -> M B) st a st' :
  c st = (Ok a, st') -> bind c k st = k a st'.
Proof. intros H. unfold bind. now rewrite H. Qed.

Lemma bind_raise {A B} (c : M A) (k : A -> M B) st e st' :
  c st = (Raise e, st') -> bind c k st = (Raise e, st').
Proof. intros H. unfold bind. now rewrite H. Qed.

Lemma try_ok {A} (body : M A) handler st a st' :
  body st = (Ok a, st') -> try_except body handler st = (Ok a, st').
Proof. intros H. unfold try_except. now rewrite H. Qed.

Lemma try_raise {A} (body : M A) handler st e st' :
  body st = (Raise e, st') -> try_except body handler st = handler e st'.
Proof. intros H. unfold try_except. now rewrite H. Qed.

(** *** Text *)

Lemma of_string_below s :
  Forall (fun c => (c < 256)%N) (PyStr.of_string s).
Proof.
  induction s as [| c s IH]; constructor; [| exact IH].
  apply N_ascii_bounded.
Qed.

Lemma to_string_of_string s : PyStr.to_string (PyStr.of_string s) = s.
Proof.
  induction s as [| c s IH]; [reflexivity |].
  cbn [PyStr.of_string PyStr.to_string]. now rewrite ascii_N_embedding, IH.
Qed.

Lemma narrow_below cps :
  PyStr.narrow cps = true <-> Forall (fun c => (c < 256)%N) cps.
Proof.
  unfold PyStr.narrow. rewrite forallb_forall, Forall_forall.
  split; intros H c Hc; [apply N.ltb_lt | apply N.ltb_lt]; auto.
Qed.

Lemma of_code_points_of_string s :
  PyStr.of_code_points (PyStr.of_string s) = Narrow s.
Proof.
  unfold PyStr.of_code_points.
  rewrite (proj2 (narrow_below _) (of_string_below s)).
  now rewrite to_string_of_string.
Qed.

Lemma below_no_surrogate cps :
  Forall (fun c => (c < 256)%N) cps ->
  forallb (fun c => negb (PyStr.is_surrogate c)) cps = true.
Proof.
  intros H. apply forallb_forall. rewrite Forall_forall in H.
  intros c Hc. apply H in Hc. unfold PyStr.is_surrogate.
  apply negb_true_iff, andb_false_iff. left. apply N.leb_gt. lia.
Qed.

Lemma encodable_code_points t :
  PyStr.encodable t
  = forallb (fun c => negb (PyStr.is_surrogate c)) (PyStr.code_points t).
Proof.
  destruct t as [s | cps]; [| reflexivity].
  cbn. symmetry. apply below_no_surrogate, of_string_below.
Qed.

(** A text put together of two can be encoded when both can. *)
Lemma encodable_cat a b :
  PyStr.encodable (a +++ b) = PyStr.encodable a && PyStr.encodable b.
Proof.
  rewrite (encodable_code_points a), (encodable_code_points b).
  destruct a as [x | x], b as [y | y]; cbn [PyStr.cat PyStr.encodable];
    rewrite ?forallb_app; try reflexivity.
  cbn [PyStr.code_points].
  now rewrite !below_no_surrogate by apply of_string_below.
Qed.

Ltac printable :=
  try unfold notification;
  rewrite ?encodable_cat; reflexivity.

Lemma print_run (text : pystr) st :
  PyStr.encodable text = true ->
  print text st = (Ok tt, set_trace st (EvPrint text :: trace st)).
Proof. intros H. unfold print. now rewrite H. Qed.

Lemma print_raises (text : pystr) st :
  PyStr.encodable text = false ->
  print text st
  = (Raise (PyExc "UnicodeEncodeError" (PyStr.encode_error text)), st).
Proof. intros H. unfold print. now rewrite H. Qed.

Lemma caught_ok {A} (body : M A) st a st' :
  body st = (Ok a, st') -> caught body st = (Ok (Ok a), st').
Proof. intros H. unfold caught. now rewrite H. Qed.

Lemma caught_raise {A} (body : M A) st e st' :
  body st = (Raise e, st') -> caught body st = (Ok (Raise e), st').
Proof. intros H. unfold caught. now rewrite H. Qed.

Lemma somes_length {A} (l : list (option A)) :
  length (somes l) <= length l.
Proof. induction l as [| [a |] l IH]; simpl; lia. Qed.

Lemma somes_all_none {A} (l : list (option A)) :
  Forall (fun o => o = None) l -> somes l = [].
Proof. induction 1 as [| o l Ho _ IH]; [reflexivity |]. now subst. Qed.

(** ** The model of [json]: [loads] reads back what [dumps] writes *)

Module PyJsonFacts.

Import PyJson.
Local Open Scope string_scope.

(** *** String literals *)

Lemma hex_val_digit k : k < 16 -> hex_val (Str.hex_digit k) = Some k.
Proof. intros H. do 16 (destruct k as [| k]; [reflexivity |]). lia. Qed.

Lemma hex_val_below c k : hex_val c = Some k -> k < 16.
Proof.
  unfold hex_val.
  destruct ((48 <=? nat_of_ascii c) && (nat_of_ascii c <=? 57))%nat eqn:E1.
  { apply andb_prop in E1. destruct E1 as (E1 & E2).
    apply Nat.leb_le in E1, E2. intros H. injection H as <-. lia. }
  destruct ((97 <=? nat_of_ascii c) && (nat_of_ascii c <=? 102))%nat eqn:E2.
  { apply andb_prop in E2. destruct E2 as (E2 & E3).
    apply Nat.leb_le in E2, E3. intros H. injection H as <-. lia. }
  destruct ((65 <=? nat_of_ascii c) && (nat_of_ascii c <=? 70))%nat eqn:E3;
    [| discriminate].
  apply andb_prop in E3. destruct E3 as (E3 & E4).
  apply Nat.leb_le in E3, E4. intros H. injection H as <-. lia.
Qed.

Lemma unhex4_below h1 h2 h3 h4 u :
  unhex4 h1 h2 h3 h4 = Some u -> (u < 65536)%N.
Proof.
  unfold unhex4.
  destruct (hex_val h1) as [a |] eqn:E1; [| discriminate].
  destruct (hex_val h2) as [b |] eqn:E2; [| discriminate].
  destruct (hex_val h3) as [c |] eqn:E3; [| discriminate].
  destruct (hex_val h4) as [d |] eqn:E4; [| discriminate].
  apply hex_val_below in E1, E2, E3, E4.
  intros H.
  assert (Hu : (4096 * N.of_nat a + 256 * N.of_nat b + 16 * N.of_nat c
                + N.of_nat d)%N = u) by congruence.
  lia.
Qed.

(** The quotient and the remainder of a division, named. *)
Ltac divmod x y :=
  let q := fresh "q" in
  let r := fresh "r" in
  pose proof (N.div_mod' x y);
  pose proof (N.mod_lt x y ltac:(discriminate));
  remember (N.div x y) as q; remember (N.modulo x y) as r.

Lemma unhex4_hex4 u :
  (u < 65536)%N ->
  unhex4 (Str.hex_digit (N.to_nat (u / 16 / 16 / 16)))
    (Str.hex_digit (N.to_nat ((u / 16 / 16) mod 16)))
    (Str.hex_digit (N.to_nat ((u / 16) mod 16)))
    (Str.hex_digit (N.to_nat (u mod 16))) = Some u.
Proof.
  intros Hu. unfold unhex4.
  divmod u 16%N. divmod q 16%N. divmod q0 16%N.
  rewrite !hex_val_digit by lia. f_equal. lia.
Qed.

Lemma lex_string_plain c X :
  Ascii.eqb c "034" = false -> Ascii.eqb c "\" = false ->
  (nat_of_ascii c <? 32)%nat = false ->
  lex_string (String c X) = more_units (N_of_ascii c) (lex_string X).
Proof. intros H1 H2 H3. cbn [lex_string]. now rewrite H1, H2, H3. Qed.

Lemma ascii_of_N_eqb u c :
  (u < 256)%N -> u <> N_of_ascii c -> Ascii.eqb (ascii_of_N u) c = false.
Proof.
  intros Hu Hne. apply Ascii.eqb_neq. intros Heq. apply Hne.
  rewrite <- Heq. now rewrite N_ascii_embedding.
Qed.

(** Reading what [json.dumps] writes for one number gives the number
    back. *)
Lemma lex_string_escape_unit u X :
  (u < 65536)%N ->
  lex_string (escape_unit u ++ X) = more_units u (lex_string X).
Proof.
  intros Hu. unfold escape_unit.
  destruct (u =? 34)%N eqn:E1.
  { apply N.eqb_eq in E1. subst u. reflexivity. }
  destruct (u =? 92)%N eqn:E2.
  { apply N.eqb_eq in E2. subst u. reflexivity. }
  destruct (u =? 10)%N eqn:E3.
  { apply N.eqb_eq in E3. subst u. reflexivity. }
  destruct (u =? 13)%N eqn:E4.
  { apply N.eqb_eq in E4. subst u. reflexivity. }
  destruct (u =? 9)%N eqn:E5.
  { apply N.eqb_eq in E5. subst u. reflexivity. }
  destruct (u =? 8)%N eqn:E6.
  { apply N.eqb_eq in E6. subst u. reflexivity. }
  destruct (u =? 12)%N eqn:E7.
  { apply N.eqb_eq in E7. subst u. reflexivity. }
  apply N.eqb_neq in E1, E2.
  destruct ((32 <=? u) && (u <=? 126))%N eqn:Ep.
  - apply andb_prop in Ep. destruct Ep as (Ep1 & Ep2).
    apply N.leb_le in Ep1, Ep2.
    cbn [append]. rewrite lex_string_plain.
    + rewrite N_ascii_embedding by lia. reflexivity.
    + apply ascii_of_N_eqb; [lia | exact E1].
    + apply ascii_of_N_eqb; [lia | exact E2].
    + apply Nat.ltb_ge. unfold nat_of_ascii.
      rewrite N_ascii_embedding by lia. lia.
  - unfold Str.hex4. cbn [append].
    change (lex_string
              (String "\" (String "u"
                 (String (Str.hex_digit (N.to_nat (u / 16 / 16 / 16)))
                    (String (Str.hex_digit (N.to_nat ((u / 16 / 16) mod 16)))
                       (String (Str.hex_digit (N.to_nat ((u / 16) mod 16)))
                          (String (Str.hex_digit (N.to_nat (u mod 16)))
                             X)))))))
      with (match unhex4 (Str.hex_digit (N.to_nat (u / 16 / 16 / 16)))
                    (Str.hex_digit (N.to_nat ((u / 16 / 16) mod 16)))
                    (Str.hex_digit (N.to_nat ((u / 16) mod 16)))
                    (Str.hex_digit (N.to_nat (u mod 16))) with
            | Some v => more_units v (lex_string X)
            | None => None
            end).
    now rewrite unhex4_hex4.
Qed.

Lemma append_assoc_s (a b c : string) : (a ++ b) ++ c = a ++ (b ++ c).
Proof. induction a; simpl; congruence. Qed.

Lemma lex_string_escape units r :
  Forall (fun u => (u < 65536)%N) units ->
  lex_string (escape units ++ String "034" r) = Some (units, r).
Proof.
  induction 1 as [| u units Hu _ IH]; [reflexivity |].
  cbn [escape]. rewrite append_assoc_s, lex_string_escape_unit, IH by exact Hu.
  reflexivity.
Qed.

(** What the lexer reads in a string literal is below 65536. *)
Lemma lex_string_below n : forall s units r,
  String.length s <= n ->
  lex_string s = Some (units, r) ->
  Forall (fun u => (u < 65536)%N) units.
Proof.
  induction n as [| n IH]; intros s units r Hn H.
  { destruct s; [discriminate | cbn in Hn; lia]. }
  destruct s as [| c s]; [discriminate |].
  cbn [String.length] in Hn. cbn [lex_string] in H.
  assert (Hmore : forall u X,
             String.length X <= n -> (u < 65536)%N ->
             more_units u (lex_string X) = Some (units, r) ->
             Forall (fun u => (u < 65536)%N) units).
  { intros u X HX Hu Hm. unfold more_units in Hm.
    destruct (lex_string X) as [[body r'] |] eqn:E; [| discriminate].
    injection Hm as <- <-. constructor; [exact Hu |].
    eapply IH; [exact HX | exact E]. }
  destruct (Ascii.eqb c "034").
  { injection H as <- _. constructor. }
  destruct (Ascii.eqb c "\").
  - destruct s as [| e s]; [discriminate |].
    cbn [String.length] in Hn.
    repeat match type of H with
           | (if ?b then _ else _) = _ =>
               destruct b;
               [eapply Hmore; [| | exact H]; [lia | reflexivity] |]
           end.
    destruct (Ascii.eqb e "u"); [| discriminate].
    destruct s as [| h1 [| h2 [| h3 [| h4 X]]]]; try discriminate.
    cbn [String.length] in Hn.
    destruct (unhex4 h1 h2 h3 h4) as [u |] eqn:E; [| discriminate].
    eapply Hmore; [| | exact H]; [lia | eapply unhex4_below; exact E].
  - destruct (nat_of_ascii c <? 32)%nat; [discriminate |].
    eapply Hmore; [| | exact H]; [lia |].
    pose proof (N_ascii_bounded c). lia.
Qed.

(** *** Surrogate pairs *)

Lemma combine_above hi lo : (65536 <= combine hi lo)%N.
Proof. unfold combine. lia. Qed.

Lemma combine_bound hi lo :
  PyStr.is_high hi = true -> PyStr.is_low lo = true ->
  (combine hi lo <= 0x10FFFF)%N.
Proof.
  unfold PyStr.is_high, PyStr.is_low, combine. intros H1 H2.
  apply andb_prop in H1, H2. destruct H1 as (H1 & H1'), H2 as (H2 & H2').
  apply N.leb_le in H1, H1', H2, H2'. lia.
Qed.

Lemma above_not_surrogate c :
  (65536 <= c)%N -> PyStr.is_high c = false /\ PyStr.is_low c = false.
Proof.
  intros H. unfold PyStr.is_high, PyStr.is_low.
  split; apply andb_false_iff; right; apply N.leb_gt; lia.
Qed.

Lemma join_pairs_cons a l :
  join_pairs (a :: l)
  = match l with
    | b :: l' =>
        if PyStr.is_high a && PyStr.is_low b
        then combine a b :: join_pairs l'
        else a :: join_pairs l
    | [] => [a]
    end.
Proof. reflexivity. Qed.

(** A low surrogate at the head of what [join_pairs] returns was at
    the head of what it was given. *)
Lemma join_pairs_head units y rest :
  join_pairs units = y :: rest -> PyStr.is_low y = true ->
  exists rest', units = y :: rest'.
Proof.
  destruct units as [| a [| b l]]; cbn [join_pairs]; intros H Hy.
  - discriminate.
  - injection H as <- _. now eexists.
  - destruct (PyStr.is_high a && PyStr.is_low b).
    + injection H as <- _.
      now rewrite (proj2 (above_not_surrogate _ (combine_above a b))) in Hy.
    + injection H as <- _. now eexists.
Qed.

(** What [join_pairs] returns of numbers below 65536 is what
    [json.dumps] writes back as it is. *)
Lemma join_pairs_ok n : forall units,
  length units <= n ->
  Forall (fun u => (u < 65536)%N) units ->
  forallb (fun c => (c <=? 0x10FFFF)%N) (join_pairs units) = true
  /\ pair_free (join_pairs units) = true.
Proof.
  induction n as [| n IH]; intros units Hn Hu.
  { destruct units; [now split | cbn in Hn; lia]. }
  destruct units as [| a [| b l]]; [now split | |].
  - inversion Hu; subst. cbn. split; [| reflexivity].
    rewrite andb_true_r. apply N.leb_le. lia.
  - cbn [length] in Hn. inversion Hu as [| ? ? Ha Hu']; subst.
    rewrite join_pairs_cons.
    destruct (PyStr.is_high a && PyStr.is_low b) eqn:E.
    + apply andb_prop in E. destruct E as (E1 & E2).
      inversion Hu' as [| ? ? _ Hl]; subst.
      destruct (IH l) as (IH1 & IH2); [lia | exact Hl |].
      split.
      * cbn [forallb]. rewrite IH1, andb_true_r.
        apply N.leb_le. now apply combine_bound.
      * cbn [pair_free].
        rewrite (proj1 (above_not_surrogate _ (combine_above a b))).
        destruct (join_pairs l); [reflexivity | exact IH2].
    + destruct (IH (b :: l)) as (IH1 & IH2); [cbn; lia | exact Hu' |].
      split.
      * cbn [forallb]. rewrite IH1, andb_true_r. apply N.leb_le. lia.
      * cbn [pair_free].
        destruct (join_pairs (b :: l)) as [| y rest] eqn:Ej; [reflexivity |].
        rewrite IH2, andb_true_r. apply negb_true_iff.
        destruct (PyStr.is_low y) eqn:Ey; [| apply andb_false_r].
        destruct (join_pairs_head _ _ _ Ej Ey) as (rest' & Heq).
        injection Heq as <- _. now rewrite Ey in E.
Qed.

Lemma split_pairs_below cps :
  forallb (fun c => (c <=? 0x10FFFF)%N) cps = true ->
  Forall (fun u => (u < 65536)%N) (split_pairs cps).
Proof.
  induction cps as [| c l IH]; intros H; [constructor |].
  cbn [forallb] in H. apply andb_prop in H. destruct H as (Hc & Hl).
  apply N.leb_le in Hc. cbn [split_pairs].
  destruct (c <? 65536)%N eqn:E.
  - apply N.ltb_lt in E. constructor; auto.
  - apply N.ltb_ge in E. divmod (c - 65536)%N 1024%N.
    constructor; [lia |]. constructor; [lia |]. auto.
Qed.

(** The head of what [split_pairs] returns is a low surrogate only
    when that of what it was given is one. *)
Lemma split_pairs_head c l y rest :
  (c <=? 0x10FFFF)%N = true ->
  split_pairs (c :: l) = y :: rest -> PyStr.is_low y = true -> y = c.
Proof.
  intros Hc. apply N.leb_le in Hc. cbn [split_pairs].
  destruct (c <? 65536)%N eqn:E; intros H Hy.
  - now injection H as <- _.
  - apply N.ltb_ge in E.
    assert (Heq : (0xD800 + (c - 0x10000) / 1024)%N = y) by congruence.
    subst y. clear H.
    unfold PyStr.is_low in Hy. apply andb_prop in Hy.
    destruct Hy as (Hy & _). apply N.leb_le in Hy.
    divmod (c - 65536)%N 1024%N. lia.
Qed.

(** Joining the pairs [json.dumps] wrote gives the code points
    back. *)
Lemma join_split_pairs cps :
  forallb (fun c => (c <=? 0x10FFFF)%N) cps = true ->
  pair_free cps = true ->
  join_pairs (split_pairs cps) = cps.
Proof.
  induction cps as [| c l IH]; intros Hb Hp; [reflexivity |].
  cbn [forallb] in Hb. apply andb_prop in Hb. destruct Hb as (Hc & Hl).
  assert (Hpl : pair_free l = true).
  { cbn [pair_free] in Hp. destruct l; [reflexivity |].
    now apply andb_prop in Hp. }
  specialize (IH Hl Hpl). cbn [split_pairs].
  destruct (c <? 65536)%N eqn:E.
  - rewrite join_pairs_cons.
    destruct (split_pairs l) as [| y rest] eqn:Es.
    + destruct l as [| c2 l2]; [reflexivity |].
      cbn [split_pairs] in Es. destruct (c2 <? 65536)%N; discriminate.
    + destruct (PyStr.is_high c && PyStr.is_low y) eqn:Ehl;
        [| now rewrite IH].
      apply andb_prop in Ehl. destruct Ehl as (Eh & El).
      destruct l as [| c2 l2]; [discriminate |].
      cbn [forallb] in Hl. apply andb_prop in Hl. destruct Hl as (Hc2 & _).
      pose proof (split_pairs_head _ _ _ _ Hc2 Es El) as ->.
      cbn [pair_free] in Hp. now rewrite Eh, El in Hp.
  - apply N.ltb_ge in E. apply N.leb_le in Hc.
    rewrite join_pairs_cons.
    divmod (c - 65536)%N 1024%N.
    assert (Hh : PyStr.is_high (55296 + q) = true).
    { unfold PyStr.is_high. apply andb_true_intro.
      split; apply N.leb_le; lia. }
    assert (Hlo : PyStr.is_low (56320 + r) = true).
    { unfold PyStr.is_low. apply andb_true_intro.
      split; apply N.leb_le; lia. }
    rewrite Hh, Hlo. cbn [andb]. rewrite IH. f_equal.
    unfold combine. lia.
Qed.

(** A string written and read back is the string. *)
Lemma str_of_units_of_str s :
  wf (JStr s) ->
  Forall (fun u => (u < 65536)%N) (units_of_str s)
  /\ str_of_units (units_of_str s) = s.
Proof.
  intros Hwf. unfold str_of_units, units_of_str.
  inversion Hwf as [| | | s0 | cps Hok | |]; subst; cbn [PyStr.code_points].
  - pose proof (of_string_below s0) as Hb.
    assert (Hbound : forallb (fun c => (c <=? 0x10FFFF)%N)
                       (PyStr.of_string s0) = true).
    { apply forallb_forall. rewrite Forall_forall in Hb.
      intros c Hc. apply Hb in Hc. apply N.leb_le. lia. }
    assert (Hfree : pair_free (PyStr.of_string s0) = true).
    { clear Hbound. induction Hb as [| c l Hc _ IH]; [reflexivity |].
      cbn [pair_free]. destruct l as [| b l]; [reflexivity |].
      rewrite IH, andb_true_r. apply negb_true_iff, andb_false_iff.
      left. unfold PyStr.is_high. apply andb_false_iff. left.
      apply N.leb_gt. lia. }
    split; [now apply split_pairs_below |].
    rewrite join_split_pairs by assumption.
    apply of_code_points_of_string.
  - unfold wide_ok in Hok. apply andb_prop in Hok.
    destruct Hok as (Hok & Hfree). apply andb_prop in Hok.
    destruct Hok as (Hnarrow & Hbound).
    split; [now apply split_pairs_below |].
    rewrite join_split_pairs by assumption.
    unfold PyStr.of_code_points.
    apply negb_true_iff in Hnarrow. now rewrite Hnarrow.
Qed.

(** What the lexer makes of a string literal is well formed. *)
Lemma str_of_units_wf units :
  Forall (fun u => (u < 65536)%N) units -> wf (JStr (str_of_units units)).
Proof.
  intros Hu. unfold str_of_units, PyStr.of_code_points.
  destruct (PyStr.narrow (join_pairs units)) eqn:E; [constructor |].
  destruct (join_pairs_ok _ units (le_n _) Hu) as (H1 & H2).
  constructor. unfold wide_ok. now rewrite E, H1, H2.
Qed.

(** *** Integer literals *)

Lemma span_digits_uint d r :
  value_end r ->
  span_digits (NilEmpty.string_of_uint d ++ r)
  = (NilEmpty.string_of_uint d, r).
Proof.
  intros Hr.
  induction d as [| d IH | d IH | d IH | d IH | d IH | d IH | d IH | d IH
                 | d IH | d IH];
    try (cbn [NilEmpty.string_of_uint append span_digits];
         change (is_digit _) with true; cbv iota; now rewrite IH).
  cbn [NilEmpty.string_of_uint append].
  destruct r as [| c r]; [reflexivity |].
  destruct Hr as (Hd & _). cbn [span_digits]. now rewrite Hd.
Qed.

Lemma leading_zero_normal d :
  Decimal.unorm d = d -> leading_zero (NilEmpty.string_of_uint d) = false.
Proof.
  destruct d; intros H; cbn [NilEmpty.string_of_uint];
    try (unfold leading_zero; destruct (NilEmpty.string_of_uint d);
         reflexivity).
  - reflexivity.
  - destruct (Decimal.uint_eq_dec d Decimal.Nil) as [-> | Hnil];
      [reflexivity |].
    change (Decimal.unorm (Decimal.D0 d)) with (Decimal.unorm d) in H.
    pose proof (DecimalFacts.nb_digits_unorm d Hnil) as Hn.
    rewrite H in Hn. cbn [Decimal.nb_digits] in Hn. lia.
Qed.

Lemma string_of_uint_length d :
  String.length (NilEmpty.string_of_uint d) = Decimal.nb_digits d.
Proof.
  induction d; cbn [NilEmpty.string_of_uint String.length Decimal.nb_digits];
    congruence.
Qed.

Lemma lex_int_uint negative d r :
  Decimal.unorm d = d -> Decimal.nb_digits d <= max_str_digits ->
  value_end r ->
  lex_int negative (NilEmpty.string_of_uint d ++ r)
  = Some (Z.of_int (if negative then Decimal.Neg d else Decimal.Pos d), r).
Proof.
  intros Hd Hn Hr. unfold lex_int. rewrite (span_digits_uint d r Hr).
  assert (Hf : follows_number r = false).
  { destruct r; [reflexivity | apply Hr]. }
  rewrite Hf, (leading_zero_normal d Hd). cbn [orb].
  rewrite string_of_uint_length.
  rewrite (proj2 (Nat.ltb_ge _ _) Hn).
  now rewrite NilEmpty.usu.
Qed.

(** The integer of a literal has no more digits than the literal. *)
Lemma of_int_digits (negative : bool) d :
  int_digits (Z.of_int (if negative then Decimal.Neg d else Decimal.Pos d))
  <= Nat.max 1 (Decimal.nb_digits d).
Proof.
  assert (H : int_digits (Z.of_int (if negative then Decimal.Neg d
                                    else Decimal.Pos d))
              = Decimal.nb_digits (Decimal.unorm d)).
  { unfold int_digits. f_equal.
    rewrite <- DecimalPos.Unsigned.to_of. f_equal.
    destruct negative; cbn [Z.of_int]; unfold Z.of_uint.
    - rewrite Zabs2N.inj_opp. apply Zabs2N.id.
    - apply Zabs2N.id. }
  rewrite H.
  destruct (Decimal.uint_eq_dec d Decimal.Nil) as [-> | Hnil].
  - cbn. lia.
  - pose proof (DecimalFacts.nb_digits_unorm d Hnil). lia.
Qed.

Lemma lex_int_digits negative s z r :
  lex_int negative s = Some (z, r) -> int_digits z <= max_str_digits.
Proof.
  unfold lex_int. destruct (span_digits s) as (digits, r').
  destruct (follows_number r' || leading_zero digits); [discriminate |].
  cbn [orb].
  destruct (Nat.ltb_spec max_str_digits (String.length digits)) as [| Hn];
    [discriminate |].
  destruct (NilEmpty.uint_of_string digits) as [d |] eqn:Hd; [| discriminate].
  intros H. injection H as <- _.
  apply NilEmpty.sus in Hd. subst digits.
  rewrite string_of_uint_length in Hn.
  pose proof (of_int_digits negative d) as Hz.
  unfold max_str_digits in *. lia.
Qed.

Lemma unorm_to_uint p : Decimal.unorm (Pos.to_uint p) = Pos.to_uint p.
Proof.
  rewrite <- (DecimalPos.Unsigned.to_of (Pos.to_uint p)).
  now rewrite DecimalPos.Unsigned.of_to.
Qed.

Lemma string_of_uint_head d :
  d <> Decimal.Nil ->
  exists c s, NilEmpty.string_of_uint d = String c s /\ is_digit c = true.
Proof.
  destruct d; intros H; try congruence;
    cbn [NilEmpty.string_of_uint]; do 2 eexists; split; reflexivity.
Qed.

(** *** The tokens of a text, piece by piece *)

Lemma length_append_s (a b : string) :
  String.length (a ++ b) = String.length a + String.length b.
Proof. induction a; simpl; congruence. Qed.

Lemma lexes_nil : lexes EmptyString [].
Proof. intros [| f] H; [lia | reflexivity]. Qed.

Lemma lexes_space r ts : lexes r ts -> lexes (String " " r) ts.
Proof.
  intros H [| f] Hf; [lia |]. cbn in Hf. cbn. apply H. lia.
Qed.

Lemma lexes_newline r ts : lexes r ts -> lexes (String "010" r) ts.
Proof.
  intros H [| f] Hf; [lia |]. cbn in Hf. cbn. apply H. lia.
Qed.

Lemma lexes_spaces n r ts : lexes r ts -> lexes (spaces n ++ r) ts.
Proof.
  intros H. induction n as [| n IH]; [exact H |].
  cbn [spaces append]. now apply lexes_space.
Qed.

Lemma lexes_newline_indent level r ts :
  lexes r ts -> lexes (newline_indent level ++ r) ts.
Proof.
  intros H. unfold newline_indent, Str.nl. cbn [append].
  apply lexes_newline. now apply lexes_spaces.
Qed.

Ltac lexes_char :=
  let H := fresh in let f := fresh in let Hf := fresh in
  intros H [| f] Hf; [lia |]; cbn in Hf; cbn; rewrite H by lia; reflexivity.

Lemma lexes_lbrace r ts : lexes r ts -> lexes (String "{" r) (TLBrace :: ts).
Proof. lexes_char. Qed.
Lemma lexes_rbrace r ts : lexes r ts -> lexes (String "}" r) (TRBrace :: ts).
Proof. lexes_char. Qed.
Lemma lexes_lbracket r ts :
  lexes r ts -> lexes (String "[" r) (TLBracket :: ts).
Proof. lexes_char. Qed.
Lemma lexes_rbracket r ts :
  lexes r ts -> lexes (String "]" r) (TRBracket :: ts).
Proof. lexes_char. Qed.
Lemma lexes_colon r ts : lexes r ts -> lexes (String ":" r) (TColon :: ts).
Proof. lexes_char. Qed.
Lemma lexes_comma r ts : lexes r ts -> lexes (String "," r) (TComma :: ts).
Proof. lexes_char. Qed.

Lemma lexes_true r ts : lexes r ts -> lexes ("true" ++ r) (TTrue :: ts).
Proof. lexes_char. Qed.
Lemma lexes_false r ts : lexes r ts -> lexes ("false" ++ r) (TFalse :: ts).
Proof. lexes_char. Qed.
Lemma lexes_null r ts : lexes r ts -> lexes ("null" ++ r) (TNull :: ts).
Proof. lexes_char. Qed.

Lemma lexes_quote s r ts :
  wf (JStr s) -> lexes r ts -> lexes (quote s ++ r) (TStr s :: ts).
Proof.
  intros Hwf H [| f] Hf; [lia |].
  destruct (str_of_units_of_str s Hwf) as (Hu & Hs).
  unfold quote, Str.dq in *. rewrite !append_assoc_s in *.
  cbn [append] in *. cbn [String.length] in Hf.
  rewrite length_append_s in Hf. cbn [String.length] in Hf.
  cbn [lex]. change (is_digit "034") with false.
  change (Ascii.eqb "034" "-") with false.
  change (is_ws "034") with false. cbv iota.
  change (Ascii.eqb "034" "{") with false.
  change (Ascii.eqb "034" "}") with false.
  change (Ascii.eqb "034" "[") with false.
  change (Ascii.eqb "034" "]") with false.
  change (Ascii.eqb "034" ":") with false.
  change (Ascii.eqb "034" ",") with false.
  change (Ascii.eqb "034" "034") with true. cbv iota.
  rewrite lex_string_escape by exact Hu. rewrite Hs.
  rewrite H by lia. reflexivity.
Qed.

Lemma lexes_uint d r ts :
  d <> Decimal.Nil -> Decimal.unorm d = d ->
  Decimal.nb_digits d <= max_str_digits -> value_end r -> lexes r ts ->
  lexes (NilEmpty.string_of_uint d ++ r) (TInt (Z.of_int (Decimal.Pos d)) :: ts)
  /\ lexes (String "-" (NilEmpty.string_of_uint d ++ r))
       (TInt (Z.of_int (Decimal.Neg d)) :: ts).
Proof.
  intros Hnil Hd Hn Hr H.
  destruct (string_of_uint_head d Hnil) as (c & s & Hs & Hc).
  pose proof (lex_int_uint false d r Hd Hn Hr) as Hpos.
  pose proof (lex_int_uint true d r Hd Hn Hr) as Hneg.
  rewrite Hs in *. cbn [append] in *.
  split; intros [| f] Hf; try lia; cbn [String.length] in Hf; cbn [lex].
  - rewrite Hc, Hpos. rewrite length_append_s in Hf.
    rewrite H by lia. reflexivity.
  - change (is_digit "-") with false. change (Ascii.eqb "-" "-") with true.
    cbv iota. rewrite Hc, Hneg. rewrite length_append_s in Hf.
    rewrite H by lia. reflexivity.
Qed.

Lemma lexes_int z r ts :
  int_digits z <= max_str_digits ->
  value_end r -> lexes r ts -> lexes (Str.of_Z z ++ r) (TInt z :: ts).
Proof.
  intros Hn Hr H. rewrite <- (DecimalZ.of_to z) at 2. unfold Str.of_Z.
  destruct z as [| p | p]; cbn [Z.to_int NilEmpty.string_of_int].
  - apply (lexes_uint (Decimal.D0 Decimal.Nil)); [discriminate | | | |];
      easy.
  - apply lexes_uint; try assumption.
    + apply DecimalPos.Unsigned.to_uint_nonnil.
    + apply unorm_to_uint.
  - apply lexes_uint; try assumption.
    + apply DecimalPos.Unsigned.to_uint_nonnil.
    + apply unorm_to_uint.
Qed.

Lemma value_end_comma r : value_end (String "," r).
Proof. split; reflexivity. Qed.

Lemma value_end_newline r : value_end (String "010" r).
Proof. split; reflexivity. Qed.

Lemma lexes_items level l :
  Forall lexes_value l ->
  Forall wf l ->
  forall r ts,
    lexes r ts ->
    lexes (dumps_items (dumps_at (S level)) (newline_indent (S level)) l
             ++ newline_indent level ++ String "]" r)
      (tokens_items tokens l ++ ts).
Proof.
  induction 1 as [| y l Hy _ IH]; intros Hwf r ts Hr.
  - cbn [dumps_items tokens_items append app].
    apply lexes_newline_indent. now apply lexes_rbracket.
  - inversion Hwf as [| ? ? Hwy Hwl]; subst.
    cbn [dumps_items tokens_items]. rewrite !append_assoc_s.
    cbn [append app]. rewrite <- List.app_assoc.
    apply lexes_comma, lexes_newline_indent. apply Hy.
    + exact Hwy.
    + destruct l; cbn [dumps_items append];
        [apply value_end_newline | apply value_end_comma].
    + now apply IH.
Qed.

Lemma lexes_members level d :
  Forall (fun kv => lexes_value (snd kv)) d ->
  Forall (fun kv => wf (snd kv)) d ->
  forall r ts,
    lexes r ts ->
    lexes (dumps_members (dumps_at (S level)) (newline_indent (S level)) d
             ++ newline_indent level ++ String "}" r)
      (tokens_members tokens d ++ ts).
Proof.
  induction 1 as [| [k y] d Hy _ IH]; intros Hwf r ts Hr.
  - cbn [dumps_members tokens_members append app].
    apply lexes_newline_indent. now apply lexes_rbrace.
  - inversion Hwf as [| ? ? Hwy Hwd]; subst.
    cbn [dumps_members tokens_members]. rewrite !append_assoc_s.
    cbn [append app]. rewrite <- List.app_assoc.
    apply lexes_comma, lexes_newline_indent.
    apply (lexes_quote k); [constructor |].
    apply lexes_colon, lexes_space. apply Hy.
    + exact Hwy.
    + destruct d as [| []]; cbn [dumps_members append];
        [apply value_end_newline | apply value_end_comma].
    + now apply IH.
Qed.

(** The text of a well-formed value lexes to its tokens. *)
Lemma lexes_dumps_at v : lexes_value v.
Proof.
  induction v as [| b | z | s | l IH | d IH] using json_nested_ind;
    intros Hwf level r ts Hend Hr.
  - now apply lexes_null.
  - destruct b; [now apply lexes_true | now apply lexes_false].
  - inversion Hwf; subst. now apply lexes_int.
  - now apply (lexes_quote s).
  - inversion Hwf as [| | | | | ? Hall |]; subst.
    destruct l as [| x l].
    + cbn [dumps_at tokens append app].
      now apply lexes_lbracket, lexes_rbracket.
    + inversion IH as [| ? ? Hx Hl]; subst.
      inversion Hall as [| ? ? Hwx Hwl]; subst.
      cbn [dumps_at tokens]. rewrite !append_assoc_s. cbn [append app].
      rewrite <- List.app_assoc.
      apply lexes_lbracket, lexes_newline_indent. apply Hx.
      * exact Hwx.
      * destruct l; cbn [dumps_items append];
          [apply value_end_newline | apply value_end_comma].
      * now apply lexes_items.
  - inversion Hwf as [| | | | | | ? Hnd Hall]; subst.
    destruct d as [| [k x] d].
    + cbn [dumps_at tokens append app].
      now apply lexes_lbrace, lexes_rbrace.
    + inversion IH as [| ? ? Hx Hd]; subst.
      inversion Hall as [| ? ? Hwx Hwd]; subst.
      cbn [dumps_at tokens]. rewrite !append_assoc_s. cbn [append app].
      rewrite <- List.app_assoc.
      apply lexes_lbrace, lexes_newline_indent.
      apply (lexes_quote k); [constructor |].
      apply lexes_colon, lexes_space. apply Hx.
      * exact Hwx.
      * destruct d as [| []]; cbn [dumps_members append];
          [apply value_end_newline | apply value_end_comma].
      * now apply lexes_members.
Qed.

(** *** From the tokens back to the value *)

Lemma tokens_head v :
  exists t ts, tokens v = t :: ts /\ t <> TRBracket.
Proof.
  destruct v as [| [] | z | s | [| x l] | [| [k x] d]]; cbn [tokens];
    do 2 eexists; (split; [reflexivity | discriminate]).
Qed.

Lemma parse_value_list f t ts :
  t <> TRBracket ->
  parse_value (S f) (TLBracket :: t :: ts)
  = match parse_value f (t :: ts) with
    | Some (v, r') =>
        match parse_elements f r' with
        | Some (vs, r'') => Some (JList (v :: vs), r'')
        | None => None
        end
    | None => None
    end.
Proof. intros H. destruct t; try congruence; reflexivity. Qed.

Lemma parse_value_nonempty_list f ts r :
  (exists t ts', ts = t :: ts' /\ t <> TRBracket) ->
  parse_value (S f) (TLBracket :: ts ++ r)
  = match parse_value f (ts ++ r) with
    | Some (v, r') =>
        match parse_elements f r' with
        | Some (vs, r'') => Some (JList (v :: vs), r'')
        | None => None
        end
    | None => None
    end.
Proof. intros (t & ts' & -> & Ht). now apply parse_value_list. Qed.

Lemma parse_items l :
  Forall parses_value l ->
  forall fuel r,
    length (tokens_items tokens l) < fuel ->
    parse_elements fuel (tokens_items tokens l ++ r) = Some (l, r).
Proof.
  induction 1 as [| y l Hy _ IH]; intros [| f] r Hf;
    cbn [tokens_items length] in Hf; try lia.
  - reflexivity.
  - rewrite List.length_app in Hf.
    cbn [tokens_items app parse_elements]. rewrite <- List.app_assoc.
    rewrite Hy by lia. rewrite IH by lia. reflexivity.
Qed.

Lemma parse_members_tokens d :
  Forall (fun kv => parses_value (snd kv)) d ->
  forall fuel d0 r,
    length (tokens_members tokens d) < fuel ->
    parse_members fuel d0 (tokens_members tokens d ++ r)
    = Some (fold_left set_member d d0, r).
Proof.
  induction 1 as [| [k y] d Hy _ IH]; intros [| f] d0 r Hf;
    cbn [tokens_members length] in Hf; try lia.
  - reflexivity.
  - rewrite List.length_app in Hf.
    cbn [tokens_members app parse_members]. rewrite <- List.app_assoc.
    cbn [snd] in Hy. rewrite Hy by lia. rewrite IH by lia. reflexivity.
Qed.

Lemma dict_set_fresh k v d :
  ~ In k (map fst d) -> dict_set k v d = (d ++ [(k, v)])%list.
Proof.
  induction d as [| [k' v'] d IH]; intros Hk; [reflexivity |].
  cbn [map fst In] in Hk. cbn [dict_set app].
  destruct (String.eqb k k') eqn:E.
  - apply String.eqb_eq in E. subst. tauto.
  - rewrite IH by tauto. reflexivity.
Qed.

Lemma fold_set_member d : forall d0,
  NoDup (map fst (d0 ++ d)) -> fold_left set_member d d0 = (d0 ++ d)%list.
Proof.
  induction d as [| [k v] d IH]; intros d0 Hnd.
  - now rewrite List.app_nil_r.
  - cbn [fold_left]. unfold set_member at 2. cbn [fst snd].
    rewrite dict_set_fresh.
    + rewrite IH; rewrite <- List.app_assoc; [reflexivity | exact Hnd].
    + rewrite map_app in Hnd. cbn [map fst] in Hnd.
      apply NoDup_remove_2 in Hnd. intros Hin. apply Hnd.
      apply in_or_app. now left.
Qed.

(** The tokens of a well-formed value parse to the value. *)
Lemma parse_tokens v : wf v -> parses_value v.
Proof.
  induction v as [| b | z | s | l IH | d IH] using json_nested_ind;
    intros Hwf [| f] r Hf; try (cbn in Hf; lia); try reflexivity.
  - now destruct b.
  - destruct l as [| x l]; [reflexivity |].
    inversion Hwf as [| | | | | ? Hall |]; subst.
    inversion Hall as [| ? ? Hwx Hwl]; subst.
    inversion IH as [| ? ? Hx Hl]; subst.
    cbn [tokens length] in Hf. rewrite List.length_app in Hf.
    cbn [tokens app]. rewrite <- List.app_assoc.
    rewrite (parse_value_nonempty_list f _ _ (tokens_head x)).
    rewrite (Hx Hwx) by lia.
    rewrite parse_items; [reflexivity | | lia].
    clear - Hl Hwl. induction Hl; inversion Hwl; subst; constructor; auto.
  - destruct d as [| [k x] d]; [reflexivity |].
    inversion Hwf as [| | | | | | ? Hnd Hall]; subst.
    inversion Hall as [| ? ? Hwx Hwd]; subst.
    inversion IH as [| ? ? Hx Hd]; subst.
    cbn [tokens length] in Hf. rewrite List.length_app in Hf.
    cbn [tokens app parse_value]. rewrite <- List.app_assoc.
    cbn [snd] in Hx, Hwx. rewrite (Hx Hwx) by lia.
    rewrite parse_members_tokens; [| | lia].
    + now rewrite (fold_set_member d [(k, x)]).
    + clear - Hd Hwd. induction Hd; inversion Hwd; subst; constructor; auto.
Qed.

(** [json.loads] reads back what [json.dumps] wrote. *)
Theorem loads_dumps v : wf v -> loads (dumps v) = Ok v.
Proof.
  intros Hwf. unfold loads, dumps.
  pose proof (lexes_dumps_at v Hwf 0 EmptyString [] I lexes_nil) as Hlex.
  assert (Hs : forall s, s ++ EmptyString = s).
  { induction s; simpl; congruence. }
  rewrite Hs, List.app_nil_r in Hlex. rewrite Hlex by lia.
  pose proof (parse_tokens v Hwf (S (length (tokens v))) [] (Nat.lt_succ_diag_r _))
    as Hparse.
  rewrite List.app_nil_r in Hparse. now rewrite Hparse.
Qed.

(** What [json.loads] returns is well formed. *)

(** *** What [loads] returns is well formed *)

Lemma dict_set_key_in k v d x :
  In x (map fst (dict_set k v d)) <-> x = k \/ In x (map fst d).
Proof.
  induction d as [| [k' v'] d IH]; cbn [dict_set map fst In].
  - split; intros [H | H]; auto.
  - destruct (String.eqb k k') eqn:E; cbn [map fst In].
    + apply String.eqb_eq in E. subst k'. split.
      * intros [H | H]; auto.
      * intros [H | [H | H]]; auto.
    + rewrite IH. tauto.
Qed.

Lemma dict_set_wf k v d :
  wf v -> wf (JObject d) -> wf (JObject (dict_set k v d)).
Proof.
  intros Hv Hd. inversion Hd as [| | | | | | ? Hnd Hall]; subst.
  constructor.
  - induction d as [| [k' v'] d IH]; cbn [dict_set map fst].
    + repeat constructor. intros [].
    + inversion Hnd as [| ? ? Hk Hnd']; subst.
      inversion Hall as [| ? ? _ Hall']; subst.
      destruct (String.eqb k k') eqn:E; cbn [map fst].
      * now constructor.
      * constructor.
        -- rewrite dict_set_key_in. intros [-> | H]; [| contradiction].
           now rewrite String.eqb_refl in E.
        -- apply IH; try assumption. now constructor.
  - clear Hnd Hd. induction Hall as [| [k' v'] d Hv' Hall' IH];
      cbn [dict_set].
    + now repeat constructor.
    + destruct (String.eqb k k'); constructor; auto.
Qed.

Ltac parse_cases :=
  repeat match goal with
    | H : Some _ = Some _ |- _ => injection H as <- <-
    | H : None = Some _ |- _ => discriminate H
    | H : match ?x with _ => _ end = Some _ |- _ =>
        let E := fresh "E" in destruct x eqn:E
    end.

Ltac tokens_inv :=
  repeat match goal with
    | H : Forall token_wf (_ :: _) |- _ => inversion H; clear H; subst
    end.

(** The tokens of a text are well formed. *)
Lemma lex_wf fuel : forall s ts, lex fuel s = Some ts -> Forall token_wf ts.
Proof.
  induction fuel as [| f IH]; intros s ts H; [discriminate |].
  cbn [lex] in H.
  repeat match type of H with
         | match ?x with _ => _ end = Some _ =>
             let E := fresh "E" in destruct x eqn:E; try discriminate H
         end;
    try (injection H as <-);
    first [ now constructor
          | now (eapply IH; eassumption)
          | constructor; [| eapply IH; eassumption];
            first [ exact I
                  | eapply lex_int_digits; eassumption
                  | apply str_of_units_wf;
                    eapply lex_string_below; [apply le_n | eassumption] ] ].
Qed.

Ltac tokens_ok :=
  repeat first [assumption | apply Forall_cons | apply Forall_nil].

Ltac parse_ih IHv IHe :=
  repeat match goal with
    | E : parse_value _ ?ts = Some (_, _) |- _ =>
        let Hw := fresh "Hw" in
        let Hr := fresh "Hr" in
        destruct (IHv ts _ _ ltac:(tokens_ok) E) as (Hw & Hr); clear E
    | E : parse_elements _ ?ts = Some (_, _) |- _ =>
        let Hw := fresh "Hw" in
        let Hr := fresh "Hr" in
        destruct (IHe ts _ _ ltac:(tokens_ok) E) as (Hw & Hr); clear E
    end.

Lemma parse_wf fuel :
  (forall ts v r,
      Forall token_wf ts -> parse_value fuel ts = Some (v, r) ->
      wf v /\ Forall token_wf r)
  /\ (forall ts vs r,
        Forall token_wf ts -> parse_elements fuel ts = Some (vs, r) ->
        Forall wf vs /\ Forall token_wf r)
  /\ (forall d0 ts d r,
        Forall token_wf ts -> parse_members fuel d0 ts = Some (d, r) ->
        wf (JObject d0) -> wf (JObject d) /\ Forall token_wf r).
Proof.
  induction fuel as [| f (IHv & IHe & IHm)];
    [repeat split; intros; discriminate |].
  split; [| split].
  - intros ts v r Hts H. cbn [parse_value] in H. parse_cases; tokens_inv;
      parse_ih IHv IHe;
      try (split; [| assumption]; first
             [ assumption
             | constructor; fail
             | constructor; assumption
             | constructor; constructor; assumption ]).
    match goal with
    | E : parse_members f ?d0 ?ts = Some (_, _), Ht : Forall token_wf ?ts
      |- _ => eapply (IHm _ _ _ _ Ht E)
    end.
    constructor;
      [ constructor; [intros [] | constructor]
      | constructor; [assumption | constructor] ].
  - intros ts vs r Hts H. cbn [parse_elements] in H. parse_cases; tokens_inv;
      parse_ih IHv IHe.
    + now split.
    + split; [now constructor | assumption].
  - intros d0 ts d r Hts H Hd0. cbn [parse_members] in H.
    parse_cases; tokens_inv; parse_ih IHv IHe.
    + now split.
    + eapply IHm; [| eassumption |]; [assumption |]. now apply dict_set_wf.
Qed.

Lemma loads_wf s v : loads s = Ok v -> wf v.
Proof.
  unfold loads. intros H.
  destruct (lex _ s) as [ts |] eqn:El; [| discriminate].
  destruct (parse_value _ ts) as [[v' [| t r]] |] eqn:E; try discriminate.
  injection H as <-.
  eapply (proj1 (parse_wf _)); [| exact E].
  eapply lex_wf. exact El.
Qed.

End PyJsonFacts.

(** ** Stage 1: [fetch_uuids] *)

Section FetchProperties.

Variable L : Lib.
Variable env : Env.

Ltac fetch_events :=
  repeat first
    [ apply Forall_nil
    | apply Forall_cons; [first [exact I | exact eq_refl] |] ].

Lemma fetch_effect_refl st : fetch_effect 0 st st.
Proof.
  unfold fetch_effect. rewrite Nat.add_0_r.
  repeat split. exists []. split; [reflexivity | constructor].
Qed.

Lemma fetch_effect_trans n m st1 st2 st3 :
  fetch_effect n st1 st2 -> fetch_effect m st2 st3 ->
  fetch_effect (n + m) st1 st3.
Proof.
  intros (H1 & H2 & H3 & H4 & H5 & new1 & H6 & H7)
         (G1 & G2 & G3 & G4 & G5 & new2 & G6 & G7).
  unfold fetch_effect. repeat split; try congruence; try lia.
  exists (new2 ++ new1). split.
  - rewrite G6, H6. now rewrite app_assoc.
  - apply Forall_app. now split.
Qed.

(** One request: the identifier it yields, if any, goes last; the
    loop goes on either way. *)
Lemma fetch_step_run uuids i st :
  exists st',
    fetch_step L env uuids i st
    = (Ok (uuids ++ somes [fetched_uuid L (http_get env (http_calls st))]),
       st')
    /\ fetch_effect 1 st st'.
Proof.
  unfold fetch_step, try_except, bind, httpx_get, fetched_uuid,
    raise_for_status, response_json, lift.
  destruct (http_get env (http_calls st)) as [e | code body]; simpl.
  - eexists. split; [rewrite app_nil_r; reflexivity |].
    unfold fetch_effect; simpl. repeat split; try lia.
    exists [EvPrint ("Error fetching UUID " ++ Str.of_nat (i + 1) ++ ": "
                       ++ str_exn e); EvHttpGet "https://httpbin.org/uuid"].
    split; [reflexivity |]. fetch_events.
  - destruct (is_success code); simpl.
    + destruct (json_loads L body) as [data | e]; simpl.
      * destruct (getitem data "uuid") as [uuid | e]; simpl.
        -- eexists. split; [reflexivity |].
           unfold fetch_effect; simpl. repeat split; try lia.
           exists [EvHttpGet "https://httpbin.org/uuid"].
           split; [reflexivity |]. fetch_events.
        -- eexists. split; [rewrite app_nil_r; reflexivity |].
           unfold fetch_effect; simpl. repeat split; try lia.
           eexists [EvPrint _; EvHttpGet _].
           split; [reflexivity |]. fetch_events.
      * eexists. split; [rewrite app_nil_r; reflexivity |].
        unfold fetch_effect; simpl. repeat split; try lia.
        eexists [EvPrint _; EvHttpGet _].
        split; [reflexivity |]. fetch_events.
    + eexists. split; [rewrite app_nil_r; reflexivity |].
      unfold fetch_effect; simpl. repeat split; try lia.
      eexists [EvPrint _; EvHttpGet _].
      split; [reflexivity |]. fetch_events.
Qed.

Lemma fetch_loop_run n : forall s acc st,
  exists st',
    for_each (fetch_step L env) (seq s n) acc st
    = (Ok (acc ++ somes (map (fun i => fetched_uuid L
                                          (http_get env (http_calls st + i)))
                           (seq 0 n))), st')
    /\ fetch_effect n st st'.
Proof.
  induction n as [| n IH]; intros s acc st.
  - exists st. simpl. rewrite app_nil_r.
    split; [reflexivity | apply fetch_effect_refl].
  - destruct (fetch_step_run acc s st) as (st1 & H1 & E1).
    destruct (IH (S s) (acc ++ somes [fetched_uuid L
                                        (http_get env (http_calls st))]) st1)
      as (st2 & H2 & E2).
    exists st2. split.
    + cbn [seq for_each]. rewrite (bind_ok _ _ _ _ _ H1), H2.
      do 2 f_equal. rewrite <- app_assoc. f_equal.
      cbn [map]. rewrite <- seq_shift, map_map, Nat.add_0_r.
      destruct E1 as (E1 & _). rewrite E1.
      replace (map (fun i => fetched_uuid L (http_get env (http_calls st + 1 + i)))
                 (seq 0 n))
        with (map (fun i => fetched_uuid L (http_get env (http_calls st + S i)))
                (seq 0 n)).
      * now destruct (fetched_uuid L (http_get env (http_calls st))).
      * apply map_ext. intros i. do 2 f_equal. lia.
    + apply (fetch_effect_trans 1 n st st1 st2 E1 E2).
Qed.

(** [fetch_uuids] returns, whatever the requests do. *)
Lemma fetch_uuids_run count st :
  exists st',
    fetch_uuids L env count st
    = (Ok (somes (map (fun i => fetched_uuid L
                                  (http_get env (http_calls st + i)))
                    (seq 0 count))), st')
    /\ fetch_effect count st st'.
Proof. apply (fetch_loop_run count 0 [] st). Qed.

(** C9. For every count, [fetch_uuids count] returns, without raising,
    the identifiers of the requests that succeeded, in the order of
    the requests: at most [count] of them, all [count] requests having
    been made whichever of them failed, and none at all when every
    request failed. *)
Theorem fetch_uuids_partial_failure (count : nat) (st : State) :
  exists uuids st',
    fetch_uuids L env count st = (Ok uuids, st')
    /\ uuids = somes (map (fun i => fetched_uuid L
                                      (http_get env (http_calls st + i)))
                        (seq 0 count))
    /\ length uuids <= count
    /\ http_calls st' = http_calls st + count
    /\ ((forall i, i < count ->
            fetched_uuid L (http_get env (http_calls st + i)) = None) ->
        uuids = []).
Proof.
  destruct (fetch_uuids_run count st) as (st' & Hrun & Heff).
  eexists; exists st'. split; [exact Hrun |]. split; [reflexivity |].
  split; [| split].
  - etransitivity; [apply somes_length |].
    now rewrite length_map, length_seq.
  - apply Heff.
  - intros Hall. apply somes_all_none. apply Forall_forall.
    intros o Ho. apply in_map_iff in Ho. destruct Ho as (i & <- & Hi).
    apply in_seq in Hi. apply Hall. lia.
Qed.

End FetchProperties.

(** ** Stage 2: [analyze_with_ai] *)

Section AnalyzeProperties.

Variable L : Lib.
Variable env : Env.

(** The body of the [try] returns what the classifier answered, or
    raises for one of the reasons of [classifier_failure]. *)
Lemma analyze_body_run text st :
  exists st',
    chat_calls st' <= S (chat_calls st)
    /\ ((exists r, analyze_body L env text st = (Ok r, st')
                   /\ classifier_answer L env text st r)
        \/ (exists e, analyze_body L env text st = (Raise e, st')
                      /\ classifier_failure L env text st e)).
Proof.
  unfold analyze_body, bind, OpenAI, chat_completions_create,
    first_choice_content, strip, lift, ret, raise.
  destruct (getenv_OPENAI_API_KEY env) as [key |] eqn:Hkey.
  2: { exists st. split; [lia |]. right. eexists. split; [reflexivity |].
       now apply missing_api_key. }
  exists (tick_chat (set_trace st (EvChat "gpt-3.5-turbo" (prompt_of L text)
                                     :: trace st))).
  split; [simpl; lia |].
  destruct (chat_create env (chat_calls st) (prompt_of L text))
    as [e | [| [content |] cs]] eqn:Hchat.
  - right. eexists. split; [reflexivity |]. eapply api_call_fails; eauto.
  - right. eexists. split; [reflexivity |]. eapply no_choice; eauto.
  - destruct (json_loads L (Str.strip content)) as [parsed | e] eqn:Hp.
    2: { right. eexists. split; [reflexivity |].
         eapply malformed_json; eauto. }
    destruct (getitem parsed "analysis") as [a | e] eqn:Ha.
    2: { right. eexists. split; [reflexivity |].
         eapply missing_analysis; eauto. }
    destruct (getitem parsed "sentiment") as [s | e] eqn:Hs.
    2: { right. eexists. split; [reflexivity |].
         eapply missing_sentiment; eauto. }
    left. eexists. split; [reflexivity |]. eapply answered; eauto.
  - right. eexists. split; [reflexivity |]. eapply no_content; eauto.
Qed.

(** The two ways [analyze_with_ai] returns. *)
Lemma analyze_with_ai_cases text st :
  exists st',
    (exists r, analyze_with_ai L env text st = (Ok r, st')
               /\ classifier_answer L env text st r)
    \/ (exists e, analyze_with_ai L env text st = (Ok (degraded e), st')
                  /\ classifier_failure L env text st e).
Proof.
  destruct (analyze_body_run text st)
    as (st' & _ & [(r & Hrun & Hr) | (e & Hrun & He)]); exists st'.
  - left. exists r. split; [| exact Hr].
    unfold analyze_with_ai. now apply try_ok.
  - right. exists e. split; [| exact He].
    unfold analyze_with_ai. now rewrite (try_raise _ _ _ _ _ Hrun).
Qed.

(** C2. [analyze_with_ai] returns for every input and in every state,
    never raising: what the classifier answered, or, for every way
    the call or the reading of its answer fails, the pair of
    ["Analysis unavailable: "] followed by the text of the exception
    and ["neutral"]. *)
Theorem analyze_with_ai_total (text : json) (st : State) :
  exists r st',
    analyze_with_ai L env text st = (Ok r, st')
    /\ (classifier_answer L env text st r
        \/ exists e, classifier_failure L env text st e
                     /\ r = (JStr ("Analysis unavailable: " ++ str_exn e),
                             JStr "neutral")).
Proof.
  destruct (analyze_body_run text st)
    as (st' & _ & [(r & Hrun & Hr) | (e & Hrun & He)]).
  - exists r, st'. split; [| now left].
    unfold analyze_with_ai. now apply try_ok.
  - exists (degraded e), st'. split; [| right; now exists e].
    unfold analyze_with_ai. now rewrite (try_raise _ _ _ _ _ Hrun).
Qed.

(** [analyze_with_ai] only adds to the trace. *)
Lemma analyze_with_ai_extends text st r st' :
  analyze_with_ai L env text st = (r, st') -> extends st st'.
Proof.
  unfold analyze_with_ai, try_except, analyze_body, bind, OpenAI,
    chat_completions_create, first_choice_content, strip, lift, ret, raise.
  destruct (getenv_OPENAI_API_KEY env) as [key |].
  2: { intros H. injection H as _ <-. now exists []. }
  destruct (chat_create env (chat_calls st) (prompt_of L text))
    as [e | [| [content |] cs]];
    try (intros H; injection H as _ <-; now eexists [_]).
  destruct (json_loads L (Str.strip content)) as [parsed | e];
    try (intros H; injection H as _ <-; now eexists [_]).
  destruct (getitem parsed "analysis") as [a | e];
    try (intros H; injection H as _ <-; now eexists [_]).
  destruct (getitem parsed "sentiment") as [v | e];
    intros H; injection H as _ <-; now eexists [_].
Qed.

End AnalyzeProperties.

(** ** Stage 3 and Stage 4: [store_results] and [send_notification] *)

Section StoreProperties.

Variable L : Lib.
Variable env : Env.

(** [store_results] returns a boolean, whatever happens to the file;
    it asks first whether the file exists; and when it returns
    [True] the file holds the text of the prior records followed by
    the new ones. *)
Lemma store_results_run results st :
  exists b st',
    store_results L env results st = (Ok b, st')
    /\ (exists new, trace st' = new ++ trace st
                    /\ In (EvExists "pipeline_results.json") new)
    /\ (b = true ->
        exists prior,
          stored_records L (file st) = Some prior
          /\ file st'
             = Some (json_dumps L (JList (prior ++ map JObject results)))).
Proof.
  unfold store_results, try_except, store_body, bind, os_path_exists,
    json_load_file, json_dump_file, extend, stored_records, print, emit, ret,
    raise.
  destruct (file st) as [text |] eqn:Hfile;
    cbn -[json_dumps]; rewrite ?Hfile; cbn -[json_dumps].
  - destruct (read_fault env (file_ops st)) as [e |].
    { do 2 eexists. split; [reflexivity |]. split; [| discriminate].
      eexists [_; _; _]. split; [reflexivity |]. simpl. tauto. }
    destruct (json_loads L text) as [[| | | | prior |] | e];
      try (do 2 eexists; (split; [reflexivity |]); (split; [| discriminate]);
           eexists [_; _; _]; (split; [reflexivity |]); simpl; tauto).
    cbn -[json_dumps].
    destruct (write_fault_at env (S (file_ops st))) as [[e | e n] |];
      try (do 2 eexists; (split; [reflexivity |]); (split; [| discriminate]);
           eexists [_; _; _; _]; (split; [reflexivity |]); simpl; tauto).
    do 2 eexists. split; [reflexivity |]. split.
    + eexists [_; _; _]. split; [reflexivity |]. simpl. tauto.
    + intros _. exists prior. split; reflexivity.
  - cbn -[json_dumps].
    destruct (write_fault_at env (file_ops st)) as [[e | e n] |];
      try (do 2 eexists; (split; [reflexivity |]); (split; [| discriminate]);
           eexists [_; _; _]; (split; [reflexivity |]); simpl; tauto).
    do 2 eexists. split; [reflexivity |]. split.
    + eexists [_; _]. split; [reflexivity |]. simpl. tauto.
    + intros _. exists []. split; reflexivity.
Qed.

(** C5. When [store_results results] returns [True], the file holds
    afterwards the text of the prior sequence (empty when there was no
    file) followed by the new records in their order; so, [json.loads]
    reading back what [json.dump] wrote of that sequence, reloading
    the file yields the prior records unchanged followed by exactly
    the new ones. *)
Theorem store_results_appends
    (results : list pydict) (st st' : State) :
  store_results L env results st = (Ok true, st') ->
  (forall prior,
      stored_records L (file st) = Some prior ->
      json_loads L (json_dumps L (JList (prior ++ map JObject results)))
      = Ok (JList (prior ++ map JObject results))) ->
  exists prior,
    stored_records L (file st) = Some prior
    /\ file st'
       = Some (json_dumps L (JList (prior ++ map JObject results)))
    /\ stored_records L (file st')
       = Some (prior ++ map JObject results).
Proof.
  intros Hrun Hroundtrip.
  destruct (store_results_run results st) as (b & s & Hrun' & _ & Htrue).
  rewrite Hrun in Hrun'. injection Hrun' as <- <-.
  destruct (Htrue eq_refl) as (prior & Hprior & Hfile).
  exists prior. split; [exact Hprior |]. split; [exact Hfile |].
  rewrite Hfile. unfold stored_records at 1.
  now rewrite (Hroundtrip prior Hprior).
Qed.

(** [send_notification] prints its message and returns [True]. *)
Lemma send_notification_run email success_count error_count st :
  send_notification email success_count error_count st
  = (Ok true,
     set_trace st
       (EvPrint (notification email success_count error_count) :: trace st)).
Proof.
  unfold send_notification. apply try_ok.
  erewrite bind_ok by (apply print_run; printable). reflexivity.
Qed.

(** The message of the notification starts with a line break and a
    space, which no other line of the program does. *)
Lemma notification_wide email success_count error_count :
  exists rest,
    notification email success_count error_count
    = Wide (10 :: 32 :: rest)%N.
Proof.
  unfold notification.
  set (head := PyStr.utf8 _). vm_compute in head. subst head.
  cbn [PyStr.cat PyStr.code_points app]. now eexists.
Qed.

End StoreProperties.

(** ** [store_results] with the model of [json] *)

Section StoreWithModel.

Variable env : Env.

Lemma stored_records_wf content records :
  stored_records PyJson.lib content = Some records ->
  Forall PyJson.wf records.
Proof.
  unfold stored_records. destruct content as [text |].
  - cbn [json_loads PyJson.lib].
    destruct (PyJson.loads text) as [[| | | | l |] | e] eqn:E;
      try discriminate.
    intros H. injection H as <-.
    apply PyJsonFacts.loads_wf in E. now inversion E.
  - intros H. injection H as <-. constructor.
Qed.

(** With the model of [json] for the library, nothing is left to
    assume: when [store_results] returns [True] on records no object of
    which has a key twice, reloading the file yields the prior records
    followed by the new ones. *)
Lemma store_results_reloads results st st' :
  store_results PyJson.lib env results st = (Ok true, st') ->
  Forall (fun r => PyJson.wf (JObject r)) results ->
  exists prior,
    stored_records PyJson.lib (file st) = Some prior
    /\ stored_records PyJson.lib (file st')
       = Some (prior ++ map JObject results).
Proof.
  intros Hrun Hwf.
  destruct (store_results_run PyJson.lib env results st)
    as (b & s & Hrun' & _ & Htrue).
  rewrite Hrun in Hrun'. injection Hrun' as <- <-.
  destruct (Htrue eq_refl) as (prior & Hprior & Hfile).
  exists prior. split; [exact Hprior |].
  rewrite Hfile. unfold stored_records. cbn [json_loads json_dumps PyJson.lib].
  rewrite PyJsonFacts.loads_dumps; [reflexivity |].
  constructor. apply Forall_app. split.
  - eapply stored_records_wf. exact Hprior.
  - apply Forall_map. exact Hwf.
Qed.

End StoreWithModel.

(** ** The orchestrator *)

Lemma lefts_rights_length {A B} (l : list (A + B)) :
  length (lefts l) + length (rights l) = length l.
Proof. induction l as [| [a | b] l IH]; simpl; lia. Qed.

Lemma dict_get_set_same k v d : dict_get k (dict_set k v d) = Some v.
Proof.
  induction d as [| [k' v'] d IH]; simpl.
  - now rewrite String.eqb_refl.
  - destruct (String.eqb k k') eqn:E; simpl; rewrite E; [reflexivity | exact IH].
Qed.

Lemma dict_get_set_other k k' v d :
  k <> k' -> dict_get k (dict_set k' v d) = dict_get k d.
Proof.
  intros Hk. induction d as [| [k0 v0] d IH]; simpl.
  - apply String.eqb_neq in Hk. now rewrite Hk.
  - destruct (String.eqb k' k0) eqn:E; simpl.
    + apply String.eqb_eq in E. subst k0.
      apply String.eqb_neq in Hk. now rewrite Hk.
    + now rewrite IH.
Qed.

Section OrchestratorProperties.

Variable L : Lib.
Variable env : Env.
Variable analyze : json -> M (json * json).

Lemma failure_line_encodable e : PyStr.encodable (failure_line e) = true.
Proof. unfold failure_line. now rewrite encodable_cat. Qed.

(** The [except] clause of Stage 2 records its message and prints its
    line. *)
Lemma stage2_except_run results errors uuid e st :
  stage2_except L results errors uuid e st
  = (Ok (results, errors ++ [failure_message L uuid e]),
     set_trace st (EvPrint (failure_line e) :: trace st)).
Proof.
  unfold stage2_except.
  erewrite bind_ok by (apply print_run; apply failure_line_encodable).
  reflexivity.
Qed.

(** The first part of the [try] of Stage 2 when the classifier
    returns. *)
Lemma stage2_created total idx uuid st analysis sentiment st1 :
  analyze uuid (announced idx total st) = (Ok (analysis, sentiment), st1) ->
  caught
    (print ("  Analyzing UUID " ++ Str.of_nat idx ++ "/"
              ++ Str.of_nat total ++ "...") ;;
     ' (analysis, sentiment) <- analyze uuid ;;
     now <- utcnow_iso env ;;
     ret (new_result uuid analysis sentiment now, sentiment)) st
  = (Ok (Ok (new_result uuid analysis sentiment
               (utcnow_isoformat env (clock_reads st1)), sentiment)),
     tick_clock st1).
Proof.
  intros Ha. apply caught_ok.
  erewrite bind_ok by (apply print_run; printable).
  erewrite bind_ok by exact Ha.
  reflexivity.
Qed.

(** One turn of the loop of Stage 2 when the classifier returns and
    the line of the sentiment is printed. *)
Lemma stage2_step_result total results errors idx uuid st
      analysis sentiment st1 :
  analyze uuid (announced idx total st) = (Ok (analysis, sentiment), st1) ->
  PyStr.encodable (sentiment_line L sentiment) = true ->
  stage2_step L env analyze total (results, errors) (idx, uuid) st
  = (Ok (results ++ [new_result uuid analysis sentiment
                       (utcnow_isoformat env (clock_reads st1))], errors),
     set_trace (tick_clock st1)
       (EvPrint (sentiment_line L sentiment) :: trace st1)).
Proof.
  intros Ha Hp. unfold stage2_step.
  erewrite bind_ok by (eapply stage2_created; exact Ha). cbv beta iota.
  erewrite bind_ok by (apply caught_ok; apply print_run; exact Hp).
  reflexivity.
Qed.

(** One turn of the loop of Stage 2 when the classifier returns and
    printing the line of the sentiment raises: the result is in the
    list, and so is an error message. *)
Lemma stage2_step_result_and_error total results errors idx uuid st
      analysis sentiment st1 :
  analyze uuid (announced idx total st) = (Ok (analysis, sentiment), st1) ->
  PyStr.encodable (sentiment_line L sentiment) = false ->
  stage2_step L env analyze total (results, errors) (idx, uuid) st
  = (Ok (results ++ [new_result uuid analysis sentiment
                       (utcnow_isoformat env (clock_reads st1))],
         errors ++ [failure_message L uuid
                      (unprintable (sentiment_line L sentiment))]),
     set_trace (tick_clock st1)
       (EvPrint (failure_line (unprintable (sentiment_line L sentiment)))
        :: trace st1)).
Proof.
  intros Ha Hp. unfold stage2_step.
  erewrite bind_ok by (eapply stage2_created; exact Ha). cbv beta iota.
  erewrite bind_ok by (apply caught_raise; apply print_raises; exact Hp).
  cbv beta iota. rewrite stage2_except_run. reflexivity.
Qed.

(** One turn of the loop of Stage 2 when the classifier raises. *)
Lemma stage2_step_error total results errors idx uuid st e st1 :
  analyze uuid (announced idx total st) = (Raise e, st1) ->
  stage2_step L env analyze total (results, errors) (idx, uuid) st
  = (Ok (results, errors ++ [failure_message L uuid e]),
     set_trace st1 (EvPrint (failure_line e) :: trace st1)).
Proof.
  intros Ha. unfold stage2_step.
  erewrite bind_ok.
  2:{ apply caught_raise.
      erewrite bind_ok by (apply print_run; printable).
      erewrite bind_raise by exact Ha. reflexivity. }
  cbv beta iota. apply stage2_except_run.
Qed.

(** Stage 2 returns, whatever the classifier does, and its two lists
    are the results and the error messages of [stage2_outcomes]. *)
Lemma stage2_loop_run total uuids : forall idx results errors st,
  exists os st',
    stage2_outcomes L env analyze total idx uuids st os st'
    /\ for_each (stage2_step L env analyze total) (enumerate uuids idx)
         (results, errors) st
       = (Ok (results ++ lefts os, errors ++ rights os), st').
Proof.
  induction uuids as [| uuid uuids IH]; intros idx results errors st.
  - exists [], st. split; [constructor |]. simpl. now rewrite !app_nil_r.
  - destruct (analyze uuid (announced idx total st))
      as [[[analysis sentiment] | e] st1] eqn:Ha.
    + destruct (PyStr.encodable (sentiment_line L sentiment)) eqn:Hp.
      * destruct (IH (S idx)
                    (results ++ [new_result uuid analysis sentiment
                                   (utcnow_isoformat env (clock_reads st1))])
                    errors
                    (set_trace (tick_clock st1)
                       (EvPrint (sentiment_line L sentiment) :: trace st1)))
          as (os & st' & Hos & Hrun).
        eexists (inl _ :: os), st'. split.
        -- eapply outcomes_result; eassumption.
        -- cbn [enumerate for_each lefts rights].
           erewrite bind_ok.
           ++ rewrite Hrun. now rewrite <- app_assoc.
           ++ eapply stage2_step_result; eassumption.
      * destruct (IH (S idx)
                    (results ++ [new_result uuid analysis sentiment
                                   (utcnow_isoformat env (clock_reads st1))])
                    (errors ++ [failure_message L uuid
                                  (unprintable (sentiment_line L sentiment))])
                    (set_trace (tick_clock st1)
                       (EvPrint (failure_line
                                   (unprintable (sentiment_line L sentiment)))
                        :: trace st1)))
          as (os & st' & Hos & Hrun).
        eexists (inl _ :: inr _ :: os), st'. split.
        -- eapply outcomes_result_and_error; eassumption.
        -- cbn [enumerate for_each lefts rights].
           erewrite bind_ok.
           ++ rewrite Hrun. now rewrite <- !app_assoc.
           ++ eapply stage2_step_result_and_error; eassumption.
    + destruct (IH (S idx) results
                  (errors ++ [failure_message L uuid e])
                  (set_trace st1 (EvPrint (failure_line e) :: trace st1)))
        as (os & st' & Hos & Hrun).
      eexists (inr _ :: os), st'. split.
      * eapply outcomes_error; eassumption.
      * cbn [enumerate for_each lefts rights].
        erewrite bind_ok.
        -- rewrite Hrun. now rewrite <- app_assoc.
        -- eapply stage2_step_error; eassumption.
Qed.

Lemma stage2_run uuids st :
  exists os st',
    stage2_outcomes L env analyze (length uuids) 1 uuids st os st'
    /\ stage2 L env analyze uuids st = (Ok (lefts os, rights os), st').
Proof.
  destruct (stage2_loop_run (length uuids) uuids 1 [] [] st)
    as (os & st' & Hos & Hrun).
  exists os, st'. split; [exact Hos | exact Hrun].
Qed.

(** The abort path: no identifier was fetched. *)
Lemma run_pipeline_with_abort email st st1 :
  fetch_uuids L env 3 (started st) = (Ok [], st1) ->
  run_pipeline_with L env analyze email st
  = (Ok (abort_response [Narrow "Failed to fetch any UUIDs"]), st1).
Proof.
  intros Hfetch. unfold run_pipeline_with.
  erewrite bind_ok by (apply print_run; printable).
  erewrite bind_ok by (apply print_run; printable).
  erewrite bind_ok by exact Hfetch.
  reflexivity.
Qed.

(** The other path: Stage 2, then Stage 3, then Stage 4, none of
    which can stop the run. *)
Lemma run_pipeline_with_complete email st uuids st1 :
  fetch_uuids L env 3 (started st) = (Ok uuids, st1) ->
  uuids <> [] ->
  exists os st2 b st3 st',
    stage2_outcomes L env analyze (length uuids) 1 uuids
      (stage2_entry uuids st1) os st2
    /\ store_results L env (lefts os) (stage3_entry (lefts os) st2)
       = (Ok b, st3)
    /\ run_pipeline_with L env analyze email st
       = (Ok (response (mark_stored b (lefts os)) true
                (utcnow_isoformat env (clock_reads st3)) (rights os)), st')
    /\ extends st3 st'.
Proof.
  intros Hfetch Hne.
  destruct (stage2_run uuids (stage2_entry uuids st1))
    as (os & st2 & Hos & Hstage2).
  destruct (store_results_run L env (lefts os) (stage3_entry (lefts os) st2))
    as (b & st3 & Hstore & _).
  exists os, st2, b, st3. eexists. split; [exact Hos |].
  split; [exact Hstore |].
  split.
  - unfold run_pipeline_with.
    erewrite bind_ok by (apply print_run; printable).
    erewrite bind_ok by (apply print_run; printable).
    erewrite bind_ok by exact Hfetch.
    destruct uuids as [| uuid uuids]; [congruence |].
    erewrite bind_ok by (apply print_run; printable).
    erewrite bind_ok by (apply print_run; printable).
    erewrite bind_ok by exact Hstage2. cbv beta iota.
    erewrite bind_ok by (apply print_run; printable).
    erewrite bind_ok by (apply print_run; printable).
    erewrite bind_ok by exact Hstore.
    erewrite bind_ok by (apply print_run; printable).
    erewrite bind_ok by (apply print_run; printable).
    erewrite bind_ok by apply send_notification_run.
    erewrite bind_ok by (apply print_run; printable).
    erewrite bind_ok by (apply print_run; printable).
    reflexivity.
  - unfold extends. now eexists [_; _; _; _; _].
Qed.

(** [run_pipeline] returns, whatever the outside world and the
    classifier do. *)
Lemma run_pipeline_with_returns email st :
  exists resp st',
    run_pipeline_with L env analyze email st = (Ok resp, st').
Proof.
  destruct (fetch_uuids_run L env 3 (started st)) as (st1 & Hfetch & _).
  destruct (somes _) as [| uuid uuids] in Hfetch.
  - do 2 eexists. eapply run_pipeline_with_abort. exact Hfetch.
  - destruct (run_pipeline_with_complete email st (uuid :: uuids) st1 Hfetch)
      as (os & st2 & b & st3 & st' & _ & _ & Hrun & _); [discriminate |].
    eauto.
Qed.

End OrchestratorProperties.

Section PipelineProperties.

Variable L : Lib.
Variable env : Env.

(** C1. When [fetch_uuids] returns the empty sequence, [run_pipeline]
    returns exactly the three-key response of the abort, which has no
    ["processedAt"] key; when it returns identifiers, [run_pipeline]
    returns a response that has the key. *)
Theorem run_pipeline_abort_response
    (email : string) (st : State) (uuids : list json) (st1 : State) :
  fetch_uuids L env 3 (started st) = (Ok uuids, st1) ->
  (uuids = [] ->
   run_pipeline L env email st
   = (Ok [ ("items", JList []);
           ("notificationSent", JBool false);
           ("errors", JList [JStr "Failed to fetch any UUIDs"]) ], st1)
   /\ dict_has "processedAt"
        [ ("items", JList []);
          ("notificationSent", JBool false);
          ("errors", JList [JStr "Failed to fetch any UUIDs"]) ] = false)
  /\ (uuids <> [] ->
      exists resp st',
        run_pipeline L env email st = (Ok resp, st')
        /\ dict_has "processedAt" resp = true).
Proof.
  intros Hfetch. split.
  - intros ->. split; [| reflexivity].
    unfold run_pipeline. now rewrite (run_pipeline_with_abort _ _ _ _ _ _ Hfetch).
  - intros Hne.
    destruct (run_pipeline_with_complete L env (analyze_with_ai L env)
                email st uuids st1 Hfetch Hne)
      as (os & st2 & b & st3 & st' & _ & _ & Hrun & _).
    do 2 eexists. split; [exact Hrun | reflexivity].
Qed.

Lemma analyze_with_ai_returns text st e st' :
  analyze_with_ai L env text st <> (Raise e, st').
Proof.
  destruct (analyze_with_ai_cases L env text st)
    as (s & [(r & Hrun & _) | (e0 & Hrun & _)]);
    rewrite Hrun; discriminate.
Qed.

Lemma extends_refl st : extends st st.
Proof. now exists []. Qed.

Lemma extends_trans st1 st2 st3 :
  extends st1 st2 -> extends st2 st3 -> extends st1 st3.
Proof.
  intros (n1 & H1) (n2 & H2). exists (n2 ++ n1).
  now rewrite H2, H1, app_assoc.
Qed.

Lemma extends_event st ev : extends st (set_trace st (ev :: trace st)).
Proof. now exists [ev]. Qed.

(** Stage 2 with the classifier of the program: one result per
    identifier, and the trace only grows. *)
Lemma stage2_outcomes_ai total idx uuids st os st' :
  stage2_outcomes L env (analyze_with_ai L env) total idx uuids st os st' ->
  length (lefts os) = length uuids
  /\ extends st st'.
Proof.
  induction 1 as [idx st
                 | idx uuid uuids st analysis sentiment st1 os st' Ha _ _ IH
                 | idx uuid uuids st analysis sentiment st1 os st' Ha _ _ IH
                 | idx uuid uuids st e st1 os st' Ha _ _].
  - split; [reflexivity | apply extends_refl].
  - destruct IH as (IH2 & IH3). cbn [lefts rights length].
    split; [now rewrite IH2 |].
    eapply extends_trans; [| exact IH3].
    eapply extends_trans; [apply extends_event |].
    eapply extends_trans;
      [eapply analyze_with_ai_extends; exact Ha |].
    now eexists [_].
  - destruct IH as (IH2 & IH3). cbn [lefts rights length].
    split; [now rewrite IH2 |].
    eapply extends_trans; [| exact IH3].
    eapply extends_trans; [apply extends_event |].
    eapply extends_trans;
      [eapply analyze_with_ai_extends; exact Ha |].
    now eexists [_].
  - now apply analyze_with_ai_returns in Ha.
Qed.

(** The line of the sentiment of the fallback can be printed. *)
Lemma neutral_line_encodable :
  PyStr.encodable (sentiment_line L (JStr "neutral")) = true.
Proof. reflexivity. Qed.

(** Stage 2 when every call to the classifier fails: every result is
    the degraded one, and nothing is recorded as an error. *)
Lemma stage2_outcomes_degraded total idx uuids st os st' :
  (forall text s, exists e s', analyze_body L env text s = (Raise e, s')) ->
  stage2_outcomes L env (analyze_with_ai L env) total idx uuids st os st' ->
  Forall (degraded_result false) (lefts os) /\ rights os = [].
Proof.
  intros Hfail.
  induction 1 as [idx st
                 | idx uuid uuids st analysis sentiment st1 os st' Ha _ _ IH
                 | idx uuid uuids st analysis sentiment st1 os st' Ha Hp _ _
                 | idx uuid uuids st e st1 os st' Ha _ _].
  - split; [constructor | reflexivity].
  - destruct IH as (IH1 & IH2). cbn [lefts rights].
    split; [| exact IH2]. constructor; [| exact IH1].
    destruct (Hfail uuid (announced idx total st)) as (e & s' & Hbody).
    unfold analyze_with_ai in Ha.
    rewrite (try_raise _ _ _ _ _ Hbody) in Ha.
    injection Ha as <- <- _.
    repeat split. eexists. split; reflexivity.
  - destruct (Hfail uuid (announced idx total st)) as (e & s' & Hbody).
    unfold analyze_with_ai in Ha.
    rewrite (try_raise _ _ _ _ _ Hbody) in Ha.
    injection Ha as _ <- _.
    now rewrite neutral_line_encodable in Hp.
  - now apply analyze_with_ai_returns in Ha.
Qed.

Lemma mark_stored_all b results :
  Forall (fun r => dict_get "stored" r = Some (JBool b))
    (mark_stored b results).
Proof.
  apply Forall_forall. intros r Hr. unfold mark_stored in Hr.
  apply in_map_iff in Hr. destruct Hr as (r0 & <- & _).
  apply dict_get_set_same.
Qed.

(** C6. When identifiers were fetched, the items [run_pipeline] returns
    are the results of Stage 2, each with its [stored] field set to
    the one boolean [store_results] returned for the whole batch. *)
Theorem stored_flag_is_batch_outcome
    (email : string) (st : State) (uuids : list json) (st1 : State) :
  fetch_uuids L env 3 (started st) = (Ok uuids, st1) ->
  uuids <> [] ->
  exists os st2 b st3 sent now errors st',
    stage2_outcomes L env (analyze_with_ai L env) (length uuids) 1 uuids
      (stage2_entry uuids st1) os st2
    /\ store_results L env (lefts os) (stage3_entry (lefts os) st2)
       = (Ok b, st3)
    /\ run_pipeline L env email st
       = (Ok (response (mark_stored b (lefts os)) sent now errors), st')
    /\ Forall (fun r => dict_get "stored" r = Some (JBool b))
         (mark_stored b (lefts os)).
Proof.
  intros Hfetch Hne.
  destruct (run_pipeline_with_complete L env (analyze_with_ai L env)
              email st uuids st1 Hfetch Hne)
    as (os & st2 & b & st3 & st' & Hos & Hstore & Hrun & _).
  exists os, st2, b, st3. do 3 eexists. exists st'.
  split; [exact Hos |]. split; [exact Hstore |]. split; [exact Hrun |].
  apply mark_stored_all.
Qed.


(** Whoever calls [store_results] leaves an event of it. *)
Lemma store_results_leaves_event results st r st' :
  store_results L env results st = (r, st') ->
  exists new, trace st' = new ++ trace st /\ Exists store_event new.
Proof.
  destruct (store_results_run L env results st)
    as (b & s & Hrun & (new & Hnew & Hin) & _).
  rewrite Hrun. intros H. injection H as _ <-. exists new.
  split; [exact Hnew |]. apply Exists_exists. eexists. split; [exact Hin |].
  exact I.
Qed.

(** Whoever calls [send_notification] leaves an event of it. *)
Lemma send_notification_leaves_event email success_count error_count
      st r st' :
  send_notification email success_count error_count st = (r, st') ->
  exists new,
    trace st' = new ++ trace st /\ Exists (notification_event) new.
Proof.
  rewrite send_notification_run. intros H. injection H as _ <-.
  eexists [_]. split; [reflexivity |]. constructor.
  now exists email, success_count, error_count.
Qed.

Lemma fetch_event_foreign ev :
  fetch_event ev -> ~ store_event ev /\ ~ notification_event ev.
Proof.
  destruct ev as [text | url | model prompt | f | f | f]; cbn;
    intros H; try contradiction; (split; [tauto |]);
    intros (email & a & b & Heq); [| discriminate].
  injection Heq as ->. discriminate H.
Qed.

Lemma fetch_uuids_effect count st uuids st1 :
  fetch_uuids L env count st = (Ok uuids, st1) -> fetch_effect count st st1.
Proof.
  destruct (fetch_uuids_run L env count st) as (s & Hrun & Heff).
  rewrite Hrun. intros H. now injection H as _ <-.
Qed.

(** C10. On the abort path [run_pipeline] returns in a state where the
    result file is as it was, and what it has added to the trace holds
    no event of [store_results] and none of [send_notification], each
    of which leaves one whenever it is called
    ([store_results_leaves_event], [send_notification_leaves_event]). *)
Theorem abort_leaves_store_untouched
    (email : string) (st st1 : State) :
  fetch_uuids L env 3 (started st) = (Ok [], st1) ->
  exists resp st',
    run_pipeline L env email st = (Ok resp, st')
    /\ file st' = file st
    /\ file_ops st' = file_ops st
    /\ exists new,
         trace st' = new ++ trace st
         /\ Forall (fun ev => ~ store_event ev /\ ~ notification_event ev)
              new.
Proof.
  intros Hfetch.
  exists (abort_response [Narrow "Failed to fetch any UUIDs"]), st1.
  split.
  { unfold run_pipeline. now apply run_pipeline_with_abort. }
  destruct (fetch_uuids_effect _ _ _ _ Hfetch)
    as (_ & _ & _ & Hops & Hfile & new & Hnew & Hall).
  split; [exact Hfile |]. split; [exact Hops |].
  exists (new ++ [EvPrint (PyStr.utf8
                             "📥 Stage 1: Fetching UUIDs from HTTPBin...");
                  EvPrint (PyStr.utf8 (Str.nl ++ "🚀 === PIPELINE STARTED ==="
                                         ++ Str.nl))]).
  split.
  - rewrite Hnew. now rewrite <- app_assoc.
  - apply Forall_app. split.
    + eapply Forall_impl; [| exact Hall]. apply fetch_event_foreign.
    + repeat (apply Forall_cons;
                [split; [intros [] |];
                 intros (e & a & b & Heq);
                 destruct (notification_wide e a b) as (rest & Hn);
                 rewrite Hn in Heq; vm_compute in Heq; discriminate Heq |]).
      apply Forall_nil.
Qed.




Lemma mark_stored_keeps k b results (P : option json -> Prop) :
  k <> "stored" ->
  Forall (fun r => P (dict_get k r)) results ->
  Forall (fun r => P (dict_get k r)) (mark_stored b results).
Proof.
  intros Hk Hall. unfold mark_stored. apply Forall_map.
  eapply Forall_impl; [| exact Hall].
  intros r Hr. now rewrite dict_get_set_other.
Qed.

Lemma mark_stored_degraded b results :
  Forall (degraded_result false) results ->
  Forall (degraded_result b) (mark_stored b results).
Proof.
  intros Hall. unfold mark_stored. apply Forall_map.
  eapply Forall_impl; [| exact Hall].
  intros r (Hs & Ha & _). unfold degraded_result.
  rewrite !dict_get_set_other by discriminate.
  rewrite dict_get_set_same. now repeat split.
Qed.

(** C7. For the request of ["a@b.com"] with source ["HTTPBin UUID"],
    when three identifiers are fetched and every call to the
    classifier fails inside [analyze_with_ai], the answer has status
    200 and its body has, under ["items"], three items, each with
    sentiment ["neutral"], an analysis that starts with
    ["Analysis unavailable: "] and the same [stored] value, under
    ["errors"] the empty list, and under ["notificationSent"]
    [True]. *)
Theorem degraded_scenario (st : State) (uuids : list json) (st1 : State) :
  fetch_uuids L env 3 (started st) = (Ok uuids, st1) ->
  length uuids = 3 ->
  (forall text s, exists e s', analyze_body L env text s = (Raise e, s')) ->
  exists body st' items stored,
    post_pipeline L env {| email := "a@b.com"; source := "HTTPBin UUID" |} st
    = ({| reply_status := 200; reply_body := JObject body |}, st')
    /\ dict_get "items" body = Some (JList (map JObject items))
    /\ length items = 3
    /\ Forall (degraded_result stored) items
    /\ dict_get "errors" body = Some (JList [])
    /\ dict_get "notificationSent" body = Some (JBool true).
Proof.
  intros Hfetch Hlen Hfail.
  destruct (run_pipeline_with_complete L env (analyze_with_ai L env)
              "a@b.com" st uuids st1 Hfetch)
    as (os & st2 & b & st3 & st' & Hos & _ & Hrun & _).
  { intros ->. discriminate Hlen. }
  destruct (stage2_outcomes_degraded _ _ _ _ _ _ Hfail Hos) as (Hdeg & Herr).
  apply stage2_outcomes_ai in Hos. destruct Hos as (Hn & _).
  rewrite Herr in Hrun.
  eexists. exists st', (mark_stored b (lefts os)), b.
  split; [| split; [| split; [| split; [| split]]]].
  - unfold post_pipeline, pipeline_endpoint. cbn [source email].
    rewrite String.eqb_refl. cbn [negb].
    erewrite bind_ok by exact Hrun. reflexivity.
  - reflexivity.
  - unfold mark_stored. rewrite length_map. congruence.
  - now apply mark_stored_degraded.
  - reflexivity.
  - reflexivity.
Qed.

End PipelineProperties.

(** ** The statements on concrete runs *)

Lemma fetch_uuids_partial_failure_witness :
  exists st',
    fetch_uuids PyJson.lib Scenario.flaky 3 Scenario.st0
    = (Ok [JStr (Scenario.uuid_of 0); JStr (Scenario.uuid_of 2)], st')
    /\ http_calls st' = 3.
Proof.
  destruct (fetch_uuids_partial_failure PyJson.lib Scenario.flaky 3
              Scenario.st0)
    as (uuids & st' & Hrun & Huuids & _ & Hcalls & _).
  exists st'. split; [| exact Hcalls].
  rewrite Hrun, Huuids. reflexivity.
Defined.

Lemma analyze_with_ai_total_witness :
  exists r st',
    analyze_with_ai PyJson.lib Scenario.no_key (JStr (Scenario.uuid_of 0))
      Scenario.st0 = (Ok r, st')
    /\ (classifier_answer PyJson.lib Scenario.no_key
          (JStr (Scenario.uuid_of 0)) Scenario.st0 r
        \/ exists e,
             classifier_failure PyJson.lib Scenario.no_key
               (JStr (Scenario.uuid_of 0)) Scenario.st0 e
             /\ r = (JStr ("Analysis unavailable: " ++ str_exn e),
                     JStr "neutral")).
Proof.
  exact (analyze_with_ai_total PyJson.lib Scenario.no_key
           (JStr (Scenario.uuid_of 0)) Scenario.st0).
Defined.

Lemma run_pipeline_abort_response_witness :
  run_pipeline PyJson.lib Scenario.offline "a@b.com" Scenario.st0
  = (Ok [ ("items", JList []);
          ("notificationSent", JBool false);
          ("errors", JList [JStr "Failed to fetch any UUIDs"]) ],
     snd (fetch_uuids PyJson.lib Scenario.offline 3
            (started Scenario.st0))).
Proof.
  refine (proj1 (proj1 (run_pipeline_abort_response PyJson.lib
                          Scenario.offline "a@b.com" Scenario.st0 [] _ _)
                   eq_refl)).
  vm_compute. reflexivity.
Defined.

(** C3, where the program departs from it.  In [Scenario.surrogate]
    three identifiers are fetched and the classifier answers each
    with [{"analysis": "ok", "sentiment": "\ud800"}]: every result is
    appended to the items, and then printing the line of its
    sentiment raises inside the [try], so that the same identifier
    also gets its error message.  The response has three items and
    three errors for three identifiers. *)
Theorem stage2_item_and_error :
  exists resp st' items,
    run_pipeline PyJson.lib Scenario.surrogate "a@b.com" Scenario.st0
    = (Ok resp, st')
    /\ dict_get "items" resp = Some (JList (map JObject items))
    /\ map (dict_get "original") items
       = [ Some (JStr (Scenario.uuid_of 0)); Some (JStr (Scenario.uuid_of 1));
           Some (JStr (Scenario.uuid_of 2)) ]
    /\ map (dict_get "sentiment") items
       = [ Some (JStr (Wide [0xD800%N])); Some (JStr (Wide [0xD800%N]));
           Some (JStr (Wide [0xD800%N])) ]
    /\ dict_get "errors" resp
       = Some (JList
                 [ JStr ("Failed to process UUID " ++ Scenario.uuid_of 0
                           ++ ": " ++ Scenario.surrogate_error);
                   JStr ("Failed to process UUID " ++ Scenario.uuid_of 1
                           ++ ": " ++ Scenario.surrogate_error);
                   JStr ("Failed to process UUID " ++ Scenario.uuid_of 2
                           ++ ": " ++ Scenario.surrogate_error) ]).
Proof.
  vm_compute. do 2 eexists. eexists [_; _; _].
  repeat split; reflexivity.
Qed.

Lemma stored_flag_is_batch_outcome_witness :
  exists os st2 b st3 sent now errors st',
    stage2_outcomes PyJson.lib Scenario.no_key
      (analyze_with_ai PyJson.lib Scenario.no_key) 3 1
      [JStr (Scenario.uuid_of 0); JStr (Scenario.uuid_of 1);
       JStr (Scenario.uuid_of 2)]
      (stage2_entry
         [JStr (Scenario.uuid_of 0); JStr (Scenario.uuid_of 1);
          JStr (Scenario.uuid_of 2)]
         (snd (fetch_uuids PyJson.lib Scenario.no_key 3
                 (started Scenario.st0)))) os st2
    /\ store_results PyJson.lib Scenario.no_key (lefts os)
         (stage3_entry (lefts os) st2) = (Ok b, st3)
    /\ run_pipeline PyJson.lib Scenario.no_key "a@b.com" Scenario.st0
       = (Ok (response (mark_stored b (lefts os)) sent now errors), st')
    /\ Forall (fun r => dict_get "stored" r = Some (JBool b))
         (mark_stored b (lefts os)).
Proof.
  apply (stored_flag_is_batch_outcome PyJson.lib Scenario.no_key
           "a@b.com" Scenario.st0
           [JStr (Scenario.uuid_of 0); JStr (Scenario.uuid_of 1);
            JStr (Scenario.uuid_of 2)]).
  - vm_compute. reflexivity.
  - discriminate.
Defined.

Lemma abort_leaves_store_untouched_witness :
  exists resp st',
    run_pipeline PyJson.lib Scenario.offline "a@b.com" Scenario.st_one_record
    = (Ok resp, st')
    /\ file st' = file Scenario.st_one_record
    /\ file_ops st' = file_ops Scenario.st_one_record
    /\ exists new,
         trace st' = new ++ trace Scenario.st_one_record
         /\ Forall (fun ev => ~ store_event ev
                              /\ ~ notification_event ev) new.
Proof.
  apply (abort_leaves_store_untouched PyJson.lib Scenario.offline "a@b.com"
           Scenario.st_one_record
           (snd (fetch_uuids PyJson.lib Scenario.offline 3
                   (started Scenario.st_one_record)))).
  vm_compute. reflexivity.
Defined.


Lemma degraded_scenario_witness :
  exists body st' items stored,
    post_pipeline PyJson.lib Scenario.no_key
      {| email := "a@b.com"; source := "HTTPBin UUID" |} Scenario.st0
    = ({| reply_status := 200; reply_body := JObject body |}, st')
    /\ dict_get "items" body = Some (JList (map JObject items))
    /\ length items = 3
    /\ Forall (degraded_result stored) items
    /\ dict_get "errors" body = Some (JList [])
    /\ dict_get "notificationSent" body = Some (JBool true).
Proof.
  apply (degraded_scenario PyJson.lib Scenario.no_key Scenario.st0
           [JStr (Scenario.uuid_of 0); JStr (Scenario.uuid_of 1);
            JStr (Scenario.uuid_of 2)]
           (snd (fetch_uuids PyJson.lib Scenario.no_key 3
                   (started Scenario.st0)))).
  - vm_compute. reflexivity.
  - reflexivity.
  - intros text s. do 2 eexists. reflexivity.
Defined.

Lemma store_results_appends_witness :
  exists prior,
    stored_records PyJson.lib (file Scenario.st_one_record) = Some prior
    /\ file (snd (store_results PyJson.lib Scenario.no_key
                    [Scenario.new_record] Scenario.st_one_record))
       = Some (PyJson.dumps
                 (JList (prior ++ map JObject [Scenario.new_record])))
    /\ stored_records PyJson.lib
         (file (snd (store_results PyJson.lib Scenario.no_key
                       [Scenario.new_record] Scenario.st_one_record)))
       = Some (prior ++ map JObject [Scenario.new_record]).
Proof.
  apply (store_results_appends PyJson.lib Scenario.no_key
           [Scenario.new_record] Scenario.st_one_record).
  - vm_compute. reflexivity.
  - intros prior Hprior. vm_compute in Hprior. injection Hprior as <-.
    vm_compute. reflexivity.
Defined.

(** The run of [Scenario.angry]: the first item of the response is
    [Scenario.angry_item]. *)
Lemma angry_run :
  exists resp st' rest,
    run_pipeline PyJson.lib Scenario.angry "a@b.com" Scenario.st0
    = (Ok resp, st')
    /\ dict_get "items" resp
       = Some (JList (JObject Scenario.angry_item :: rest)).
Proof. vm_compute. do 3 eexists. split; reflexivity. Qed.

(** C8, as the specification has it, fails: when the classifier answers
    [{"analysis": "ok", "sentiment": "angry"}], the items of the
    response have the sentiment ["angry"], which is none of the four. *)
Lemma sentiment_in_vocabulary_fails :
  ~ sentiment_in_vocabulary PyJson.lib Scenario.angry.
Proof.
  intros H.
  destruct angry_run as (resp & st' & rest & Hrun & Hitems).
  destruct (H "a@b.com" Scenario.st0 resp st' _ Scenario.angry_item
              Hrun Hitems (or_introl eq_refl))
    as (s & Hs & Hin).
  cbn in Hs. injection Hs as <-.
  cbn in Hin. intuition discriminate.
Qed.

(** [as_classified] holds an item to the call made for its identifier:
    in [Scenario.angry] the first item of the response is as
    classified, and the same item with the sentiment ["neutral"] is
    not, the classifier having answered ["angry"]. *)
Example angry_item_as_classified :
  as_classified PyJson.lib Scenario.angry (JStr (Scenario.uuid_of 0)) 0
    Scenario.angry_item.
Proof.
  split; [reflexivity |]. intros s Hs. left.
  exists (JStr "ok"), (JStr "angry"). split; [| split; reflexivity].
  eapply answered with (key := "sk-test"%string);
    [reflexivity | reflexivity | vm_compute; reflexivity
    | reflexivity | reflexivity].
Qed.

Example neutral_item_not_as_classified :
  ~ as_classified PyJson.lib Scenario.angry (JStr (Scenario.uuid_of 0)) 0
      (dict_set "sentiment" (JStr "neutral") Scenario.angry_item).
Proof.
  intros (_ & H).
  destruct (H Scenario.st0 eq_refl)
    as [(a & v & Hans & _ & Hv) | (e & Hfail & _)].
  - cbn in Hv. injection Hv as <-.
    inversion Hans as [key content cs parsed a' v' Hk Hchat Hp Ha Hs].
    cbn in Hchat. injection Hchat as <- <-.
    vm_compute in Hp. injection Hp as <-.
    vm_compute in Hs. discriminate Hs.
  - inversion Hfail as [Hk | key e' Hk Hchat | key Hk Hchat
                       | key cs Hk Hchat
                       | key content cs e' Hk Hchat Hp
                       | key content cs parsed e' Hk Hchat Hp Ha
                       | key content cs parsed a e' Hk Hchat Hp Ha Hs];
      try discriminate Hk; try discriminate Hchat;
      cbn in Hchat; injection Hchat as <- <-;
      vm_compute in Hp; try discriminate Hp;
      injection Hp as <-.
    + vm_compute in Ha. discriminate Ha.
    + vm_compute in Hs. discriminate Hs.
Qed.

(** The source is compared as it is: another case or a space around it
    is another source. *)
Example source_is_case_sensitive :
  fst (post_pipeline PyJson.lib Scenario.no_key
         {| email := "a@b.com"; source := "HTTPBIN UUID" |} Scenario.st0)
  = {| reply_status := 400;
       reply_body :=
         JObject [("detail", JStr "Source must be 'HTTPBin UUID'")] |}.
Proof. reflexivity. Qed.

Example source_is_not_trimmed :
  fst (post_pipeline PyJson.lib Scenario.no_key
         {| email := "a@b.com"; source := " HTTPBin UUID " |} Scenario.st0)
  = {| reply_status := 400;
       reply_body :=
         JObject [("detail", JStr "Source must be 'HTTPBin UUID'")] |}.
Proof. reflexivity. Qed.

(** The response of the run without an API key: three degraded items,
    stored, and the notification sent. *)
Example response_without_api_key :
  fst (run_pipeline PyJson.lib Scenario.no_key "a@b.com" Scenario.st0)
  = Ok [ ("items",
          JList
            (map (fun n =>
                    JObject
                      [ ("original", JStr (Scenario.uuid_of n));
                        ("analysis",
                         JStr "Analysis unavailable: The api_key client option must be set either by passing api_key to the client or by setting the OPENAI_API_KEY environment variable");
                        ("sentiment", JStr "neutral");
                        ("stored", JBool true);
                        ("timestamp", JStr (Scenario.clock n ++ "Z")) ])
               [0; 1; 2]));
         ("notificationSent", JBool true);
         ("processedAt", JStr (Scenario.clock 3 ++ "Z"));
         ("errors", JList []) ].
Proof. vm_compute. reflexivity. Qed.

(** The run with the raising stub: two items, one error. *)
Example response_with_stub :
  fst (run_pipeline_with PyJson.lib Scenario.no_key Scenario.stub "a@b.com"
         Scenario.st0)
  = Ok [ ("items",
          JList
            [ JObject
                [ ("original", JStr (Scenario.uuid_of 0));
                  ("analysis", JStr "fine");
                  ("sentiment", JStr "balanced");
                  ("stored", JBool true);
                  ("timestamp", JStr (Scenario.clock 0 ++ "Z")) ];
              JObject
                [ ("original", JStr (Scenario.uuid_of 2));
                  ("analysis", JStr "fine");
                  ("sentiment", JStr "balanced");
                  ("stored", JBool true);
                  ("timestamp", JStr (Scenario.clock 1 ++ "Z")) ] ]);
         ("notificationSent", JBool true);
         ("processedAt", JStr (Scenario.clock 2 ++ "Z"));
         ("errors",
          JList [JStr ("Failed to process UUID " ++ Scenario.uuid_of 1
                         ++ ": classifier stub")]) ].
Proof. vm_compute. reflexivity. Qed.

(** A failed write: [store_results] returns [False] and so every item
    of the response is not stored. *)
Example response_when_the_disk_is_full :
  let env :=
    {| getenv_OPENAI_API_KEY := None;
       http_get := http_get Scenario.no_key;
       chat_create := chat_create Scenario.no_key;
       utcnow_isoformat := Scenario.clock;
       read_fault := fun _ => None;
       write_fault_at := fun _ =>
         Some (WriteFails (PyExc "OSError"
                             "[Errno 28] No space left on device") 10) |} in
  match fst (run_pipeline PyJson.lib env "a@b.com" Scenario.st0) with
  | Ok resp =>
      match dict_get "items" resp with
      | Some (JList items) =>
          map (fun item => getitem item "stored") items
      | _ => []
      end
  | Raise _ => []
  end
  = [Ok (JBool false); Ok (JBool false); Ok (JBool false)].
Proof. vm_compute. reflexivity. Qed.

(** * Further properties *)

Section FetchLog.

Variable L : Lib.
Variable env : Env.

Lemma fetch_step_log uuids i st :
  exists uuids' st' new,
    fetch_step L env uuids i st = (Ok uuids', st')
    /\ trace st' = new ++ trace st
    /\ length (filter is_get new) = 1
    /\ length uuids' + length (filter is_error_line new) = length uuids + 1
    /\ forallb (fun ev => is_get ev || is_error_line ev) new = true.
Proof.
  unfold fetch_step, try_except, bind, httpx_get, raise_for_status,
    response_json, lift.
  destruct (http_get env (http_calls st)) as [e | code body]; simpl.
  - exists uuids. eexists. eexists [EvPrint _; EvHttpGet _].
    repeat split; cbn; lia.
  - destruct (is_success code); simpl.
    + destruct (json_loads L body) as [data | e]; simpl.
      * destruct (getitem data "uuid") as [uuid | e]; simpl.
        -- exists (uuids ++ [uuid]). eexists. eexists [EvHttpGet _].
           repeat split. cbn. rewrite length_app. cbn. lia.
        -- exists uuids. eexists. eexists [EvPrint _; EvHttpGet _].
           repeat split; cbn; lia.
      * exists uuids. eexists. eexists [EvPrint _; EvHttpGet _].
        repeat split; cbn; lia.
    + exists uuids. eexists. eexists [EvPrint _; EvHttpGet _].
      repeat split; cbn; lia.
Qed.

Lemma fetch_loop_log l : forall acc st,
  exists uuids st' new,
    for_each (fetch_step L env) l acc st = (Ok uuids, st')
    /\ trace st' = new ++ trace st
    /\ length (filter is_get new) = length l
    /\ length uuids + length (filter is_error_line new)
       = length acc + length l
    /\ forallb (fun ev => is_get ev || is_error_line ev) new = true.
Proof.
  induction l as [| i l IH]; intros acc st.
  - exists acc, st, []. cbn. repeat split; lia.
  - destruct (fetch_step_log acc i st)
      as (acc1 & st1 & new1 & H1 & T1 & G1 & E1 & A1).
    destruct (IH acc1 st1) as (uuids & st2 & new2 & H2 & T2 & G2 & E2 & A2).
    exists uuids, st2, (new2 ++ new1). split; [| split; [| split; [| split]]].
    + cbn [for_each]. now rewrite (bind_ok _ _ _ _ _ H1).
    + now rewrite T2, T1, app_assoc.
    + rewrite filter_app, length_app. cbn [length]. lia.
    + rewrite filter_app, length_app. cbn [length]. lia.
    + rewrite forallb_app. now rewrite A1, A2.
Qed.

(** X1. The log of [fetch_uuids count]: exactly [count] requests, all to
    HTTPBin's UUID endpoint, and one error line for every request that
    gave no identifier, so that the identifiers and the error lines are
    [count] together; nothing else is printed or done. *)
Theorem fetch_uuids_log (count : nat) (st : State) :
  exists uuids st' new,
    fetch_uuids L env count st = (Ok uuids, st')
    /\ trace st' = new ++ trace st
    /\ length (filter is_get new) = count
    /\ length uuids + length (filter is_error_line new) = count
    /\ forallb (fun ev => is_get ev || is_error_line ev) new = true.
Proof.
  destruct (fetch_loop_log (seq 0 count) [] st)
    as (uuids & st' & new & Hrun & Htrace & Hget & Herr & Hall).
  rewrite length_seq in Hget, Herr.
  exists uuids, st', new. repeat split; assumption.
Qed.

End FetchLog.

Section StoreMore.

Variable L : Lib.
Variable env : Env.

Ltac store_cases :=
  unfold store_results, try_except, store_body, bind, os_path_exists,
    json_load_file, json_dump_file, extend, print, emit, ret, raise.

(** [store_results] touches nothing but the file and the trace, to
    which it adds file events and at most one line. *)
Lemma store_results_frame results st r st' :
  store_results L env results st = (r, st') ->
  http_calls st' = http_calls st
  /\ chat_calls st' = chat_calls st
  /\ clock_reads st' = clock_reads st
  /\ exists new, trace st' = new ++ trace st
                 /\ forallb (fun ev => is_store ev || is_print ev) new = true.
Proof.
  store_cases.
  destruct (file st) as [text |] eqn:Hfile;
    cbn -[json_dumps]; rewrite ?Hfile; cbn -[json_dumps].
  - destruct (read_fault env (file_ops st)) as [e |].
    { intros H; injection H as _ <-. repeat split.
      eexists [_; _; _]. split; reflexivity. }
    destruct (json_loads L text) as [[| | | | prior |] | e];
      try (intros H; injection H as _ <-; repeat split;
           eexists [_; _; _]; split; reflexivity).
    cbn -[json_dumps].
    destruct (write_fault_at env (S (file_ops st))) as [[e | e n] |];
      try (intros H; injection H as _ <-; repeat split;
           eexists [_; _; _; _]; split; reflexivity).
    intros H; injection H as _ <-; repeat split.
    eexists [_; _; _]; split; reflexivity.
  - destruct (write_fault_at env (file_ops st)) as [[e | e n] |];
      try (intros H; injection H as _ <-; repeat split;
           eexists [_; _; _]; split; reflexivity).
    intros H; injection H as _ <-; repeat split.
    eexists [_; _]; split; reflexivity.
Qed.

(** X2. [store_results] returns [True] exactly when the file, if there
    is one, is read without fault and holds a JSON list, and the write
    does not fail.  When it returns [False] the file is as it was,
    unless the write failed after the file was opened: then the file
    holds only a prefix of the new text, and the prior content is
    lost. *)
Theorem store_results_failure
    (results : list pydict) (st : State) (b : bool) (st' : State) :
  store_results L env results st = (Ok b, st') ->
  (b = true <-> store_succeeds L env st)
  /\ (b = false ->
      file st' = file st
      \/ exists prior,
           stored_records L (file st) = Some prior
           /\ truncated_write env st
                (json_dumps L (JList (prior ++ map JObject results))) st').
Proof.
  store_cases. unfold store_succeeds, truncated_write, stored_records.
  destruct (file st) as [text |] eqn:Hfile;
    cbn -[json_dumps]; rewrite ?Hfile; cbn -[json_dumps].
  - destruct (read_fault env (file_ops st)) as [e |].
    { intros H; injection H as <- <-. split.
      - split; [discriminate | intros (H & _); discriminate].
      - intros _. now left. }
    destruct (json_loads L text) as [[| | | | prior |] | e];
      try (intros H; injection H as <- <-; split;
           [ split; [discriminate | intros (_ & [] & _)]
           | intros _; now left ]).
    cbn -[json_dumps].
    destruct (write_fault_at env (S (file_ops st))) as [[e | e n] |].
    + intros H; injection H as <- <-. split.
      * split; [discriminate | intros (_ & _ & H); discriminate].
      * intros _. now left.
    + intros H; injection H as <- <-. split.
      * split; [discriminate | intros (_ & _ & H); discriminate].
      * intros _. right. exists prior. split; [reflexivity |].
        exists e, n. split; reflexivity.
    + intros H; injection H as <- <-. split; [| discriminate].
      split; [| reflexivity]. intros _. repeat split.
  - destruct (write_fault_at env (file_ops st)) as [[e | e n] |].
    + intros H; injection H as <- <-. split.
      * split; discriminate.
      * intros _. now left.
    + intros H; injection H as <- <-. split.
      * split; discriminate.
      * intros _. right. exists []. split; [reflexivity |].
        exists e, n. split; reflexivity.
    + intros H; injection H as <- <-. split; [| discriminate].
      split; reflexivity.
Qed.

End StoreMore.

Section RunMore.

Variable L : Lib.
Variable env : Env.

Section AnyClassifier.

Variable analyze : json -> M (json * json).

(** The run after Stage 1, stage by stage, with the state it ends in. *)
Lemma run_pipeline_with_unfold email st uuids st1 results errors st2 b st3 :
  fetch_uuids L env 3 (started st) = (Ok uuids, st1) ->
  uuids <> [] ->
  stage2 L env analyze uuids (stage2_entry uuids st1)
  = (Ok (results, errors), st2) ->
  store_results L env results (stage3_entry results st2) = (Ok b, st3) ->
  run_pipeline_with L env analyze email st
  = (Ok (response (mark_stored b results) true
           (utcnow_isoformat env (clock_reads st3)) errors),
     finished email (mark_stored b results) errors b st3).
Proof.
  intros Hfetch Hne Hstage2 Hstore. unfold run_pipeline_with.
  erewrite bind_ok by (apply print_run; printable).
  erewrite bind_ok by (apply print_run; printable).
  erewrite bind_ok by exact Hfetch.
  destruct uuids as [| uuid uuids]; [congruence |].
  erewrite bind_ok by (apply print_run; printable).
  erewrite bind_ok by (apply print_run; printable).
  erewrite bind_ok by exact Hstage2. cbv beta iota.
  erewrite bind_ok by (apply print_run; printable).
  erewrite bind_ok by (apply print_run; printable).
  erewrite bind_ok by exact Hstore.
  erewrite bind_ok by (apply print_run; printable).
  erewrite bind_ok by (apply print_run; printable).
  erewrite bind_ok by apply send_notification_run.
  erewrite bind_ok by (apply print_run; printable).
  erewrite bind_ok by (apply print_run; printable).
  reflexivity.
Qed.

Lemma dict_set_keys k v d :
  In k (map fst d) -> map fst (dict_set k v d) = map fst d.
Proof.
  induction d as [| [k' v'] d IH]; cbn [map fst In dict_set];
    [contradiction |].
  intros [-> | Hin].
  - now rewrite String.eqb_refl.
  - destruct (String.eqb k k'); cbn [map fst]; [reflexivity |].
    now rewrite IH.
Qed.

Lemma stage2_outcomes_keys total idx uuids st os st' :
  stage2_outcomes L env analyze total idx uuids st os st' ->
  Forall (fun r => map fst r = item_keys) (lefts os).
Proof. induction 1; cbn [lefts]; try constructor; auto. Qed.

Lemma mark_stored_length b results :
  length (mark_stored b results) = length results.
Proof. unfold mark_stored. apply length_map. Qed.

(** X3. Every item of a response has exactly the five keys of an
    AnalysisResult, in the order [original], [analysis], [sentiment],
    [stored], [timestamp], whatever the classifier returned: setting
    [stored] adds no key and moves none. *)
Theorem response_items_shape
    (email : string) (st : State) (resp : pydict) (st' : State)
    (items : list json) :
  run_pipeline_with L env analyze email st = (Ok resp, st') ->
  dict_get "items" resp = Some (JList items) ->
  exists results,
    items = map JObject results
    /\ Forall (fun r => map fst r = item_keys) results.
Proof.
  intros Hrun Hitems.
  destruct (fetch_uuids_run L env 3 (started st)) as (st1 & Hfetch & _).
  destruct (somes _) as [| uuid uuids] in Hfetch.
  - rewrite (run_pipeline_with_abort _ _ _ _ _ _ Hfetch) in Hrun.
    injection Hrun as <- _. cbn in Hitems. injection Hitems as <-.
    exists []. split; [reflexivity | constructor].
  - destruct (run_pipeline_with_complete L env analyze
                email st (uuid :: uuids) st1 Hfetch)
      as (os & st2 & b & st3 & s & Hos & _ & Hrun' & _); [discriminate |].
    rewrite Hrun' in Hrun.
    injection Hrun as <- _. cbn in Hitems. injection Hitems as <-.
    exists (mark_stored b (lefts os)). split; [reflexivity |].
    unfold mark_stored. apply Forall_map.
    eapply Forall_impl; [| eapply stage2_outcomes_keys; exact Hos].
    intros r Hr. rewrite dict_set_keys; [exact Hr |].
    rewrite Hr. cbn. tauto.
Qed.


End AnyClassifier.

End RunMore.

Section OwnClassifier.

Variable L : Lib.
Variable env : Env.

(** What [analyze_with_ai] does to the state: one call to the
    completion API when there is an API key, none otherwise, and
    nothing else. *)
Lemma analyze_with_ai_frame text st r st' :
  analyze_with_ai L env text st = (r, st') ->
  http_calls st' = http_calls st
  /\ clock_reads st' = clock_reads st
  /\ file_ops st' = file_ops st
  /\ file st' = file st
  /\ chat_calls st' = chat_calls st + calls_per_uuid env
  /\ trace st'
     = match getenv_OPENAI_API_KEY env with
       | Some _ => [EvChat "gpt-3.5-turbo" (prompt_of L text)]
       | None => []
       end ++ trace st.
Proof.
  unfold analyze_with_ai, try_except, analyze_body, bind, OpenAI,
    chat_completions_create, first_choice_content, strip, lift, ret, raise,
    calls_per_uuid.
  destruct (getenv_OPENAI_API_KEY env) as [key |].
  2: { intros H. injection H as _ <-. repeat split; first [lia | reflexivity]. }
  destruct (chat_create env (chat_calls st) (prompt_of L text))
    as [e | [| [content |] cs]];
    try (intros H; injection H as _ <-; repeat split; cbn; first [lia | reflexivity]).
  destruct (json_loads L (Str.strip content)) as [parsed | e];
    try (intros H; injection H as _ <-; repeat split; cbn; first [lia | reflexivity]).
  destruct (getitem parsed "analysis") as [a | e];
    try (intros H; injection H as _ <-; repeat split; cbn; first [lia | reflexivity]).
  destruct (getitem parsed "sentiment") as [v | e];
    intros H; injection H as _ <-; repeat split; cbn; first [lia | reflexivity].
Qed.

(** Stage 2 with the classifier of the program: what it does to the
    counters and to the file. *)
Lemma stage2_outcomes_counters total idx uuids st os st' :
  stage2_outcomes L env (analyze_with_ai L env) total idx uuids st os st' ->
  http_calls st' = http_calls st
  /\ file_ops st' = file_ops st
  /\ file st' = file st
  /\ clock_reads st' = clock_reads st + length uuids
  /\ chat_calls st' = chat_calls st + length uuids * calls_per_uuid env.
Proof.
  induction 1 as [idx st
                 | idx uuid uuids st analysis sentiment st1 os st' Ha _ _ IH
                 | idx uuid uuids st analysis sentiment st1 os st' Ha _ _ IH
                 | idx uuid uuids st e st1 os st' Ha _ _];
    [ cbn; repeat split; lia
    | | | now apply analyze_with_ai_returns in Ha ];
    apply analyze_with_ai_frame in Ha;
    destruct Ha as (A1 & A2 & A3 & A4 & A5 & _);
    destruct IH as (I1 & I2 & I3 & I4 & I5);
    cbn in *; repeat split; try congruence; lia.
Qed.

(** Stage 2 with the classifier of the program: the identifiers and the
    timestamps of the results. *)
Lemma stage2_outcomes_items total idx uuids st os st' :
  stage2_outcomes L env (analyze_with_ai L env) total idx uuids st os st' ->
  map (dict_get "original") (lefts os) = map Some uuids
  /\ map (dict_get "timestamp") (lefts os)
     = map (fun i => Some (JStr (utcnow_isoformat env (clock_reads st + i)
                                   ++ "Z")))
         (seq 0 (length uuids)).
Proof.
  induction 1 as [idx st
                 | idx uuid uuids st analysis sentiment st1 os st' Ha _ _ IH
                 | idx uuid uuids st analysis sentiment st1 os st' Ha _ _ IH
                 | idx uuid uuids st e st1 os st' Ha _ _];
    [ split; reflexivity
    | | | now apply analyze_with_ai_returns in Ha ];
    apply analyze_with_ai_frame in Ha;
    destruct Ha as (_ & A2 & _);
    destruct IH as (I1 & I2);
    cbn [lefts map length seq]; (split; [cbn; now rewrite I1 |]);
    cbn [new_result dict_get String.eqb Ascii.eqb Bool.eqb];
    cbn in A2; rewrite A2, Nat.add_0_r; f_equal;
    rewrite I2; rewrite <- seq_shift, map_map; apply map_ext;
    intros i; cbn; rewrite A2; now rewrite Nat.add_succ_r.
Qed.

(** Stage 2 with the classifier of the program: what it adds to the
    trace. *)
Lemma stage2_outcomes_trace total idx uuids st os st' :
  stage2_outcomes L env (analyze_with_ai L env) total idx uuids st os st' ->
  exists new,
    trace st' = new ++ trace st
    /\ forallb (fun ev => is_chat ev || is_print ev) new = true
    /\ length (filter is_chat new) = length uuids * calls_per_uuid env.
Proof.
  induction 1 as [idx st
                 | idx uuid uuids st analysis sentiment st1 os st' Ha _ _ IH
                 | idx uuid uuids st analysis sentiment st1 os st' Ha _ _ IH
                 | idx uuid uuids st e st1 os st' Ha _ _];
    [ now exists []
    | | | now apply analyze_with_ai_returns in Ha ];
    apply analyze_with_ai_frame in Ha;
    destruct Ha as (_ & _ & _ & _ & _ & A6);
    destruct IH as (new & Hnew & Hall & Hn);
    cbn in Hnew, A6; unfold calls_per_uuid in *;
    destruct (getenv_OPENAI_API_KEY env);
    [ eexists (new ++ [_; _; _]) | eexists (new ++ [_; _])
    | eexists (new ++ [_; _; _]) | eexists (new ++ [_; _]) ];
    (split; [| split];
     [ rewrite Hnew, A6, <- app_assoc; reflexivity
     | rewrite forallb_app, Hall; reflexivity
     | rewrite filter_app, length_app, Hn; cbn; lia ]).
Qed.

(** X5. [analyze_with_ai] calls the completion API exactly once, with
    the model [gpt-3.5-turbo] and the prompt of its text, when there is
    an API key; with no key it calls nothing and leaves the state as it
    is.  In both cases it reads neither the clock nor the file and
    makes no request to HTTPBin. *)
Theorem analyze_with_ai_calls_once
    (text : json) (st : State) (r : result (json * json)) (st' : State) :
  analyze_with_ai L env text st = (r, st') ->
  http_calls st' = http_calls st
  /\ clock_reads st' = clock_reads st
  /\ file_ops st' = file_ops st
  /\ file st' = file st
  /\ match getenv_OPENAI_API_KEY env with
     | Some _ =>
         chat_calls st' = S (chat_calls st)
         /\ trace st'
            = EvChat "gpt-3.5-turbo" (prompt_of L text) :: trace st
     | None => st' = st
     end.
Proof.
  intros Hrun.
  destruct (analyze_with_ai_frame text st r st' Hrun)
    as (A1 & A2 & A3 & A4 & A5 & A6).
  repeat (split; [assumption |]).
  unfold calls_per_uuid in A5.
  destruct (getenv_OPENAI_API_KEY env).
  - split; [lia | exact A6].
  - destruct st, st'. cbn in *. subst. f_equal. lia.
Qed.

Lemma forallb_weaken {A} (p q : A -> bool) l :
  (forall x, p x = true -> q x = true) ->
  forallb p l = true -> forallb q l = true.
Proof.
  intros Hpq. induction l as [| x l IH]; [reflexivity |].
  cbn [forallb]. intros H. apply andb_prop in H. destruct H as (H1 & H2).
  now rewrite (Hpq x H1), IH.
Qed.

Lemma error_line_is_print ev :
  is_get ev || is_error_line ev = true -> is_get ev || is_print ev = true.
Proof.
  destruct ev as [text | | | | |]; cbn; easy.
Qed.

Lemma filter_no_print (p : event -> bool) l :
  forallb (fun ev => p ev || is_print ev) l = true ->
  forallb p (filter (fun ev => negb (is_print ev)) l) = true.
Proof.
  induction l as [| ev l IH]; [reflexivity |].
  cbn [forallb filter]. intros H. apply andb_prop in H. destruct H as (H1 & H2).
  destruct (is_print ev); cbn [negb]; [now apply IH |].
  cbn [forallb]. rewrite orb_false_r in H1. now rewrite H1, IH.
Qed.

Lemma filter_no_print_count (p : event -> bool) l :
  (forall ev, p ev = true -> is_print ev = false) ->
  forallb (fun ev => p ev || is_print ev) l = true ->
  length (filter (fun ev => negb (is_print ev)) l) = length (filter p l).
Proof.
  intros Hp. induction l as [| ev l IH]; [reflexivity |].
  cbn [forallb filter]. intros H. apply andb_prop in H. destruct H as (H1 & H2).
  destruct (p ev) eqn:E.
  - rewrite (Hp ev E). cbn. now rewrite IH.
  - cbn in H1. rewrite H1. cbn. now apply IH.
Qed.

End OwnClassifier.

Section RunOwn.

Variable L : Lib.
Variable env : Env.

(** The run of the program after Stage 1, with what Stage 2 and Stage 3
    returned. *)
Lemma run_pipeline_stages email st uuids st1 :
  fetch_uuids L env 3 (started st) = (Ok uuids, st1) ->
  uuids <> [] ->
  exists os st2 b st3,
    stage2_outcomes L env (analyze_with_ai L env) (length uuids) 1 uuids
      (stage2_entry uuids st1) os st2
    /\ store_results L env (lefts os) (stage3_entry (lefts os) st2)
       = (Ok b, st3)
    /\ run_pipeline L env email st
       = (Ok (response (mark_stored b (lefts os)) true
                (utcnow_isoformat env (clock_reads st3)) (rights os)),
          finished email (mark_stored b (lefts os)) (rights os) b st3).
Proof.
  intros Hfetch Hne.
  destruct (stage2_run L env (analyze_with_ai L env) uuids
              (stage2_entry uuids st1)) as (os & st2 & Hos & Hstage2).
  destruct (store_results_run L env (lefts os) (stage3_entry (lefts os) st2))
    as (b & st3 & Hstore & _).
  exists os, st2, b, st3. repeat (split; [assumption |]).
  unfold run_pipeline.
  eapply run_pipeline_with_unfold; eassumption.
Qed.

Lemma mark_stored_get k b results :
  k <> "stored" ->
  map (dict_get k) (mark_stored b results) = map (dict_get k) results.
Proof.
  intros Hk. unfold mark_stored. rewrite map_map. apply map_ext.
  intros r. now apply dict_get_set_other.
Qed.

Lemma mark_stored_as b results :
  Forall2 (stored_as b) results (mark_stored b results).
Proof.
  induction results as [| r results IH]; constructor; [| exact IH].
  split; [apply dict_get_set_same |].
  intros k Hk. now apply dict_get_set_other.
Qed.

Lemma mark_stored_item_error b results :
  map (item_error L) (mark_stored b results) = map (item_error L) results.
Proof.
  unfold mark_stored. rewrite map_map. apply map_ext. intros r.
  unfold item_error. now rewrite !dict_get_set_other by discriminate.
Qed.

(** The results of Stage 2 are created with [stored] false. *)
Lemma stage2_outcomes_unstored analyze total idx uuids st os st' :
  stage2_outcomes L env analyze total idx uuids st os st' ->
  Forall (fun r => dict_get "stored" r = Some (JBool false)) (lefts os).
Proof. induction 1; cbn [lefts]; try constructor; auto. Qed.

(** Stage 2 with the classifier of the program: the error messages are
    those of the results whose sentiment could not be printed. *)
Lemma stage2_outcomes_errors total idx uuids st os st' :
  stage2_outcomes L env (analyze_with_ai L env) total idx uuids st os st' ->
  rights os = somes (map (item_error L) (lefts os)).
Proof.
  induction 1 as [idx st
                 | idx uuid uuids st analysis sentiment st1 os st' Ha Hp _ IH
                 | idx uuid uuids st analysis sentiment st1 os st' Ha Hp _ IH
                 | idx uuid uuids st e st1 os st' Ha _ _].
  - reflexivity.
  - cbn [lefts rights map]. unfold item_error at 1.
    cbn [new_result dict_get String.eqb Ascii.eqb Bool.eqb].
    rewrite Hp. exact IH.
  - cbn [lefts rights map]. unfold item_error at 1.
    cbn [new_result dict_get String.eqb Ascii.eqb Bool.eqb].
    rewrite Hp. cbn [somes]. now rewrite IH.
  - now apply analyze_with_ai_returns in Ha.
Qed.

(** X6. With the classifier of the program, a run that fetched
    identifiers has one item for each of them, in the order they were
    fetched, with the identifier as [original]; its errors are the
    messages of the items whose sentiment could not be printed, in
    order, so that there is none when every sentiment can be
    printed. *)
Theorem run_pipeline_items_are_the_uuids
    (email : string) (st : State) (uuids : list json) (st1 : State) :
  fetch_uuids L env 3 (started st) = (Ok uuids, st1) ->
  uuids <> [] ->
  exists resp st' items,
    run_pipeline L env email st = (Ok resp, st')
    /\ dict_get "items" resp = Some (JList (map JObject items))
    /\ length items = length uuids
    /\ map (dict_get "original") items = map Some uuids
    /\ dict_get "errors" resp
       = Some (JList (map JStr (somes (map (item_error L) items)))).
Proof.
  intros Hfetch Hne.
  destruct (run_pipeline_stages email st uuids st1 Hfetch Hne)
    as (os & st2 & b & st3 & Hos & _ & Hrun).
  do 2 eexists. exists (mark_stored b (lefts os)).
  split; [exact Hrun |].
  destruct (stage2_outcomes_ai L env _ _ _ _ _ _ Hos) as (Hlen & _).
  destruct (stage2_outcomes_items L env _ _ _ _ _ _ Hos) as (Horig & _).
  split; [reflexivity |]. split; [| split].
  - now rewrite mark_stored_length.
  - rewrite mark_stored_get by discriminate. exact Horig.
  - rewrite mark_stored_item_error.
    rewrite <- (stage2_outcomes_errors _ _ _ _ _ _ Hos). reflexivity.
Qed.

(** X7. The timestamps of a run are successive readings of the clock:
    the item of the i-th identifier has under ["timestamp"] the i-th
    reading since the run began, the response under ["processedAt"]
    the reading after the last item's, each with a [Z] after it; and
    nothing else reads the clock. *)
Theorem run_pipeline_timestamps
    (email : string) (st : State) (uuids : list json) (st1 : State) :
  fetch_uuids L env 3 (started st) = (Ok uuids, st1) ->
  uuids <> [] ->
  exists resp st' items,
    run_pipeline L env email st = (Ok resp, st')
    /\ dict_get "items" resp = Some (JList (map JObject items))
    /\ map (dict_get "timestamp") items
       = map (fun i => Some (JStr (utcnow_isoformat env (clock_reads st + i)
                                     ++ "Z")))
           (seq 0 (length uuids))
    /\ dict_get "processedAt" resp
       = Some (JStr (utcnow_isoformat env (clock_reads st + length uuids)
                       ++ "Z"))
    /\ clock_reads st' = clock_reads st + length uuids + 1.
Proof.
  intros Hfetch Hne.
  destruct (run_pipeline_stages email st uuids st1 Hfetch Hne)
    as (os & st2 & b & st3 & Hos & Hstore & Hrun).
  destruct (fetch_uuids_effect L env _ _ _ _ Hfetch)
    as (_ & _ & F3 & _).
  destruct (stage2_outcomes_counters L env _ _ _ _ _ _ Hos)
    as (_ & _ & _ & S4 & _).
  destruct (stage2_outcomes_items L env _ _ _ _ _ _ Hos) as (_ & Hts).
  destruct (store_results_frame L env _ _ _ _ Hstore) as (_ & _ & T3 & _).
  cbn in F3, S4, T3, Hts.
  assert (Hclock : clock_reads st3 = clock_reads st + length uuids)
    by congruence.
  rewrite Hclock in Hrun. do 2 eexists. exists (mark_stored b (lefts os)).
  split; [exact Hrun |]. split; [reflexivity |]. split; [| split].
  - rewrite mark_stored_get by discriminate. rewrite Hts.
    apply map_ext. intros i. now rewrite F3.
  - reflexivity.
  - cbn. lia.
Qed.

(** X8. What a run asks of the outside: three requests to HTTPBin,
    always; one call to the completion API for each identifier fetched
    when there is an API key, and none without a key or on the abort
    path; one reading of the clock for each item and one for
    [processedAt], and none on the abort path. *)
Theorem run_pipeline_calls (email : string) (st : State) :
  exists uuids st1 resp st',
    fetch_uuids L env 3 (started st) = (Ok uuids, st1)
    /\ run_pipeline L env email st = (Ok resp, st')
    /\ http_calls st' = http_calls st + 3
    /\ chat_calls st' = chat_calls st + length uuids * calls_per_uuid env
    /\ clock_reads st'
       = clock_reads st + match uuids with
                          | [] => 0
                          | _ :: _ => length uuids + 1
                          end.
Proof.
  destruct (fetch_uuids_run L env 3 (started st)) as (st1 & Hfetch & Heff).
  destruct Heff as (F1 & F2 & F3 & _).
  destruct (somes _) as [| uuid uuids] eqn:Hu in Hfetch.
  - exists [], st1. do 2 eexists. split; [exact Hfetch |]. split.
    + unfold run_pipeline. eapply run_pipeline_with_abort. exact Hfetch.
    + cbn in *. repeat split; lia.
  - destruct (run_pipeline_stages email st (uuid :: uuids) st1 Hfetch)
      as (os & st2 & b & st3 & Hos & Hstore & Hrun); [discriminate |].
    destruct (stage2_outcomes_counters L env _ _ _ _ _ _ Hos)
      as (S1 & _ & _ & S4 & S5).
    destruct (store_results_frame L env _ _ _ _ Hstore)
      as (T1 & T2 & T3 & _).
    exists (uuid :: uuids), st1. do 2 eexists.
    split; [exact Hfetch |]. split; [exact Hrun |].
    cbn in *. repeat split; lia.
Qed.


(** X10. The records a run writes are its items as Stage 2 created them,
    with [stored] false: the flag is set on the items of the response
    after the file was written.  The items of the response are those
    results with [stored] set to what [store_results] returned, and
    when that is [True] the file holds the prior records followed by
    the results, with [false] where the response of the same run says
    [true]. *)
Theorem run_pipeline_persists_unstored_items
    (email : string) (st : State) (uuids : list json) (st1 : State) :
  fetch_uuids L env 3 (started st) = (Ok uuids, st1) ->
  uuids <> [] ->
  exists resp st' results items b,
    run_pipeline L env email st = (Ok resp, st')
    /\ dict_get "items" resp = Some (JList (map JObject items))
    /\ Forall (fun r => dict_get "stored" r = Some (JBool false)) results
    /\ Forall2 (stored_as b) results items
    /\ (b = true ->
        exists prior,
          stored_records L (file st) = Some prior
          /\ file st'
             = Some (json_dumps L (JList (prior ++ map JObject results)))).
Proof.
  intros Hfetch Hne.
  destruct (run_pipeline_stages email st uuids st1 Hfetch Hne)
    as (os & st2 & b & st3 & Hos & Hstore & Hrun).
  do 2 eexists. exists (lefts os), (mark_stored b (lefts os)), b.
  split; [exact Hrun |]. split; [reflexivity |]. split; [| split].
  - eapply stage2_outcomes_unstored. exact Hos.
  - apply mark_stored_as.
  - intros ->.
    destruct (store_results_run L env (lefts os) (stage3_entry (lefts os) st2))
      as (b' & s & Hstore' & _ & Htrue).
    rewrite Hstore in Hstore'. injection Hstore' as <- <-.
    destruct (Htrue eq_refl) as (prior & Hprior & Hfile).
    destruct (fetch_uuids_effect L env _ _ _ _ Hfetch)
      as (_ & _ & _ & _ & F5 & _).
    destruct (stage2_outcomes_counters L env _ _ _ _ _ _ Hos)
      as (_ & _ & S3 & _).
    cbn in Hprior, F5, S3. rewrite S3, F5 in Hprior.
    exists prior. split; [exact Hprior | exact Hfile].
Qed.

(** X11. The stages of a run follow one another: leaving the printed
    lines aside, what the run adds to the trace is, the most recent
    first, the events on the result file, then the calls to the
    completion API, one for each identifier when there is a key, then
    the three requests to HTTPBin.  No request is made once the
    classification has begun, and no classification once the file is
    looked for. *)
Theorem run_pipeline_stage_order
    (email : string) (st : State) (uuids : list json) (st1 : State) :
  fetch_uuids L env 3 (started st) = (Ok uuids, st1) ->
  uuids <> [] ->
  exists resp st' new stores chats gets,
    run_pipeline L env email st = (Ok resp, st')
    /\ trace st' = new ++ trace st
    /\ filter (fun ev => negb (is_print ev)) new = stores ++ chats ++ gets
    /\ forallb is_store stores = true
    /\ forallb is_chat chats = true
    /\ forallb is_get gets = true
    /\ length chats = length uuids * calls_per_uuid env
    /\ length gets = 3.
Proof.
  intros Hfetch Hne.
  destruct (run_pipeline_stages email st uuids st1 Hfetch Hne)
    as (os & st2 & b & st3 & Hos & Hstore & Hrun).
  destruct (fetch_uuids_log L env 3 (started st))
    as (uuids' & st1' & new1 & Hfetch' & T1 & G1 & _ & A1).
  rewrite Hfetch in Hfetch'. injection Hfetch' as <- <-.
  destruct (stage2_outcomes_trace L env _ _ _ _ _ _ Hos)
    as (new2 & T2 & A2 & C2).
  destruct (store_results_frame L env _ _ _ _ Hstore)
    as (_ & _ & _ & new3 & T3 & A3).
  cbn in T1, T2, T3.
  do 2 eexists.
  eexists ([_; _; _; _; _] ++ new3 ++ [_; _] ++ new2 ++ [_; _] ++ new1
             ++ [_; _]).
  exists (filter (fun ev => negb (is_print ev)) new3),
    (filter (fun ev => negb (is_print ev)) new2),
    (filter (fun ev => negb (is_print ev)) new1).
  split; [exact Hrun |]. split; [| split; [| split; [| split; [| split;
    [| split]]]]].
  - cbn. rewrite T3, T2, T1. repeat (rewrite <- app_assoc; cbn [app]).
    reflexivity.
  - rewrite !filter_app. cbn. now rewrite !app_nil_r.
  - now apply filter_no_print.
  - now apply filter_no_print.
  - apply filter_no_print.
    eapply forallb_weaken; [apply error_line_is_print | exact A1].
  - rewrite <- C2. apply filter_no_print_count; [| exact A2].
    now intros [].
  - rewrite <- G1. apply filter_no_print_count.
    + now intros [].
    + eapply forallb_weaken; [apply error_line_is_print | exact A1].
Qed.

(** Whether and what the classifier answers depends on the state only
    through the number of calls made before. *)
Lemma classifier_answer_calls text s s' r :
  chat_calls s = chat_calls s' ->
  classifier_answer L env text s r -> classifier_answer L env text s' r.
Proof.
  intros Hc [key content cs parsed analysis sentiment Hk Hchat Hp Ha Hs].
  rewrite Hc in Hchat. econstructor; eassumption.
Qed.

Lemma classifier_failure_calls text s s' e :
  chat_calls s = chat_calls s' ->
  classifier_failure L env text s e -> classifier_failure L env text s' e.
Proof.
  intros Hc H.
  destruct H as [Hk | key e Hk Hchat | key Hk Hchat | key cs Hk Hchat
                | key content cs e Hk Hchat Hp
                | key content cs parsed e Hk Hchat Hp Ha
                | key content cs parsed analysis e Hk Hchat Hp Ha Hs];
    try rewrite Hc in Hchat.
  - now apply missing_api_key.
  - eapply api_call_fails; eassumption.
  - eapply no_choice; eassumption.
  - eapply no_content; eassumption.
  - eapply malformed_json; eassumption.
  - eapply missing_analysis; eassumption.
  - eapply missing_sentiment; eassumption.
Qed.

(** The result made of what [analyze_with_ai] returned for [uuid]. *)
Lemma new_result_classified uuid st analysis sentiment st1 now :
  analyze_with_ai L env uuid st = (Ok (analysis, sentiment), st1) ->
  as_classified L env uuid (chat_calls st)
    (new_result uuid analysis sentiment now).
Proof.
  intros Ha. split; [reflexivity |]. intros s Hs.
  destruct (analyze_with_ai_cases L env uuid st)
    as (st' & [(r & Hrun & Hr) | (e & Hrun & He)]);
    rewrite Ha in Hrun.
  - assert (Hr' : r = (analysis, sentiment)) by congruence. subst r.
    left. exists analysis, sentiment. split; [| split; reflexivity].
    eapply classifier_answer_calls; [symmetry; exact Hs | exact Hr].
  - assert (Hr' : degraded e = (analysis, sentiment)) by congruence.
    unfold degraded in Hr'. injection Hr' as <- <-.
    right. exists e. split; [| split; reflexivity].
    eapply classifier_failure_calls; [symmetry; exact Hs | exact He].
Qed.

(** Stage 2 with the classifier of the program: each result carries
    what the classifier gave at the call made for its identifier. *)
Lemma stage2_outcomes_classified total idx uuids st os st' :
  stage2_outcomes L env (analyze_with_ai L env) total idx uuids st os st' ->
  forall base k,
    chat_calls st = base + k * calls_per_uuid env ->
    Forall2 (fun p result =>
               as_classified L env (snd p)
                 (base + fst p * calls_per_uuid env) result)
      (enumerate uuids k) (lefts os).
Proof.
  induction 1 as [idx st
                 | idx uuid uuids st analysis sentiment st1 os st' Ha _ _ IH
                 | idx uuid uuids st analysis sentiment st1 os st' Ha _ _ IH
                 | idx uuid uuids st e st1 os st' Ha _ _];
    intros base k Hb; cbn [enumerate lefts];
    [ constructor
    | | | now apply analyze_with_ai_returns in Ha ];
    (constructor;
     [ cbn [fst snd]; rewrite <- Hb;
       exact (new_result_classified _ _ _ _ _ _ Ha)
     | apply IH; apply analyze_with_ai_frame in Ha;
       destruct Ha as (_ & _ & _ & _ & A5 & _);
       cbn in A5 |- *; rewrite A5, Hb; cbn [Nat.mul]; lia ]).
Qed.

Lemma mark_stored_classified (l : list (nat * json)) base b results :
  Forall2 (fun p result =>
             as_classified L env (snd p)
               (base + fst p * calls_per_uuid env) result)
    l results ->
  Forall2 (fun p result =>
             as_classified L env (snd p)
               (base + fst p * calls_per_uuid env) result)
    l (mark_stored b results).
Proof.
  induction 1 as [| p r l results Hp _ IH]; [constructor |].
  cbn [mark_stored map]. constructor; [| exact IH].
  unfold as_classified in *.
  now rewrite !dict_get_set_other by discriminate.
Qed.

(** C8, as the program has it.  In the response of every run there is
    one item for each identifier fetched, in order, and the item of the
    i-th carries what the classifier gave at the call made for it (the
    i-th of the run when there is an API key): when that call or the
    reading of its answer fails, the sentiment is ["neutral"] and the
    analysis the text of the failure; otherwise the sentiment and the
    analysis are the values the answer holds under ["sentiment"] and
    ["analysis"], whatever they are.  The program compares the
    sentiment with nothing. *)
Theorem sentiment_is_neutral_or_as_answered (email : string) (st : State) :
  exists uuids st1 resp st' items,
    fetch_uuids L env 3 (started st) = (Ok uuids, st1)
    /\ run_pipeline L env email st = (Ok resp, st')
    /\ dict_get "items" resp = Some (JList (map JObject items))
    /\ Forall2 (fun p item =>
                  as_classified L env (snd p)
                    (chat_calls st + fst p * calls_per_uuid env) item)
         (enumerate uuids 0) items.
Proof.
  destruct (fetch_uuids_run L env 3 (started st)) as (st1 & Hfetch & _).
  destruct (somes _) as [| uuid uuids] eqn:Hu in Hfetch.
  - exists [], st1. do 2 eexists. exists [].
    split; [exact Hfetch |]. split.
    + unfold run_pipeline. eapply run_pipeline_with_abort. exact Hfetch.
    + split; [reflexivity | constructor].
  - destruct (run_pipeline_stages email st (uuid :: uuids) st1 Hfetch)
      as (os & st2 & b & st3 & Hos & _ & Hrun); [discriminate |].
    exists (uuid :: uuids), st1. do 2 eexists.
    exists (mark_stored b (lefts os)).
    split; [exact Hfetch |]. split; [exact Hrun |].
    split; [reflexivity |].
    apply mark_stored_classified.
    apply (stage2_outcomes_classified _ _ _ _ _ _ Hos).
    destruct (fetch_uuids_effect L env _ _ _ _ Hfetch)
      as (_ & F2 & _).
    cbn in F2 |- *. lia.
Qed.

End RunOwn.

Section Health.

Variable L : Lib.
Variable env : Env.

(** X12. The health check changes nothing, and the request it gives as an
    example is one the endpoint accepts: posted as it is, it passes the
    check of the source and is answered with status 200. *)
Theorem health_check_example_is_accepted (st : State) :
  exists h example (email source : string),
    health_check st = (Ok h, st)
    /\ dict_get "example" h = Some (JObject example)
    /\ dict_get "email" example = Some (JStr email)
    /\ dict_get "source" example = Some (JStr source)
    /\ exists resp st',
         post_pipeline L env {| email := email; source := source |} st
         = ({| reply_status := 200; reply_body := JObject resp |}, st').
Proof.
  do 4 eexists. split; [reflexivity |].
  split; [reflexivity |]. split; [reflexivity |]. split; [reflexivity |].
  destruct (run_pipeline_with_returns L env (analyze_with_ai L env)
              "your@email.com" st) as (resp & st' & Hrun).
  exists resp, st'. unfold post_pipeline, pipeline_endpoint.
  cbn [source email]. rewrite String.eqb_refl. cbn [negb].
  erewrite bind_ok by exact Hrun. reflexivity.
Qed.

End Health.

Section WithModel.

Variable env : Env.

Lemma getitem_wf v k x :
  PyJson.wf v -> getitem v k = Ok x -> PyJson.wf x.
Proof.
  intros Hv. destruct v as [| b | z | s | l | d]; try discriminate.
  cbn [getitem]. inversion Hv as [| | | | | | ? _ Hall]; subst. clear Hv.
  induction Hall as [| [k' v'] d Hv' _ IH]; cbn [dict_get]; [discriminate |].
  destruct (String.eqb k k').
  - intros H. now injection H as <-.
  - exact IH.
Qed.

Lemma fetched_uuid_wf o u :
  fetched_uuid PyJson.lib o = Some u -> PyJson.wf u.
Proof.
  unfold fetched_uuid. destruct o as [e | code body]; [discriminate |].
  destruct (is_success code); [| discriminate].
  cbn [json_loads PyJson.lib].
  destruct (PyJson.loads body) as [data | e] eqn:E; [| discriminate].
  destruct (getitem data "uuid") as [x | e] eqn:G; [| discriminate].
  intros H. injection H as <-.
  eapply getitem_wf; [| exact G]. eapply PyJsonFacts.loads_wf. exact E.
Qed.

Lemma fetch_uuids_wf count st uuids st' :
  fetch_uuids PyJson.lib env count st = (Ok uuids, st') ->
  Forall PyJson.wf uuids.
Proof.
  destruct (fetch_uuids_run PyJson.lib env count st) as (s & Hrun & _).
  rewrite Hrun. intros H. injection H as <- _. clear Hrun.
  induction (seq 0 count) as [| i l IH]; [constructor |].
  cbn [map somes].
  destruct (fetched_uuid PyJson.lib (http_get env (http_calls st + i)))
    eqn:E; [| exact IH].
  constructor; [| exact IH]. eapply fetched_uuid_wf. exact E.
Qed.

Lemma analyze_with_ai_wf text st analysis sentiment st' :
  analyze_with_ai PyJson.lib env text st = (Ok (analysis, sentiment), st') ->
  PyJson.wf analysis /\ PyJson.wf sentiment.
Proof.
  intros Hrun.
  destruct (analyze_with_ai_cases PyJson.lib env text st)
    as (s & [(r & Hrun' & Hans) | (e & Hrun' & _)]);
    rewrite Hrun in Hrun'.
  - injection Hrun' as <- _.
    inversion Hans as [key content cs parsed a v _ _ Hp Ha Hv]; subst.
    cbn [json_loads PyJson.lib] in Hp. apply PyJsonFacts.loads_wf in Hp.
    split; eapply getitem_wf; eassumption.
  - injection Hrun' as -> -> _. split; constructor.
Qed.

Lemma new_result_wf uuid analysis sentiment instant :
  PyJson.wf uuid -> PyJson.wf analysis -> PyJson.wf sentiment ->
  PyJson.wf (JObject (new_result uuid analysis sentiment instant)).
Proof.
  intros Hu Ha Hs. constructor.
  - cbn. repeat constructor; cbn; intuition discriminate.
  - repeat constructor; assumption.
Qed.

Lemma stage2_outcomes_wf total idx uuids st os st' :
  stage2_outcomes PyJson.lib env (analyze_with_ai PyJson.lib env)
    total idx uuids st os st' ->
  Forall PyJson.wf uuids ->
  Forall (fun r => PyJson.wf (JObject r)) (lefts os).
Proof.
  induction 1 as [idx st
                 | idx uuid uuids st analysis sentiment st1 os st' Ha _ _ IH
                 | idx uuid uuids st analysis sentiment st1 os st' Ha _ _ IH
                 | idx uuid uuids st e st1 os st' Ha _ IH];
    intros Hwf; inversion Hwf; subst; cbn [lefts]; auto;
    try (apply analyze_with_ai_wf in Ha; destruct Ha as (Ha & Hs);
         constructor; [now apply new_result_wf | auto]).
Qed.

(** A run that stored its items, with the model of [json]: the file
    reloads to the prior records followed by the items as created. *)
Lemma run_pipeline_reloads email st uuids st1 :
  fetch_uuids PyJson.lib env 3 (started st) = (Ok uuids, st1) ->
  uuids <> [] ->
  exists results b now st',
    run_pipeline PyJson.lib env email st
    = (Ok (response (mark_stored b results) true now
             (somes (map (item_error PyJson.lib) results))), st')
    /\ length results = length uuids
    /\ map (dict_get "original") results = map Some uuids
    /\ Forall (fun r => dict_get "stored" r = Some (JBool false)) results
    /\ (b = true ->
        exists prior,
          stored_records PyJson.lib (file st) = Some prior
          /\ stored_records PyJson.lib (file st')
             = Some (prior ++ map JObject results)).
Proof.
  intros Hfetch Hne.
  destruct (run_pipeline_stages PyJson.lib env email st uuids st1 Hfetch Hne)
    as (os & st2 & b & st3 & Hos & Hstore & Hrun).
  rewrite (stage2_outcomes_errors _ _ _ _ _ _ _ _ Hos) in Hrun.
  exists (lefts os), b. do 2 eexists. split; [exact Hrun |]. split.
  { now destruct (stage2_outcomes_ai _ _ _ _ _ _ _ _ Hos) as (Hlen & _). }
  split; [apply (stage2_outcomes_items _ _ _ _ _ _ _ _ Hos) |]. split.
  { eapply stage2_outcomes_unstored. exact Hos. }
  intros ->.
  destruct (store_results_reloads env _ _ _ Hstore) as (prior & Hp & Hr).
  { eapply stage2_outcomes_wf; [exact Hos |].
    eapply fetch_uuids_wf. exact Hfetch. }
  destruct (fetch_uuids_effect _ env _ _ _ _ Hfetch)
    as (_ & _ & _ & _ & F5 & _).
  destruct (stage2_outcomes_counters _ env _ _ _ _ _ _ Hos)
    as (_ & _ & S3 & _).
  cbn in Hp, F5, S3. rewrite S3, F5 in Hp.
  exists prior. split; [exact Hp | exact Hr].
Qed.

(** X13. With the model of [json] for the library, nothing is assumed
    of it: after a run that stored its items, reloading the file yields
    the records it held before the run followed by one record for each
    identifier fetched, in order, with the identifier as [original] and
    [stored] false.  The errors of the response are the messages of the
    results whose sentiment could not be printed. *)
Theorem run_pipeline_reloads_its_items
    (email : string) (st : State) (uuids : list json) (st1 : State) :
  fetch_uuids PyJson.lib env 3 (started st) = (Ok uuids, st1) ->
  uuids <> [] ->
  exists results b now st',
    run_pipeline PyJson.lib env email st
    = (Ok (response (mark_stored b results) true now
             (somes (map (item_error PyJson.lib) results))), st')
    /\ map (dict_get "original") results = map Some uuids
    /\ Forall (fun r => dict_get "stored" r = Some (JBool false)) results
    /\ (b = true ->
        exists prior,
          stored_records PyJson.lib (file st) = Some prior
          /\ stored_records PyJson.lib (file st')
             = Some (prior ++ map JObject results)).
Proof.
  intros Hfetch Hne.
  destruct (run_pipeline_reloads email st uuids st1 Hfetch Hne)
    as (results & b & now & st' & Hrun & _ & Horig & Hst & Hre).
  exists results, b, now, st'. now repeat split.
Qed.

(** X14. With the model of [json] for the library, the records of
    successive runs accumulate: when two runs in a row both stored
    their items, the file reloads to what it held before the first,
    followed by the items of the first run, then those of the second,
    each as it was created. *)
Theorem two_runs_accumulate
    (email1 email2 : string) (st : State)
    (uuids1 : list json) (sa : State) (uuids2 : list json) (sb : State) :
  fetch_uuids PyJson.lib env 3 (started st) = (Ok uuids1, sa) ->
  uuids1 <> [] ->
  fetch_uuids PyJson.lib env 3
    (started (snd (run_pipeline PyJson.lib env email1 st)))
  = (Ok uuids2, sb) ->
  uuids2 <> [] ->
  exists results1 b1 now1 st1 results2 b2 now2 st2,
    run_pipeline PyJson.lib env email1 st
    = (Ok (response (mark_stored b1 results1) true now1
             (somes (map (item_error PyJson.lib) results1))), st1)
    /\ run_pipeline PyJson.lib env email2 st1
       = (Ok (response (mark_stored b2 results2) true now2
                (somes (map (item_error PyJson.lib) results2))), st2)
    /\ length results1 = length uuids1
    /\ length results2 = length uuids2
    /\ (b1 = true -> b2 = true ->
        exists prior,
          stored_records PyJson.lib (file st) = Some prior
          /\ stored_records PyJson.lib (file st2)
             = Some (prior ++ map JObject results1 ++ map JObject results2)).
Proof.
  intros Hf1 Hn1 Hf2 Hn2.
  destruct (run_pipeline_reloads email1 st uuids1 sa Hf1 Hn1)
    as (r1 & b1 & now1 & st1 & Hrun1 & Hl1 & _ & _ & Hre1).
  rewrite Hrun1 in Hf2. cbn [snd] in Hf2.
  destruct (run_pipeline_reloads email2 st1 uuids2 sb Hf2 Hn2)
    as (r2 & b2 & now2 & st2 & Hrun2 & Hl2 & _ & _ & Hre2).
  exists r1, b1, now1, st1, r2, b2, now2, st2.
  repeat (split; [assumption |]).
  intros H1 H2.
  destruct (Hre1 H1) as (prior & Hp & Hr1).
  destruct (Hre2 H2) as (prior2 & Hp2 & Hr2).
  rewrite Hr1 in Hp2. injection Hp2 as <-.
  exists prior. split; [exact Hp |]. now rewrite Hr2, <- app_assoc.
Qed.

(** X15. With the model of [json] for the library, [store_results] only
    ever appends: two calls that returned [True], the second finding
    the file as the first left it, leave a file that reloads to the
    prior records, then the records of the first call, then those of
    the second, a record given twice being there twice. *)
Theorem store_results_twice
    (results1 results2 : list pydict) (st st1 st1' st2 : State) :
  Forall (fun r => PyJson.wf (JObject r)) results1 ->
  Forall (fun r => PyJson.wf (JObject r)) results2 ->
  store_results PyJson.lib env results1 st = (Ok true, st1) ->
  file st1' = file st1 ->
  store_results PyJson.lib env results2 st1' = (Ok true, st2) ->
  exists prior,
    stored_records PyJson.lib (file st) = Some prior
    /\ stored_records PyJson.lib (file st2)
       = Some (prior ++ map JObject results1 ++ map JObject results2).
Proof.
  intros Hw1 Hw2 H1 Hfile H2.
  destruct (store_results_reloads env _ _ _ H1 Hw1) as (prior & Hp & Hr1).
  destruct (store_results_reloads env _ _ _ H2 Hw2) as (prior2 & Hp2 & Hr2).
  rewrite Hfile, Hr1 in Hp2. injection Hp2 as <-.
  exists prior. split; [exact Hp |]. now rewrite Hr2, <- app_assoc.
Qed.

End WithModel.

(** ** The further statements on concrete runs *)

(** A full disk, with a file of one record: [store_results] returns
    [False] and leaves ten characters of the new text. *)
Lemma store_results_failure_witness :
  (false = true
   <-> store_succeeds PyJson.lib Runs.disk_full Scenario.st_one_record)
  /\ (false = false ->
      file (snd (store_results PyJson.lib Runs.disk_full
                   [Scenario.new_record] Scenario.st_one_record))
      = file Scenario.st_one_record
      \/ exists prior,
           stored_records PyJson.lib (file Scenario.st_one_record)
           = Some prior
           /\ truncated_write Runs.disk_full Scenario.st_one_record
                (json_dumps PyJson.lib
                   (JList (prior ++ map JObject [Scenario.new_record])))
                (snd (store_results PyJson.lib Runs.disk_full
                        [Scenario.new_record] Scenario.st_one_record))).
Proof.
  apply (store_results_failure PyJson.lib Runs.disk_full
           [Scenario.new_record] Scenario.st_one_record false).
  vm_compute. reflexivity.
Defined.

Lemma store_results_twice_witness :
  exists prior,
    stored_records PyJson.lib (file Scenario.st_one_record) = Some prior
    /\ stored_records PyJson.lib
         (file (snd (store_results PyJson.lib Scenario.no_key
                       [Runs.second_record]
                       (snd (store_results PyJson.lib Scenario.no_key
                               [Scenario.new_record]
                               Scenario.st_one_record)))))
       = Some (prior ++ map JObject [Scenario.new_record]
                 ++ map JObject [Runs.second_record]).
Proof.
  apply (store_results_twice Scenario.no_key
           [Scenario.new_record] [Runs.second_record]
           Scenario.st_one_record
           (snd (store_results PyJson.lib Scenario.no_key
                   [Scenario.new_record] Scenario.st_one_record))
           (snd (store_results PyJson.lib Scenario.no_key
                   [Scenario.new_record] Scenario.st_one_record))).
  - repeat constructor; vm_compute; intuition discriminate.
  - repeat constructor; vm_compute; intuition discriminate.
  - vm_compute. reflexivity.
  - reflexivity.
  - vm_compute. reflexivity.
Defined.

Lemma analyze_with_ai_calls_once_witness :
  http_calls (snd (analyze_with_ai PyJson.lib Scenario.angry
                     (JStr (Scenario.uuid_of 0)) Scenario.st0))
  = http_calls Scenario.st0
  /\ clock_reads (snd (analyze_with_ai PyJson.lib Scenario.angry
                         (JStr (Scenario.uuid_of 0)) Scenario.st0))
     = clock_reads Scenario.st0
  /\ file_ops (snd (analyze_with_ai PyJson.lib Scenario.angry
                      (JStr (Scenario.uuid_of 0)) Scenario.st0))
     = file_ops Scenario.st0
  /\ file (snd (analyze_with_ai PyJson.lib Scenario.angry
                  (JStr (Scenario.uuid_of 0)) Scenario.st0))
     = file Scenario.st0
  /\ chat_calls (snd (analyze_with_ai PyJson.lib Scenario.angry
                        (JStr (Scenario.uuid_of 0)) Scenario.st0))
     = S (chat_calls Scenario.st0)
  /\ trace (snd (analyze_with_ai PyJson.lib Scenario.angry
                   (JStr (Scenario.uuid_of 0)) Scenario.st0))
     = EvChat "gpt-3.5-turbo"
         (prompt_of PyJson.lib (JStr (Scenario.uuid_of 0)))
       :: trace Scenario.st0.
Proof.
  apply (analyze_with_ai_calls_once PyJson.lib Scenario.angry
           (JStr (Scenario.uuid_of 0)) Scenario.st0
           (Ok (JStr "ok", JStr "angry"))).
  vm_compute. reflexivity.
Defined.

Lemma response_items_shape_witness :
  exists results,
    match dict_get "items"
            (match fst (run_pipeline_with PyJson.lib Scenario.no_key
                          Scenario.stub "a@b.com" Scenario.st0) with
             | Ok resp => resp
             | Raise _ => []
             end) with
    | Some (JList items) => items
    | _ => []
    end = map JObject results
    /\ Forall (fun r => map fst r = item_keys) results.
Proof.
  eapply (response_items_shape PyJson.lib Scenario.no_key Scenario.stub
            "a@b.com" Scenario.st0).
  - vm_compute. reflexivity.
  - vm_compute. reflexivity.
Defined.


Lemma run_pipeline_items_are_the_uuids_witness :
  exists resp st' items,
    run_pipeline PyJson.lib Scenario.surrogate "a@b.com" Scenario.st0
    = (Ok resp, st')
    /\ dict_get "items" resp = Some (JList (map JObject items))
    /\ length items = length Runs.fetched
    /\ map (dict_get "original") items = map Some Runs.fetched
    /\ dict_get "errors" resp
       = Some (JList (map JStr (somes (map (item_error PyJson.lib) items)))).
Proof.
  apply (run_pipeline_items_are_the_uuids PyJson.lib Scenario.surrogate
           "a@b.com" Scenario.st0 Runs.fetched
           (snd (fetch_uuids PyJson.lib Scenario.surrogate 3
                   (started Scenario.st0)))).
  - vm_compute. reflexivity.
  - discriminate.
Defined.

Lemma run_pipeline_timestamps_witness :
  exists resp st' items,
    run_pipeline PyJson.lib Scenario.angry "a@b.com" Scenario.st0
    = (Ok resp, st')
    /\ dict_get "items" resp = Some (JList (map JObject items))
    /\ map (dict_get "timestamp") items
       = map (fun i =>
                Some (JStr (utcnow_isoformat Scenario.angry
                              (clock_reads Scenario.st0 + i) ++ "Z")))
           (seq 0 (length Runs.fetched))
    /\ dict_get "processedAt" resp
       = Some (JStr (utcnow_isoformat Scenario.angry
                       (clock_reads Scenario.st0 + length Runs.fetched)
                     ++ "Z"))
    /\ clock_reads st'
       = clock_reads Scenario.st0 + length Runs.fetched + 1.
Proof.
  apply (run_pipeline_timestamps PyJson.lib Scenario.angry
           "a@b.com" Scenario.st0 Runs.fetched
           (snd (fetch_uuids PyJson.lib Scenario.angry 3
                   (started Scenario.st0)))).
  - vm_compute. reflexivity.
  - discriminate.
Defined.

Lemma run_pipeline_persists_unstored_items_witness :
  exists resp st' results items b,
    run_pipeline PyJson.lib Scenario.no_key "a@b.com" Scenario.st_one_record
    = (Ok resp, st')
    /\ dict_get "items" resp = Some (JList (map JObject items))
    /\ Forall (fun r => dict_get "stored" r = Some (JBool false)) results
    /\ Forall2 (stored_as b) results items
    /\ (b = true ->
        exists prior,
          stored_records PyJson.lib (file Scenario.st_one_record)
          = Some prior
          /\ file st'
             = Some (json_dumps PyJson.lib
                       (JList (prior ++ map JObject results)))).
Proof.
  apply (run_pipeline_persists_unstored_items PyJson.lib Scenario.no_key
           "a@b.com" Scenario.st_one_record Runs.fetched
           (snd (fetch_uuids PyJson.lib Scenario.no_key 3
                   (started Scenario.st_one_record)))).
  - vm_compute. reflexivity.
  - discriminate.
Defined.

Lemma run_pipeline_stage_order_witness :
  exists resp st' new stores chats gets,
    run_pipeline PyJson.lib Scenario.angry "a@b.com" Scenario.st0
    = (Ok resp, st')
    /\ trace st' = new ++ trace Scenario.st0
    /\ filter (fun ev => negb (is_print ev)) new = stores ++ chats ++ gets
    /\ forallb is_store stores = true
    /\ forallb is_chat chats = true
    /\ forallb is_get gets = true
    /\ length chats = length Runs.fetched * calls_per_uuid Scenario.angry
    /\ length gets = 3.
Proof.
  apply (run_pipeline_stage_order PyJson.lib Scenario.angry
           "a@b.com" Scenario.st0 Runs.fetched
           (snd (fetch_uuids PyJson.lib Scenario.angry 3
                   (started Scenario.st0)))).
  - vm_compute. reflexivity.
  - discriminate.
Defined.

Lemma run_pipeline_reloads_its_items_witness :
  exists results b now st',
    run_pipeline PyJson.lib Scenario.no_key "a@b.com" Scenario.st_one_record
    = (Ok (response (mark_stored b results) true now
             (somes (map (item_error PyJson.lib) results))), st')
    /\ map (dict_get "original") results = map Some Runs.fetched
    /\ Forall (fun r => dict_get "stored" r = Some (JBool false)) results
    /\ (b = true ->
        exists prior,
          stored_records PyJson.lib (file Scenario.st_one_record)
          = Some prior
          /\ stored_records PyJson.lib (file st')
             = Some (prior ++ map JObject results)).
Proof.
  apply (run_pipeline_reloads_its_items Scenario.no_key
           "a@b.com" Scenario.st_one_record Runs.fetched
           (snd (fetch_uuids PyJson.lib Scenario.no_key 3
                   (started Scenario.st_one_record)))).
  - vm_compute. reflexivity.
  - discriminate.
Defined.

Lemma two_runs_accumulate_witness :
  exists results1 b1 now1 st1 results2 b2 now2 st2,
    run_pipeline PyJson.lib Scenario.no_key "a@b.com" Scenario.st_one_record
    = (Ok (response (mark_stored b1 results1) true now1
             (somes (map (item_error PyJson.lib) results1))), st1)
    /\ run_pipeline PyJson.lib Scenario.no_key "c@d.org" st1
       = (Ok (response (mark_stored b2 results2) true now2
                (somes (map (item_error PyJson.lib) results2))), st2)
    /\ length results1 = length Runs.fetched
    /\ length results2 = length Runs.fetched_next
    /\ (b1 = true -> b2 = true ->
        exists prior,
          stored_records PyJson.lib (file Scenario.st_one_record)
          = Some prior
          /\ stored_records PyJson.lib (file st2)
             = Some (prior ++ map JObject results1
                       ++ map JObject results2)).
Proof.
  apply (two_runs_accumulate Scenario.no_key "a@b.com" "c@d.org"
           Scenario.st_one_record Runs.fetched
           (snd (fetch_uuids PyJson.lib Scenario.no_key 3
                   (started Scenario.st_one_record)))
           Runs.fetched_next
           (snd (fetch_uuids PyJson.lib Scenario.no_key 3
                   (started
                      (snd (run_pipeline PyJson.lib Scenario.no_key
                              "a@b.com" Scenario.st_one_record)))))).
  - vm_compute. reflexivity.
  - discriminate.
  - vm_compute. reflexivity.
  - discriminate.
Defined.
